(** * Signaling core of the messaging client

    A shallow embedding of the push transport ([WebSocketService.js]),
    of the calling API state ([callAPI.ts]) and of the calling
    repository, followed by the properties checked against them. *)

From Stdlib Require Import ZArith NArith String Ascii List Lia.
From Stdlib Require QArith Qround.
From stdpp Require Import base gmap strings list pretty.
Import ListNotations.

Local Open Scope Z_scope.
Set Warnings "-register-all".

(** ** JSON texts

    [JSON.parse] and [JSON.stringify] are host functions.  The transport
    hands every non-"pong" frame to [JSON.parse], and the calling API
    serialises its outbound payload with [JSON.stringify]; both are
    given here as executable functions over the ECMA-404 grammar.
    Numbers keep their lexeme, strings are held decoded (an escape
    [\uXXXX] is stored as the UTF-8 bytes of that code unit), object
    members are kept in source order. *)
Module JSON.

Inductive value :=
| Null
| Bool (b : bool)
| Number (lexeme : string)
| Str (s : string)
| Array (items : list value)
| Object (members : list (string * value)).

Definition chr (n : nat) : ascii := ascii_of_nat n.
Definition code (c : ascii) : N := N_of_ascii c.
Definition is_code (n : N) (c : ascii) : bool := N.eqb (code c) n.

Definition dquote : ascii := chr 34.
Definition backslash : ascii := chr 92.

Definition is_ws (c : ascii) : bool :=
  is_code 32 c || is_code 9 c || is_code 10 c || is_code 13 c.

Definition is_digit (c : ascii) : bool :=
  N.leb 48 (code c) && N.leb (code c) 57.

Definition is_digit19 (c : ascii) : bool :=
  N.leb 49 (code c) && N.leb (code c) 57.

Fixpoint skip_ws (l : list ascii) : list ascii :=
  match l with
  | c :: r => if is_ws c then skip_ws r else l
  | [] => []
  end.

Fixpoint take_digits (l : list ascii) : list ascii * list ascii :=
  match l with
  | c :: r =>
      if is_digit c
      then let '(ds, r') := take_digits r in (c :: ds, r')
      else ([], l)
  | [] => ([], [])
  end.

Fixpoint strip_prefix (p l : list ascii) : option (list ascii) :=
  match p, l with
  | [], _ => Some l
  | a :: p', b :: l' => if Ascii.eqb a b then strip_prefix p' l' else None
  | _ :: _, [] => None
  end.

(** number = [-] int [frac] [exp] *)
Definition parse_int (l : list ascii) : option (list ascii * list ascii) :=
  match l with
  | c :: r =>
      if is_code 48 c then Some ([c], r)
      else if is_digit19 c
           then let '(ds, r') := take_digits r in Some (c :: ds, r')
           else None
  | [] => None
  end.

Definition parse_frac (l : list ascii) : option (list ascii * list ascii) :=
  match l with
  | c :: r =>
      if is_code 46 c
      then match take_digits r with
           | ([], _) => None
           | (ds, r') => Some (c :: ds, r')
           end
      else Some ([], l)
  | [] => Some ([], l)
  end.

Definition parse_exp (l : list ascii) : option (list ascii * list ascii) :=
  match l with
  | c :: r =>
      if is_code 101 c || is_code 69 c
      then
        let '(sg, r1) :=
          match r with
          | s :: r0 => if is_code 43 s || is_code 45 s then ([s], r0) else ([], r)
          | [] => ([], r)
          end in
        match take_digits r1 with
        | ([], _) => None
        | (ds, r') => Some (c :: sg ++ ds, r')
        end
      else Some ([], l)
  | [] => Some ([], l)
  end.

Definition parse_number (l : list ascii) : option (value * list ascii) :=
  let '(sg, l1) :=
    match l with
    | c :: r => if is_code 45 c then ([c], r) else ([], l)
    | [] => ([], l)
    end in
  match parse_int l1 with
  | None => None
  | Some (i, l2) =>
      match parse_frac l2 with
      | None => None
      | Some (f, l3) =>
          match parse_exp l3 with
          | None => None
          | Some (e, l4) =>
              Some (Number (string_of_list_ascii (sg ++ i ++ f ++ e)), l4)
          end
      end
  end.

Definition hex_digit (c : ascii) : option N :=
  let n := code c in
  if N.leb 48 n && N.leb n 57 then Some (n - 48)%N
  else if N.leb 97 n && N.leb n 102 then Some (n - 87)%N
  else if N.leb 65 n && N.leb n 70 then Some (n - 55)%N
  else None.

Definition byte (n : N) : ascii := ascii_of_N n.

(** The UTF-8 bytes of one 16-bit code unit. *)
Definition utf8_of_unit (n : N) : list ascii :=
  if N.ltb n 128 then [byte n]
  else if N.ltb n 2048
       then [byte (192 + n / 64); byte (128 + n mod 64)]%N
       else [byte (224 + n / 4096); byte (128 + (n / 64) mod 64);
             byte (128 + n mod 64)]%N.

Definition simple_escape (e : ascii) : option ascii :=
  if is_code 34 e then Some dquote
  else if is_code 92 e then Some backslash
  else if is_code 47 e then Some (chr 47)
  else if is_code 98 e then Some (chr 8)
  else if is_code 102 e then Some (chr 12)
  else if is_code 110 e then Some (chr 10)
  else if is_code 114 e then Some (chr 13)
  else if is_code 116 e then Some (chr 9)
  else None.

(** The characters after an opening quote, up to the closing one. *)
Fixpoint parse_chars (l : list ascii) : option (list ascii * list ascii) :=
  match l with
  | [] => None
  | c :: r =>
      if is_code 34 c then Some ([], r)
      else if is_code 92 c then
        match r with
        | [] => None
        | e :: r' =>
            if is_code 117 e then
              match r' with
              | h1 :: h2 :: h3 :: h4 :: r'' =>
                  match hex_digit h1, hex_digit h2, hex_digit h3, hex_digit h4 with
                  | Some a, Some b, Some c', Some d =>
                      match parse_chars r'' with
                      | Some (cs, rest) =>
                          Some (utf8_of_unit (a * 4096 + b * 256 + c' * 16 + d)%N ++ cs, rest)
                      | None => None
                      end
                  | _, _, _, _ => None
                  end
              | _ => None
              end
            else
              match simple_escape e with
              | Some x =>
                  match parse_chars r' with
                  | Some (cs, rest) => Some (x :: cs, rest)
                  | None => None
                  end
              | None => None
              end
        end
      else if N.ltb (code c) 32 then None
      else
        match parse_chars r with
        | Some (cs, rest) => Some (c :: cs, rest)
        | None => None
        end
  end.

Definition parse_string (l : list ascii) : option (string * list ascii) :=
  match l with
  | c :: r =>
      if is_code 34 c
      then match parse_chars r with
           | Some (cs, rest) => Some (string_of_list_ascii cs, rest)
           | None => None
           end
      else None
  | [] => None
  end.

Definition lit (s : string) : list ascii := list_ascii_of_string s.

Fixpoint parse_value (fuel : nat) (l : list ascii) {struct fuel}
  : option (value * list ascii) :=
  match fuel with
  | O => None
  | S f =>
      match skip_ws l with
      | [] => None
      | c :: r =>
          if is_code 110 c then
            match strip_prefix (lit "ull") r with
            | Some r' => Some (Null, r') | None => None end
          else if is_code 116 c then
            match strip_prefix (lit "rue") r with
            | Some r' => Some (Bool true, r') | None => None end
          else if is_code 102 c then
            match strip_prefix (lit "alse") r with
            | Some r' => Some (Bool false, r') | None => None end
          else if is_code 34 c then
            match parse_string (c :: r) with
            | Some (s, r') => Some (Str s, r') | None => None end
          else if is_code 91 c then
            match skip_ws r with
            | c' :: r' =>
                if is_code 93 c' then Some (Array [], r')
                else match parse_elements f r with
                     | Some (vs, r'') => Some (Array vs, r'')
                     | None => None
                     end
            | [] => None
            end
          else if is_code 123 c then
            match skip_ws r with
            | c' :: r' =>
                if is_code 125 c' then Some (Object [], r')
                else match parse_members f r with
                     | Some (ms, r'') => Some (Object ms, r'')
                     | None => None
                     end
            | [] => None
            end
          else parse_number (c :: r)
      end
  end
with parse_elements (fuel : nat) (l : list ascii) {struct fuel}
  : option (list value * list ascii) :=
  match fuel with
  | O => None
  | S f =>
      match parse_value f l with
      | None => None
      | Some (v, r) =>
          match skip_ws r with
          | c :: r' =>
              if is_code 44 c then
                match parse_elements f r' with
                | Some (vs, r'') => Some (v :: vs, r'')
                | None => None
                end
              else if is_code 93 c then Some ([v], r')
              else None
          | [] => None
          end
      end
  end
with parse_members (fuel : nat) (l : list ascii) {struct fuel}
  : option (list (string * value) * list ascii) :=
  match fuel with
  | O => None
  | S f =>
      match parse_string (skip_ws l) with
      | None => None
      | Some (k, r0) =>
          match skip_ws r0 with
          | c0 :: r1 =>
              if is_code 58 c0 then
                match parse_value f r1 with
                | None => None
                | Some (v, r) =>
                    match skip_ws r with
                    | c :: r' =>
                        if is_code 44 c then
                          match parse_members f r' with
                          | Some (ms, r'') => Some ((k, v) :: ms, r'')
                          | None => None
                          end
                        else if is_code 125 c then Some ([(k, v)], r')
                        else None
                    | [] => None
                    end
                end
              else None
          | [] => None
          end
      end
  end.

(** [JSON.parse text]: [None] stands for the thrown [SyntaxError]. *)
Definition parse (text : string) : option value :=
  let l := list_ascii_of_string text in
  match parse_value (2 * List.length l + 2) l with
  | Some (v, rest) =>
      match skip_ws rest with
      | [] => Some v
      | _ :: _ => None
      end
  | None => None
  end.

Definition hex_char (n : N) : ascii :=
  if N.ltb n 10 then byte (48 + n) else byte (87 + n).

Definition escape_char (c : ascii) : list ascii :=
  let n := code c in
  if N.eqb n 34 then [backslash; dquote]
  else if N.eqb n 92 then [backslash; backslash]
  else if N.eqb n 8 then [backslash; chr 98]
  else if N.eqb n 12 then [backslash; chr 102]
  else if N.eqb n 10 then [backslash; chr 110]
  else if N.eqb n 13 then [backslash; chr 114]
  else if N.eqb n 9 then [backslash; chr 116]
  else if N.ltb n 32
       then [backslash; chr 117; chr 48; chr 48; hex_char (n / 16); hex_char (n mod 16)]
       else [c].

Definition quote (s : string) : list ascii :=
  dquote :: flat_map escape_char (list_ascii_of_string s) ++ [dquote].

Fixpoint join (sep : list ascii) (parts : list (list ascii)) : list ascii :=
  match parts with
  | [] => []
  | [p] => p
  | p :: ps => p ++ sep ++ join sep ps
  end.

Fixpoint stringify_chars (v : value) : list ascii :=
  match v with
  | Null => lit "null"
  | Bool true => lit "true"
  | Bool false => lit "false"
  | Number lx => lit lx
  | Str s => quote s
  | Array items =>
      lit "[" ++ join (lit ",") (List.map stringify_chars items) ++ lit "]"
  | Object members =>
      lit "{"
      ++ join (lit ",")
           (List.map (fun m => quote (fst m) ++ lit ":" ++ stringify_chars (snd m)) members)
      ++ lit "}"
  end.

(** [JSON.stringify v] *)
Definition stringify (v : value) : string :=
  string_of_list_ascii (stringify_chars v).

(** Own-property read [o.k] of a parsed object. *)
Fixpoint assoc (k : string) (ms : list (string * value)) : option value :=
  match ms with
  | [] => None
  | (k', v) :: r => if String.eqb k k' then Some v else assoc k r
  end.

Definition get (k : string) (v : value) : option value :=
  match v with
  | Object ms => assoc k ms
  | _ => None
  end.

(** Values without numbers, and the nesting measure that bounds the
    fuel [parse_value] needs for the text of a value. *)
Fixpoint number_free (v : value) : bool :=
  match v with
  | Number _ => false
  | Array items => forallb number_free items
  | Object members => forallb (fun m => number_free (snd m)) members
  | _ => true
  end.

Fixpoint list_weight (ws : list nat) : nat :=
  match ws with
  | [] => O
  | w :: rest => S (Nat.max w (list_weight rest))
  end.

Fixpoint weight (v : value) : nat :=
  match v with
  | Array items => S (list_weight (List.map weight items))
  | Object members => S (list_weight (List.map (fun m => weight (snd m)) members))
  | _ => O
  end.

(** The text of a number-free value starts with a character that is
    neither white space nor a closing bracket. *)
Definition opens_value (l : list ascii) : Prop :=
  exists c r, l = c :: r /\ is_ws c = false /\ is_code 93 c = false /\ is_code 125 c = false.

(** [parse_value] reads the text of [v] back, whatever follows it,
    with any fuel above the weight of [v]. *)
Definition parses (v : value) : Prop :=
  forall fuel rest, (weight v < fuel)%nat ->
                    parse_value fuel (stringify_chars v ++ rest) = Some (v, rest).

End JSON.

(** ** Handlers

    Every handler of the two components runs to completion on the one
    event loop: it reads and writes the state of its component, may
    throw, and acts on the outside.  [M St Ef X A] is such a handler;
    the trace lists what it did to the outside, in order, and is kept
    when it throws. *)
Module Handler.

Inductive Completion (X A : Type) :=
| Normal (a : A)
| Throw (e : X).
Arguments Normal {X A} a.
Arguments Throw {X A} e.

Definition M (St Ef X A : Type) : Type := St -> Completion X A * St * list Ef.

Definition ret {St Ef X A} (a : A) : M St Ef X A := fun s => (Normal a, s, []).

Definition bind {St Ef X A B} (m : M St Ef X A) (k : A -> M St Ef X B) : M St Ef X B :=
fun s =>
  match m s with
  | (Normal a, s1, t1) =>
      match k a s1 with
      | (r, s2, t2) => (r, s2, t1 ++ t2)
      end
  | (Throw e, s1, t1) => (Throw e, s1, t1)
  end.

Definition get {St Ef X} : M St Ef X St := fun s => (Normal s, s, []).
Definition modify {St Ef X} (f : St -> St) : M St Ef X unit := fun s => (Normal tt, f s, []).
Definition emit {St Ef X} (e : Ef) : M St Ef X unit := fun s => (Normal tt, s, [e]).
Definition throw {St Ef X A} (e : X) : M St Ef X A := fun s => (Throw e, s, []).

Definition completion {St Ef X A} (r : Completion X A * St * list Ef) : Completion X A := r.1.1.
Definition state_of {St Ef X A} (r : Completion X A * St * list Ef) : St := r.1.2.
Definition trace {St Ef X A} (r : Completion X A * St * list Ef) : list Ef := r.2.

Declare Scope handler_scope.
Delimit Scope handler_scope with handler.
Notation "x <- m ;; k" := (bind m (fun x => k))
(at level 100, m at next level, right associativity) : handler_scope.
Notation "m ;; k" := (bind m (fun _ => k))
(at level 100, right associativity) : handler_scope.

End Handler.

(** ** The push transport: [WebSocketService] *)
Module WebSocketService.
Import Handler.
Local Open Scope handler_scope.

Module CHANGE_TRIGGER.
Inductive t :=
| CLEANUP | CLOSE | ERROR | LOGOUT | OFFLINE | ONLINE
| PAGE_NAVIGATION | PING_INTERVAL | READY_STATE | WARNING_BAR.

#[export] Instance eq_dec : EqDecision t.
Proof. solve_decision. Defined.
End CHANGE_TRIGGER.

Module CONFIG.
Definition SECOND : Z := 1000.
Definition PING_INTERVAL : Z := SECOND * 5.
Definition RECONNECT_INTERVAL : Z := SECOND * 15.
End CONFIG.

(** The notification callback handed to [connect]; only its identity
    matters here. *)
Definition Callback := nat.

(** What is chained on the promise returned by [connect]: nothing of
    this class for an outside caller, the [then] block of [reconnect]
    for a reconnect attempt. *)
Inductive Then :=
| ThenCaller
| ThenReconnected (trigger : CHANGE_TRIGGER.t).

(** A browser [WebSocket] with the handlers [connect] installs on it.
    [onerror] and [onclose] tell whether the handler is still attached;
    [onmessage] is closed over the [onNotification] argument of the
    [connect] call, [onopen] over its [resolve]. *)
Record WebSocket := mkWebSocket {
  url : string;
  readyState : Z;
  onopen : Then;
  onerror : bool;
  onclose : bool;
  onmessage : option Callback
}.

Definition CONNECTING : Z := 0.
Definition OPEN : Z := 1.
Definition CLOSING : Z := 2.
Definition CLOSED : Z := 3.

(** Timers of [window]: the running intervals (all run [sendPing]) and
    the pending timeouts (each runs the [reconnect] closure of the
    call that armed it, which has that call's [trigger]). *)
Record Window := mkWindow {
  nextTimerId : nat;
  intervals : list nat;
  timeouts : list (nat * CHANGE_TRIGGER.t)
}.

Record State := mkState {
  clientId : option string;
  connectionUrl : string;
  socket : option WebSocket;
  onNotification : option Callback;
  pingIntervalId : option nat;
  hasAlreadySentUnansweredPing : bool;
  reconnectTimeoutId : option nat;
  reconnectCount : Z;
  pendingReconnectTrigger : option CHANGE_TRIGGER.t;
  window : Window
}.

(** The state the constructor leaves. *)
Definition constructor : State :=
  {| clientId := None; connectionUrl := EmptyString; socket := None;
     onNotification := None; pingIntervalId := None;
     hasAlreadySentUnansweredPing := false; reconnectTimeoutId := None;
     reconnectCount := 0; pendingReconnectTrigger := None;
     window := {| nextTimerId := 1; intervals := []; timeouts := [] |} |}.

Definition set_connectionUrl (v : string) (s : State) : State :=
  mkState (clientId s) v (socket s) (onNotification s) (pingIntervalId s)
    (hasAlreadySentUnansweredPing s) (reconnectTimeoutId s) (reconnectCount s)
    (pendingReconnectTrigger s) (window s).
Definition set_socket (v : option WebSocket) (s : State) : State :=
  mkState (clientId s) (connectionUrl s) v (onNotification s) (pingIntervalId s)
    (hasAlreadySentUnansweredPing s) (reconnectTimeoutId s) (reconnectCount s)
    (pendingReconnectTrigger s) (window s).
Definition set_onNotification (v : option Callback) (s : State) : State :=
  mkState (clientId s) (connectionUrl s) (socket s) v (pingIntervalId s)
    (hasAlreadySentUnansweredPing s) (reconnectTimeoutId s) (reconnectCount s)
    (pendingReconnectTrigger s) (window s).
Definition set_pingIntervalId (v : option nat) (s : State) : State :=
  mkState (clientId s) (connectionUrl s) (socket s) (onNotification s) v
    (hasAlreadySentUnansweredPing s) (reconnectTimeoutId s) (reconnectCount s)
    (pendingReconnectTrigger s) (window s).
Definition set_hasAlreadySentUnansweredPing (v : bool) (s : State) : State :=
  mkState (clientId s) (connectionUrl s) (socket s) (onNotification s) (pingIntervalId s)
    v (reconnectTimeoutId s) (reconnectCount s)
    (pendingReconnectTrigger s) (window s).
Definition set_reconnectTimeoutId (v : option nat) (s : State) : State :=
  mkState (clientId s) (connectionUrl s) (socket s) (onNotification s) (pingIntervalId s)
    (hasAlreadySentUnansweredPing s) v (reconnectCount s)
    (pendingReconnectTrigger s) (window s).
Definition set_reconnectCount (v : Z) (s : State) : State :=
  mkState (clientId s) (connectionUrl s) (socket s) (onNotification s) (pingIntervalId s)
    (hasAlreadySentUnansweredPing s) (reconnectTimeoutId s) v
    (pendingReconnectTrigger s) (window s).
Definition set_pendingReconnectTrigger (v : option CHANGE_TRIGGER.t) (s : State) : State :=
  mkState (clientId s) (connectionUrl s) (socket s) (onNotification s) (pingIntervalId s)
    (hasAlreadySentUnansweredPing s) (reconnectTimeoutId s) (reconnectCount s)
    v (window s).
Definition set_window (v : Window) (s : State) : State :=
  mkState (clientId s) (connectionUrl s) (socket s) (onNotification s) (pingIntervalId s)
    (hasAlreadySentUnansweredPing s) (reconnectTimeoutId s) (reconnectCount s)
    (pendingReconnectTrigger s) v.

(** What the service reads from its surroundings: the backend client
    and the stored access-token expiration that
    [loadValue(StorageKey.AUTH.ACCESS_TOKEN.EXPIRATION)] returns
    ([None] for [undefined]). *)
Record BackendClient := mkBackendClient {
  webSocketUrl : string;
  accessToken : string
}.

Record Env := mkEnv {
  backendClient : BackendClient;
  ACCESS_TOKEN_EXPIRATION : option Z
}.

Inductive Level := info | warn | error.

Inductive Message :=
| MsgConnected
| MsgConnectionError
| MsgClosedConnection
| MsgReconnectingAfterRefresh (trigger : CHANGE_TRIGGER.t)
| MsgTokenHasToBeRefreshed (trigger : CHANGE_TRIGGER.t)
| MsgTryingToReestablish (try : Z)
| MsgReconnectTriggeredBy (trigger : CHANGE_TRIGGER.t)
| MsgReestablished
| MsgResetTriggeredBy (trigger : CHANGE_TRIGGER.t)
| MsgPingIntervalCheckFailed
| MsgSendingPing
| MsgConnectionIsClosed (readyState : Z).

Inductive Topic :=
| ACCESS_TOKEN_RENEW
| WARNING_SHOW_CONNECTIVITY_RECONNECT
| WARNING_DISMISS_CONNECTIVITY_RECONNECT
| CONNECTION_ONLINE.

(** What a handler does to the outside, in order.  [Called_reconnect]
    is not an effect of the code: it marks each entry into
    [reconnect], so that the calls can be counted. *)
Inductive Effect :=
| Log (level : Level) (msg : Message)
| Publish (topic : Topic)
| NewWebSocket (url : string)
| SocketClose
| SocketSend (data : string)
| SetInterval (id : nat) (ms : Z)
| SetTimeout (id : nat) (ms : Z)
| ClearInterval (id : option nat)
| ClearTimeout (id : option nat)
| Notify (cb : Callback) (event : JSON.value)
| Resolved
| Called_reconnect (trigger : CHANGE_TRIGGER.t).

Inductive Error := SyntaxError | TypeError.

(** Handlers thread the service state, may throw, and leave a trace. *)
Definition M (A : Type) : Type := Handler.M State Effect Error A.

(** JavaScript truthiness of the values tested. *)
Definition truthy_number (v : option Z) : bool :=
  match v with Some n => negb (n =? 0) | None => false end.
Definition truthy_string (v : option string) : bool :=
  match v with Some EmptyString => false | Some _ => true | None => false end.

(** [window.setInterval(this.sendPing, ms)] *)
Definition setInterval (ms : Z) : M nat :=
  s <- get ;;
  let w := window s in
  let id := nextTimerId w in
  modify (set_window (mkWindow (S id) (intervals w ++ [id]) (timeouts w))) ;;
  emit (SetInterval id ms) ;;
  ret id.

(** [window.setTimeout(() => reconnect(), ms)] inside [reconnect(trigger)] *)
Definition setTimeout (trigger : CHANGE_TRIGGER.t) (ms : Z) : M nat :=
  s <- get ;;
  let w := window s in
  let id := nextTimerId w in
  modify (set_window (mkWindow (S id) (intervals w) (timeouts w ++ [(id, trigger)]))) ;;
  emit (SetTimeout id ms) ;;
  ret id.

Definition clearInterval (id : option nat) : M unit :=
  s <- get ;;
  let w := window s in
  modify (set_window
            (mkWindow (nextTimerId w)
               (List.filter (fun i => negb (bool_decide (Some i = id))) (intervals w))
               (timeouts w))) ;;
  emit (ClearInterval id).

Definition clearTimeout (id : option nat) : M unit :=
  s <- get ;;
  let w := window s in
  modify (set_window
            (mkWindow (nextTimerId w) (intervals w)
               (List.filter (fun p => negb (bool_decide (Some (fst p) = id))) (timeouts w)))) ;;
  emit (ClearTimeout id).

(** Modelled from the spec: [appendParameter] of [Util/UrlUtil] is not
    among the sources; the endpoint is
    [<base>/await?access_token=<token>[&client=<clientId>]]. *)
Definition appendParameter (url parameter : string) : string :=
  url +:+ "&" +:+ parameter.

(** The payload of a message event: a [Blob] (binary frame, given by
    the text [readAsText] decodes from it) or a string (text frame). *)
Inductive MessageData :=
| BlobData (text : string)
| StringData (text : string).

Section Service.
Variable env : Env.

(** [socket.close()] *)
Definition close (sk : WebSocket) : WebSocket :=
  mkWebSocket (url sk)
    (if (readyState sk =? CLOSED) then CLOSED else CLOSING)
    (onopen sk) (onerror sk) (onclose sk) (onmessage sk).

Definition detach (sk : WebSocket) : WebSocket :=
  mkWebSocket (url sk) (readyState sk) (onopen sk) false false (onmessage sk).

(** [reset(trigger, reconnect = false)], with the [reconnect] method
    it calls last taken as an argument: [connect] calls [reset]
    with the flag off, and [reconnect] calls [connect]. *)
Definition reset_ (reconnect : CHANGE_TRIGGER.t -> M unit)
    (trigger : CHANGE_TRIGGER.t) (reconnect_flag : bool) : M unit :=
  s <- get ;;
  match socket s with
  | Some sk =>
      if onclose sk then
        emit (Log info (MsgResetTriggeredBy trigger)) ;;
        modify (set_socket (Some (close (detach sk)))) ;;
        emit SocketClose ;;
        clearInterval (pingIntervalId s) ;;
        clearTimeout (reconnectTimeoutId s) ;;
        modify (set_hasAlreadySentUnansweredPing false)
      else ret tt
  | None => ret tt
  end ;;
  if reconnect_flag then
    emit (Publish WARNING_SHOW_CONNECTIVITY_RECONNECT) ;;
    reconnect trigger
  else ret tt.

(** [connect(onNotification)]; [then_] is what the caller chains on
    the returned promise. *)
Definition connect (onNotification : option Callback) (then_ : Then) : M unit :=
  modify (set_onNotification onNotification) ;;
  modify (set_connectionUrl
            (webSocketUrl (backendClient env) +:+ "/await?access_token="
             +:+ accessToken (backendClient env))) ;;
  s <- get ;;
  (if truthy_string (clientId s) then
     modify (set_connectionUrl
               (appendParameter (connectionUrl s)
                  ("client=" +:+ default EmptyString (clientId s))))
   else ret tt) ;;
  (match socket s with
   | Some _ => reset_ (fun _ => ret tt) CHANGE_TRIGGER.CLEANUP false
   | None => ret tt
   end) ;;
  s' <- get ;;
  modify (set_socket
            (Some (mkWebSocket (connectionUrl s') CONNECTING then_ true true onNotification))) ;;
  emit (NewWebSocket (connectionUrl s')).

(** [reconnected()] *)
Definition reconnected : M unit :=
  emit (Publish WARNING_DISMISS_CONNECTIVITY_RECONNECT) ;;
  emit (Log warn MsgReestablished) ;;
  emit (Publish CONNECTION_ONLINE).

(** The closure [reconnect] inside the method [reconnect(trigger)]. *)
Definition reconnect_closure (trigger : CHANGE_TRIGGER.t) : M unit :=
  s <- get ;;
  emit (Log info (MsgTryingToReestablish (reconnectCount s))) ;;
  connect (onNotification s) (ThenReconnected trigger).

(** [reconnect(trigger)] *)
Definition reconnect (trigger : CHANGE_TRIGGER.t) : M unit :=
  emit (Called_reconnect trigger) ;;
  if negb (truthy_number (ACCESS_TOKEN_EXPIRATION env)) then
    emit (Log info (MsgTokenHasToBeRefreshed trigger)) ;;
    modify (set_pendingReconnectTrigger (Some trigger)) ;;
    emit (Publish ACCESS_TOKEN_RENEW)
  else
    modify (fun s => set_reconnectCount (reconnectCount s + 1) s) ;;
    s <- get ;;
    if reconnectCount s =? 1 then reconnect_closure trigger
    else
      id <- setTimeout trigger CONFIG.RECONNECT_INTERVAL ;;
      modify (set_reconnectTimeoutId (Some id)).

(** [reset(trigger, reconnect = false)] *)
Definition reset (trigger : CHANGE_TRIGGER.t) (reconnect_flag : bool) : M unit :=
  reset_ reconnect trigger reconnect_flag.

(** [pendingReconnect()] *)
Definition pendingReconnect : M unit :=
  s <- get ;;
  match pendingReconnectTrigger s with
  | Some trigger =>
      emit (Log info (MsgReconnectingAfterRefresh trigger)) ;;
      reconnect trigger ;;
      modify (set_pendingReconnectTrigger None)
  | None => ret tt
  end.

(** [sendPing()] *)
Definition sendPing : M unit :=
  s <- get ;;
  match socket s with
  | None => throw TypeError
  | Some sk =>
      if readyState sk =? 1 then
        if hasAlreadySentUnansweredPing s then
          emit (Log warn MsgPingIntervalCheckFailed) ;;
          reconnect CHANGE_TRIGGER.PING_INTERVAL
        else
          emit (Log info MsgSendingPing) ;;
          modify (set_hasAlreadySentUnansweredPing true) ;;
          emit (SocketSend "ping")
      else
        emit (Log warn (MsgConnectionIsClosed (readyState sk))) ;;
        reconnect CHANGE_TRIGGER.READY_STATE
  end.

(** The handlers installed by [connect], run on the current socket. *)

Definition with_readyState (v : Z) (sk : WebSocket) : WebSocket :=
  mkWebSocket (url sk) v (onopen sk) (onerror sk) (onclose sk) (onmessage sk).

(** [socket.onopen]: the socket has become OPEN; the interval is
    armed and the promise of [connect] resolves, which runs what was
    chained on it. *)
Definition socket_onopen : M unit :=
  s <- get ;;
  match socket s with
  | Some sk =>
      if readyState sk =? CONNECTING then
        modify (set_socket (Some (with_readyState OPEN sk))) ;;
        emit (Log info MsgConnected) ;;
        id <- setInterval CONFIG.PING_INTERVAL ;;
        modify (set_pingIntervalId (Some id)) ;;
        match onopen sk with
        | ThenCaller => emit Resolved
        | ThenReconnected trigger =>
            modify (set_reconnectCount 0) ;;
            emit (Log info (MsgReconnectTriggeredBy trigger)) ;;
            reconnected
        end
      else ret tt
  | None => ret tt
  end.

(** [socket.onerror] *)
Definition socket_onerror : M unit :=
  s <- get ;;
  match socket s with
  | Some sk =>
      if onerror sk then
        emit (Log error MsgConnectionError) ;;
        reset CHANGE_TRIGGER.ERROR true
      else ret tt
  | None => ret tt
  end.

(** [socket.onclose]: the socket has become CLOSED. *)
Definition socket_onclose : M unit :=
  s <- get ;;
  match socket s with
  | Some sk =>
      modify (set_socket (Some (with_readyState CLOSED sk))) ;;
      if onclose sk then
        emit (Log warn MsgClosedConnection) ;;
        reset CHANGE_TRIGGER.CLOSE true
      else ret tt
  | None => ret tt
  end.

(** [blobReader.onload], [onNotification] being the argument of the
    [connect] call that installed the handler. *)
Definition blobReader_onload (onNotification : option Callback) (result : string) : M unit :=
  if String.eqb result "pong" then
    modify (set_hasAlreadySentUnansweredPing false)
  else
    match JSON.parse result with
    | None => throw SyntaxError
    | Some event =>
        match onNotification with
        | Some cb => emit (Notify cb event)
        | None => throw TypeError
        end
    end.

(** [socket.onmessage] *)
Definition socket_onmessage (data : MessageData) : M unit :=
  s <- get ;;
  match socket s with
  | Some sk =>
      match data with
      | BlobData text => blobReader_onload (onmessage sk) text
      | StringData _ => ret tt
      end
  | None => ret tt
  end.

(** The keepalive interval [id] elapses. *)
Definition interval_fires (id : nat) : M unit :=
  s <- get ;;
  if bool_decide (id ∈ intervals (window s)) then sendPing else ret tt.

(** The reconnect timeout [id] elapses. *)
Definition timeout_fires (id : nat) : M unit :=
  s <- get ;;
  let w := window s in
  match List.find (fun p => Nat.eqb (fst p) id) (timeouts w) with
  | Some (_, trigger) =>
      modify (set_window
                (mkWindow (nextTimerId w) (intervals w)
                   (List.filter (fun p => negb (Nat.eqb (fst p) id)) (timeouts w)))) ;;
      reconnect_closure trigger
  | None => ret tt
  end.

End Service.

(** The state [reset] leaves when the handlers of the socket [sk] were
    attached. *)
Definition torn_down (sk : WebSocket) (s : State) : State :=
  set_hasAlreadySentUnansweredPing false
    (set_window
       (mkWindow (nextTimerId (window s))
          (List.filter (fun i => negb (bool_decide (Some i = pingIntervalId s)))
             (intervals (window s)))
          (List.filter (fun p => negb (bool_decide (Some (fst p) = reconnectTimeoutId s)))
             (timeouts (window s))))
       (set_socket (Some (close (detach sk))) s)).

(** The endpoint [connect] computes. *)
Definition endpoint (env : Env) (s : State) : string :=
  let base := webSocketUrl (backendClient env) +:+ "/await?access_token="
              +:+ accessToken (backendClient env) in
  if truthy_string (clientId s)
  then appendParameter base ("client=" +:+ default EmptyString (clientId s))
  else base.

(** The methods of the service and the events of its socket and
    timers. *)
Inductive Input :=
| Connect (onNotification : option Callback)
| PendingReconnect
| Reconnect (trigger : CHANGE_TRIGGER.t)
| Reset (trigger : CHANGE_TRIGGER.t) (reconnect : bool)
| SendPing
| OnOpen
| OnError
| OnClose
| OnMessage (data : MessageData)
| IntervalFires (id : nat)
| TimeoutFires (id : nat).

Definition handle (env : Env) (input : Input) : M unit :=
  match input with
  | Connect onNotification => connect env onNotification ThenCaller
  | PendingReconnect => pendingReconnect env
  | Reconnect trigger => reconnect env trigger
  | Reset trigger flag => reset env trigger flag
  | SendPing => sendPing env
  | OnOpen => socket_onopen
  | OnError => socket_onerror env
  | OnClose => socket_onclose env
  | OnMessage data => socket_onmessage data
  | IntervalFires id => interval_fires env id
  | TimeoutFires id => timeout_fires env id
  end.

(** The state after a sequence of inputs, each with the surroundings it
    runs in; a handler that throws leaves the state it had reached. *)
Fixpoint run (inputs : list (Env * Input)) (s : State) : State :=
  match inputs with
  | [] => s
  | (env, input) :: rest => run rest (state_of (handle env input s))
  end.

(** Timer ids handed out so far are below the next one. *)
Definition timers_fresh (w : Window) : Prop :=
  Forall (fun id => (id < nextTimerId w)%nat) (intervals w) /\
  Forall (fun p => (fst p < nextTimerId w)%nat) (timeouts w).

(** The keepalive interval is owned by the current socket: none runs
    without a socket, while the socket is connecting or once its
    handlers are detached, and the one that runs is [pingIntervalId]. *)
Definition keepalive_owned (s : State) : Prop :=
  match socket s with
  | None => intervals (window s) = []
  | Some sk =>
      (readyState sk = CONNECTING -> onclose sk = true /\ intervals (window s) = []) /\
      (onclose sk = false -> intervals (window s) = []) /\
      (intervals (window s) = [] \/
       exists id, intervals (window s) = [id] /\ pingIntervalId s = Some id)
  end.

Definition pings_sent (t : list Effect) : nat :=
  List.length (List.filter (fun e => match e with SocketSend _ => true | _ => false end) t).

Definition sockets_closed (t : list Effect) : nat :=
  List.length (List.filter (fun e => match e with SocketClose => true | _ => false end) t).

(** The triggers of the calls of [reconnect] in a trace. *)
Fixpoint reconnect_calls (t : list Effect) : list CHANGE_TRIGGER.t :=
  match t with
  | [] => []
  | Called_reconnect trigger :: r => trigger :: reconnect_calls r
  | _ :: r => reconnect_calls r
  end.

Definition notifications (t : list Effect) : list (Callback * JSON.value) :=
  flat_map (fun e => match e with Notify cb v => [(cb, v)] | _ => [] end) t.

Definition sockets_opened (t : list Effect) : list string :=
  flat_map (fun e => match e with NewWebSocket u => [u] | _ => [] end) t.

Definition timeouts_armed (t : list Effect) : list (nat * Z) :=
  flat_map (fun e => match e with SetTimeout id ms => [(id, ms)] | _ => [] end) t.

Definition logged (t : list Effect) : list (Level * Message) :=
  flat_map (fun e => match e with Log l m => [(l, m)] | _ => [] end) t.

End WebSocketService.


(** ** The calling API: [callAPI.ts] *)
Module CallAPI.

Inductive CALL_MESSAGE_TYPE :=
| CANCEL | GROUP_CHECK | GROUP_LEAVE | GROUP_SETUP | GROUP_START
| HANGUP | PROP_SYNC | REJECT | SETUP | UPDATE.

(** The string value of each member of the enum. *)
Definition CALL_MESSAGE_TYPE_value (t : CALL_MESSAGE_TYPE) : string :=
  match t with
  | CANCEL => "CANCEL"
  | GROUP_CHECK => "GROUPCHECK"
  | GROUP_LEAVE => "GROUPLEAVE"
  | GROUP_SETUP => "GROUPSETUP"
  | GROUP_START => "GROUPSTART"
  | HANGUP => "HANGUP"
  | PROP_SYNC => "PROPSYNC"
  | REJECT => "REJECT"
  | SETUP => "SETUP"
  | UPDATE => "UPDATE"
  end.

Inductive CALL_TYPE := NORMAL | VIDEO | FORCED_AUDIO.

Inductive CONVERSATION_TYPE := ONEONONE | GROUP | CONFERENCE.

Inductive CALL_STATE :=
| NONE | OUTGOING | INCOMING | ANSWERED | MEDIA_ESTAB
| TERM_LOCAL | TERM_REMOTE | UNKNOWN.

Definition CALL_STATE_value (st : CALL_STATE) : Z :=
  match st with
  | NONE => 0
  | OUTGOING => 1
  | INCOMING => 2
  | ANSWERED => 3
  | MEDIA_ESTAB => 4
  | TERM_LOCAL => 6
  | TERM_REMOTE => 7
  | UNKNOWN => 8
  end.

(** [class WCall]; the constructor leaves [state] unset. *)
Record WCall := mkWCall {
  conversationId : string;
  state : option CALL_STATE;
  callType : CALL_TYPE;
  conversationType : CONVERSATION_TYPE;
  audioCbr : bool
}.

Definition new_WCall (callType : CALL_TYPE) (conversationId : string)
    (conversationType : CONVERSATION_TYPE) (audioCbr : bool) : WCall :=
  {| conversationId := conversationId; state := None; callType := callType;
     conversationType := conversationType; audioCbr := audioCbr |}.

Definition set_state (st : CALL_STATE) (c : WCall) : WCall :=
  mkWCall (conversationId c) (Some st) (callType c) (conversationType c) (audioCbr c).

(** [class WUser]; its callbacks show as effects. *)
Record WUser := mkWUser {
  userId : string;
  clientId : string
}.

Definition CALL_TYPE_value (t : CALL_TYPE) : Z :=
  match t with
  | NORMAL => 0
  | VIDEO => 1
  | FORCED_AUDIO => 2
  end.

Definition CONVERSATION_TYPE_value (t : CONVERSATION_TYPE) : Z :=
  match t with
  | ONEONONE => 0
  | GROUP => 1
  | CONFERENCE => 2
  end.

(** [interface ActiveCalls]: a plain object used as a map from call
    identifiers.  [own] holds its own properties.  Its prototype is
    [Object.prototype] ([proto] is [None]) until an assignment to the
    key "__proto__" makes a call object its prototype. *)
Record ActiveCalls := mkActiveCalls {
  own : gmap string WCall;
  proto : option WCall
}.

(** What reading a property of that object gives: a call, a member of
    the prototype chain ([Object.prototype] itself or one of the
    functions it and [WCall.prototype] hold), or the value of a field of
    the call that serves as prototype. *)
Inductive Value :=
| Undefined
| CallObject (call : WCall)
| Builtin
| Num (n : Z)
| Text (s : string)
| Flag (b : bool).

(** The standard data properties of [Object.prototype]; "__proto__" is
    its one accessor. *)
Definition Object_prototype : list string :=
  ["constructor"; "__defineGetter__"; "__defineSetter__"; "hasOwnProperty";
   "__lookupGetter__"; "__lookupSetter__"; "isPrototypeOf"; "propertyIsEnumerable";
   "toString"; "valueOf"; "toLocaleString"].

(** The value found along the prototype chain for a key that is not an
    own property: the fields of a call that serves as prototype, then
    [WCall.prototype] (which holds "constructor" only), then
    [Object.prototype], whose "__proto__" getter returns the prototype
    of the object read. *)
Definition inherited (key : string) (o : ActiveCalls) : Value :=
  if String.eqb key "__proto__" then
    match proto o with
    | Some call => CallObject call
    | None => Builtin
    end
  else
    let from_Object :=
      if existsb (String.eqb key) Object_prototype then Builtin else Undefined in
    match proto o with
    | None => from_Object
    | Some call =>
        if String.eqb key "conversationId" then Text (conversationId call)
        else if String.eqb key "state" then
          match state call with
          | Some st => Num (CALL_STATE_value st)
          | None => from_Object
          end
        else if String.eqb key "callType" then Num (CALL_TYPE_value (callType call))
        else if String.eqb key "conversationType" then
          Num (CONVERSATION_TYPE_value (conversationType call))
        else if String.eqb key "audioCbr" then Flag (audioCbr call)
        else from_Object
    end.

(** [activeCalls[key]] *)
Definition get_property (key : string) (o : ActiveCalls) : Value :=
  match own o !! key with
  | Some call => CallObject call
  | None => inherited key o
  end.

(** [activeCalls[key] = call].  An own property is overwritten; without
    one, the key "__proto__" reaches the setter of [Object.prototype],
    which replaces the prototype, and any other key becomes an own
    property (the inherited data properties are all writable). *)
Definition set_property (key : string) (call : WCall) (o : ActiveCalls) : ActiveCalls :=
  match own o !! key with
  | Some _ => mkActiveCalls (<[key := call]> (own o)) (proto o)
  | None =>
      if String.eqb key "__proto__" then mkActiveCalls (own o) (Some call)
      else mkActiveCalls (<[key := call]> (own o)) (proto o)
  end.

(** JavaScript truthiness. *)
Definition truthy (v : Value) : bool :=
  match v with
  | Undefined => false
  | CallObject _ => true
  | Builtin => true
  | Num n => negb (n =? 0)
  | Text s => negb (String.eqb s "")
  | Flag b => b
  end.

(** [o !! key] is the call that reading [o[key]] gives, when it gives
    a call. *)
#[export] Instance ActiveCalls_lookup : Lookup string WCall ActiveCalls :=
  fun key o =>
    match get_property key o with
    | CallObject call => Some call
    | _ => None
    end.

(** [interface CallState] and the module-level [state]. *)
Record CallState := mkCallState {
  callConfig : JSON.value;
  activeCalls : ActiveCalls
}.

Definition initial : CallState :=
  {| callConfig := JSON.Object []; activeCalls := mkActiveCalls ∅ None |}.

Inductive Effect :=
| RequestConfig
| NewRTCPeerConnection (config : JSON.value)
| GetUserMedia
| SendMessage (context conversationId userId clientId : string)
    (destUserId destUserClient : option string) (data : string) (size : Z).

Definition generateCallId (call : WUser) (conversationId : string) : string :=
  userId call +:+ clientId call +:+ conversationId.

(** The object literal that [buildMessagePayload] serialises. *)
Definition messagePayload (type : CALL_MESSAGE_TYPE) (sessid sdp : string)
    (isReponse : bool) : JSON.value :=
  JSON.Object
    [("resp", JSON.Bool isReponse);
     ("type", JSON.Str (CALL_MESSAGE_TYPE_value type));
     ("version", JSON.Str "3.0");
     ("props", JSON.Object [("audiosend", JSON.Str "true");
                            ("screensend", JSON.Str "false");
                            ("videosend", JSON.Str "false")]);
     ("sdp", JSON.Str sdp);
     ("sessid", JSON.Str sessid)]%string.

Definition buildMessagePayload (type : CALL_MESSAGE_TYPE) (sessid sdp : string)
    (isReponse : bool) : string :=
  JSON.stringify (messagePayload type sessid sdp isReponse).

Definition callCreate (userId clientId : string) : WUser * list Effect :=
  (mkWUser userId clientId, [RequestConfig]).

(** [callStart]: what runs before it returns.  The guard on an
    existing entry has an empty body in the source. *)
Definition callStart (wUser : WUser) (conversationId : string) (callType : CALL_TYPE)
    (conversationType : CONVERSATION_TYPE) (audioCbr : bool) (s : CallState)
  : bool * CallState * list Effect :=
  let callIdentifier := generateCallId wUser conversationId in
  let activeCall := get_property callIdentifier (activeCalls s) in
  let _ := if truthy activeCall then tt (* Do Stuff *) else tt in
  let wCall := new_WCall callType conversationId conversationType audioCbr in
  let wCall := set_state OUTGOING wCall in
  (true,
   {| callConfig := callConfig s;
      activeCalls := set_property callIdentifier wCall (activeCalls s) |},
   [NewRTCPeerConnection (callConfig s); GetUserMedia]).

(** [callStart]: the timer callback that runs 500 ms after the local
    description is set; [transformedSdp] is the text [SDPMapper.rewriteSdp]
    returns for it. *)
Definition callStart_timeout (wUser : WUser) (conversationId : string)
    (transformedSdp : string) : list Effect :=
  let message := buildMessagePayload SETUP "felix" transformedSdp false in
  [SendMessage "felix" conversationId (userId wUser) (clientId wUser) None None message 0].

Definition callConfigUpdate (config : JSON.value) (s : CallState) : CallState :=
  {| callConfig := config; activeCalls := activeCalls s |}.

(** [callGetState]; [None] is [undefined]: the [state] of a call that
    has none, and of whatever else the lookup finds that is truthy and
    not a call. *)
Definition callGetState (wUser : WUser) (conversationId : string) (s : CallState)
  : option CALL_STATE :=
  let callIdentifier := generateCallId wUser conversationId in
  let foundCall := get_property callIdentifier (activeCalls s) in
  if truthy foundCall then
    match foundCall with
    | CallObject call => state call
    | _ => None
    end
  else Some UNKNOWN.

(** The states in which a call is still in progress. *)
Definition non_terminal (st : CALL_STATE) : bool :=
  match st with
  | OUTGOING | INCOMING | ANSWERED | MEDIA_ESTAB => true
  | NONE | TERM_LOCAL | TERM_REMOTE | UNKNOWN => false
  end.

(** The pattern [[A-Za-z0-9_]{4}] for session ids. *)
Definition is_word_char (c : ascii) : bool :=
  let n := N_of_ascii c in
  (N.leb 65 n && N.leb n 90) || (N.leb 97 n && N.leb n 122)
  || (N.leb 48 n && N.leb n 57) || N.eqb n 95.

Definition is_session_id (s : string) : bool :=
  Nat.eqb (String.length s) 4 && forallb is_word_char (list_ascii_of_string s).

End CallAPI.

(** ** The call orchestrator: [CallingRepository] *)
Module CallingRepository.
Import Handler.
Local Open Scope handler_scope.

Module CONFIG.
Definition DEFAULT_CONFIG_TTL : Z := 60 * 60.
Definition MAX_FIREFOX_TURN_COUNT : Z := 3.
End CONFIG.

Definition SECOND : Z := 1000.

(** [MediaType]: the members the repository names, [OTHER] for the
    rest of the enum. *)
Inductive MediaType := AUDIO | AUDIO_VIDEO | SCREEN | OTHER.

Inductive TERMINATION_REASON := MISSED.

Definition Source := string.

(** The conversation entity, as far as the repository reads it. *)
Record Conversation := mkConversation {
  id : string;
  isGroup : bool;
  participating_user_ids : list string;
  supportsVideoCall : bool -> bool
}.

(** An entry of the observable array [activeCalls]. *)
Record Call := mkCall {
  conversationId : string;
  reason : option Z;
  startedAt : option Z;
  state : CallAPI.CALL_STATE
}.

(** The response of [GET /calls/config/v2] and the stored config, which
    is the response with [expiration] added (a time in ms). *)
Record BackendConfig := mkBackendConfig {
  ice_servers : list (list string);
  ttl : option Z
}.

Record CallingConfig := mkCallingConfig {
  response : BackendConfig;
  expiration : Z
}.

(** The backend event handed to [onCallEvent]; [time] is the instant
    its ISO string denotes, in ms. *)
Record CallEvent := mkCallEvent {
  content : JSON.value;
  conversation : string;
  from : string;
  sender : string;
  time : Z
}.

Inductive Event :=
| VoiceChannelActivate (conversationId userId : string) (time : Z)
| VoiceChannelDeactivate (conversationId userId : string)
    (reason : TERMINATION_REASON) (time : Z).

Inductive Modal :=
| CallEmptyConversation
| CallNoGroupVideo.

Inductive Message :=
| MsgRecvMsgFailed (code : Z)
| MsgReturningLocalConfig
| MsgRemovingConfig (expiration : Z)
| MsgUpdatedConfig (expiration : Z).

Inductive Effect :=
| Warn (msg : Message)
| Debug (msg : Message)
| Info (msg : Message)
| RecvMsg (wUser : CallAPI.WUser) (msg : string) (len curr_time : Z) (msg_time : option Z)
    (conversationId userId clientId : string)
| InjectEvent (event : Event) (source : Source)
| ShowModal (modal : Modal)
| WarningShow_UNSUPPORTED_OUTGOING_CALL
| FetchConfig (limit : option Z)
| SetTimeout (id : nat) (ms : Z)
| ClearTimeout (id : nat)
| ApiStart (wUser : CallAPI.WUser) (conversationId : string) (callType : CallAPI.CALL_TYPE)
    (conversationType : CallAPI.CONVERSATION_TYPE) (audioCbr : bool)
| ApiEnd (wUser : CallAPI.WUser) (conversationId : string).

Inductive CallErrorType := NOT_SUPPORTED | WRONG_STATE.

Inductive Error :=
| TypeError
| RangeError
| CallError (type : CallErrorType)
| NotImplemented.

(** The repository: [api] holds [wUser], set together with
    [callingApi] once [initAvs] has resolved; [timeouts] are the
    pending config timers. *)
Record State := mkState {
  api : option CallAPI.WUser;
  activeCalls : list Call;
  isMuted : bool;
  callingConfig : option CallingConfig;
  callingConfigTimeout : option nat;
  nextTimerId : nat;
  timeouts : list nat
}.

Definition constructor : State :=
  {| api := None; activeCalls := []; isMuted := false;
     callingConfig := None; callingConfigTimeout := None;
     nextTimerId := 1; timeouts := [] |}.

Definition set_api (v : option CallAPI.WUser) (s : State) : State :=
  mkState v (activeCalls s) (isMuted s) (callingConfig s)
    (callingConfigTimeout s) (nextTimerId s) (timeouts s).
Definition set_activeCalls (v : list Call) (s : State) : State :=
  mkState (api s) v (isMuted s) (callingConfig s)
    (callingConfigTimeout s) (nextTimerId s) (timeouts s).
Definition set_callingConfig (v : option CallingConfig) (s : State) : State :=
  mkState (api s) (activeCalls s) (isMuted s) v
    (callingConfigTimeout s) (nextTimerId s) (timeouts s).
Definition set_callingConfigTimeout (v : option nat) (s : State) : State :=
  mkState (api s) (activeCalls s) (isMuted s) (callingConfig s)
    v (nextTimerId s) (timeouts s).
Definition set_timers (n : nat) (v : list nat) (s : State) : State :=
  mkState (api s) (activeCalls s) (isMuted s) (callingConfig s)
    (callingConfigTimeout s) n v.

Definition M (A : Type) : Type := Handler.M State Effect Error A.

(** What [getConfig] returns: a promise already resolved with the
    stored config, or the promise of the backend request. *)
Inductive ConfigPromise :=
| ResolvedWith (config : CallingConfig)
| FromBackend.

Definition setTimeout (ms : Z) : M nat :=
  s <- get ;;
  let id := nextTimerId s in
  modify (set_timers (S id) (timeouts s ++ [id])) ;;
  emit (SetTimeout id ms) ;;
  ret id.

Definition clearTimeout (id : nat) : M unit :=
  s <- get ;;
  modify (set_timers (nextTimerId s)
            (List.filter (fun i => negb (Nat.eqb i id)) (timeouts s))) ;;
  emit (ClearTimeout id).

(** The time values of a [Date]: whole milliseconds, at most 8.64e15
    either side of the epoch.  [new_Date value] is [new Date(value)]
    for a whole [value]; [None] is the invalid date, whose [getTime()]
    is [NaN] and whose [toISOString()] throws. *)
Definition MAX_TIME : Z := 8640000000000000.

Definition new_Date (value : Z) : option Z :=
  if Z.abs value <=? MAX_TIME then Some value else None.

(** The largest whole number up to which every whole number is a
    double, [Number.MAX_SAFE_INTEGER]. *)
Definition MAX_SAFE_INTEGER : Z := 2 ^ 53 - 1.

(** [String.prototype.length].  A text is held as its UTF-8 bytes, and
    its length counts UTF-16 code units: one for a character of up to
    three bytes, two for a character of four bytes. *)
Fixpoint String_length (s : string) : Z :=
  match s with
  | EmptyString => 0
  | String c rest =>
      let byte := Z.of_N (N_of_ascii c) in
      (if byte <? 128 then 1
       else if byte <? 192 then 0
       else if byte <? 240 then 1
       else 2) + String_length rest
  end.

Section Repository.
(** [Environment.browser] and the [recv_msg] entry of the calling API
    (of the package avs-web): it returns a result code, and before it
    returns it may call the handlers it was given in
    [configureCallingApi], or throw. *)
Variable firefox : bool.
Variable supportsCalling : bool.
Variable recv_msg :
  CallAPI.WUser -> string -> Z -> Z -> option Z -> string -> string -> string -> M Z.

Definition findCall (conversationId' : string) (calls : list Call) : option Call :=
  List.find (fun callInstance => String.eqb (conversationId callInstance) conversationId') calls.

Definition storeCall (call : Call) : M unit :=
  modify (fun s => set_activeCalls (activeCalls s ++ [call]) s).

(** The stored call objects are mutated in place and removed by
    identity; at most one is stored per conversation, so both address
    the first entry of that conversation. *)
Fixpoint update_first (cid : string) (f : Call -> Call) (calls : list Call) : list Call :=
  match calls with
  | [] => []
  | c :: r =>
      if String.eqb (conversationId c) cid then f c :: r
      else c :: update_first cid f r
  end.

Fixpoint remove_first (cid : string) (calls : list Call) : list Call :=
  match calls with
  | [] => []
  | c :: r =>
      if String.eqb (conversationId c) cid then r
      else c :: remove_first cid r
  end.

Definition removeCall (call : option Call) : M unit :=
  match call with
  | Some c => modify (fun s => set_activeCalls (remove_first (conversationId c) (activeCalls s)) s)
  | None => ret tt
  end.

(** The callback given to [set_state_handler]; [now] is [Date.now()]. *)
Definition state_handler (now : Z) (conversationId' : string)
    (state' : CallAPI.CALL_STATE) : M unit :=
  s <- get ;;
  let storedCall := findCall conversationId' (activeCalls s) in
  let touch c := mkCall (conversationId c) None (startedAt c) state' in
  modify (fun s => set_activeCalls (update_first conversationId' touch (activeCalls s)) s) ;;
  let call :=
    match storedCall with
    | Some c => touch c
    | None => mkCall conversationId' None None state'
    end in
  match state' with
  | CallAPI.TERM_REMOTE | CallAPI.TERM_LOCAL | CallAPI.NONE => removeCall storedCall
  | _ =>
      let stamp c :=
        match state' with
        | CallAPI.MEDIA_ESTAB => mkCall (conversationId c) (reason c) (Some now) (state c)
        | _ => c
        end in
      modify (fun s => set_activeCalls (update_first conversationId' stamp (activeCalls s)) s) ;;
      match storedCall with
      | Some _ => ret tt
      | None => storeCall (stamp call)
      end
  end.

(** [injectActivateEvent] and [injectDeactivateEvent] *)
Definition injectActivateEvent (conversationId' userId' : string) (time' : Z)
    (source : Source) : M unit :=
  emit (InjectEvent (VoiceChannelActivate conversationId' userId' time') source).

Definition injectDeactivateEvent (conversationId' userId' : string)
    (reason' : TERMINATION_REASON) (time' : Z) (source : Source) : M unit :=
  emit (InjectEvent (VoiceChannelDeactivate conversationId' userId' reason' time') source).

(** [Math.floor(timestamp / 1000)] for a whole [timestamp] within
    [MAX_SAFE_INTEGER], where the double quotient has the same floor. *)
Definition toSecond (timestamp : Z) : Z := timestamp / 1000.

(** [onCallEvent(event, source)]; [currentTimestamp] is what
    [serverTimeHandler.toServerTimestamp()] returns.  The time handed
    to [recv_msg] is [None] ([NaN]) when the time of the event is no
    valid date.  Reading [content.type] throws when [content] is
    [null]. *)
Definition onCallEvent (currentTimestamp : Z) (event : CallEvent) (source : Source) : M unit :=
  s <- get ;;
  let contentStr := JSON.stringify (content event) in
  match api s with
  | None => throw TypeError
  | Some wUser =>
      let len := String_length contentStr in
      let msg_time := toSecond <$> new_Date (time event) in
      emit (RecvMsg wUser contentStr len (toSecond currentTimestamp) msg_time
              (conversation event) (from event) (sender event)) ;;
      res <- recv_msg wUser contentStr len (toSecond currentTimestamp) msg_time
               (conversation event) (from event) (sender event) ;;
      if negb (res =? 0) then emit (Warn (MsgRecvMsgFailed res))
      else
        match content event with
        | JSON.Null => throw TypeError
        | content' =>
            match JSON.get "type" content' with
            | Some (JSON.Str type) =>
                if String.eqb type "SETUP" then
                  injectActivateEvent (conversation event) (from event) (time event) source
                else if String.eqb type "CANCEL" then
                  let reason' := MISSED in
                  injectDeactivateEvent (conversation event) (from event) reason'
                    (time event) source
                else ret tt
            | _ => ret tt
            end
        end
  end.

Definition callTypeFromMediaType (mediaType : MediaType) : CallAPI.CALL_TYPE :=
  match mediaType with
  | AUDIO => CallAPI.NORMAL
  | AUDIO_VIDEO => CallAPI.VIDEO
  | SCREEN => CallAPI.VIDEO
  | OTHER => CallAPI.NORMAL
  end.

(** [startCall]: [callingApi.start] is an entry of the calling API. *)
Definition startCall (conversationId' : string)
    (conversationType : CallAPI.CONVERSATION_TYPE) (callType : CallAPI.CALL_TYPE) : M unit :=
  s <- get ;;
  match api s with
  | None => throw TypeError
  | Some wUser => emit (ApiStart wUser conversationId' callType conversationType false)
  end.

(** [leaveCall]: [callingApi.end] is an entry of the calling API. *)
Definition leaveCall (conversationId' : string) : M unit :=
  s <- get ;;
  match api s with
  | None => throw TypeError
  | Some wUser => emit (ApiEnd wUser conversationId')
  end.

(** [toggleState(mediaType, conversationEntity)] *)
Definition toggleState (mediaType : MediaType) (conversationEntity : option Conversation) : M unit :=
  match conversationEntity with
  | Some conversationEntity =>
      let isActiveCall := false in
      let isGroupCall :=
        if isGroup conversationEntity then CallAPI.GROUP else CallAPI.ONEONONE in
      let callType := callTypeFromMediaType mediaType in
      if isActiveCall then leaveCall (id conversationEntity)
      else startCall (id conversationEntity) isGroupCall callType
  | None => ret tt
  end.

Definition removeParticipant (conversationId' userId' : string) : M unit :=
  throw NotImplemented.

(** [_checkCallingSupport]; a rejected promise is a thrown error. *)
Definition _checkCallingSupport (conversationEntity : Conversation) (mediaType : MediaType)
    (callState : CallAPI.CALL_STATE) : M unit :=
  let noConversationParticipants :=
    Nat.eqb (List.length (participating_user_ids conversationEntity)) 0 in
  if noConversationParticipants then
    emit (ShowModal CallEmptyConversation) ;;
    throw (CallError NOT_SUPPORTED)
  else
    let isOutgoingCall := CallAPI.CALL_STATE_value callState =? CallAPI.CALL_STATE_value CallAPI.OUTGOING in
    if isOutgoingCall && negb supportsCalling then
      emit WarningShow_UNSUPPORTED_OUTGOING_CALL ;;
      throw (CallError NOT_SUPPORTED)
    else
      let isVideoCall := match mediaType with AUDIO_VIDEO => true | _ => false end in
      if isVideoCall && negb (supportsVideoCall conversationEntity isOutgoingCall) then
        emit (ShowModal CallNoGroupVideo) ;;
        throw (CallError NOT_SUPPORTED)
      else ret tt.

(** *** Calling config *)

Definition _clearConfig : M unit :=
  s <- get ;;
  match callingConfig s with
  | Some config =>
      emit (Debug (MsgRemovingConfig (expiration config))) ;;
      modify (set_callingConfig None)
  | None => ret tt
  end.

Definition _clearConfigTimeout : M unit :=
  s <- get ;;
  match callingConfigTimeout s with
  | Some id =>
      clearTimeout id ;;
      modify (set_callingConfigTimeout None)
  | None => ret tt
  end.

(** [fetchConfig(limit)] sends the request; the response arrives in
    [_getConfigFromBackend_then]. *)
Definition fetchConfig (limit : option Z) : M unit :=
  emit (FetchConfig limit).

Definition _getConfigFromBackend : M ConfigPromise :=
  let limit := if firefox then Some CONFIG.MAX_FIREFOX_TURN_COUNT else None in
  fetchConfig limit ;;
  ret FromBackend.

(** [ttl * 0.9 || DEFAULT_CONFIG_TTL], then the smaller of it and
    [DEFAULT_CONFIG_TTL], times [SECOND].  [ttl] is a whole number of
    seconds and the result is carried in whole milliseconds: for a
    [ttl] from 1 to 3999 the double [ttl * 0.9 * 1000] is [ttl * 900]
    or exceeds it by less than a millisecond, which the [Date] (for a
    time that is not negative) and the timer drop; from 4000 on the
    ceiling applies.  An absent [ttl] makes the product [NaN], which is
    falsy like zero; a negative [ttl] is carried as [ttl * 900], which
    is its double product up to rounding. *)
Definition config_timeout (ttl' : option Z) : Z :=
  let DEFAULT_CONFIG_TTL := CONFIG.DEFAULT_CONFIG_TTL in
  let ttl_ms :=
    match ttl' with
    | Some t => if t * 900 =? 0 then DEFAULT_CONFIG_TTL * SECOND else t * 900
    | None => DEFAULT_CONFIG_TTL * SECOND
    end in
  Z.min ttl_ms (DEFAULT_CONFIG_TTL * SECOND).

(** The [then] block of [_getConfigFromBackend], run with the response
    of the backend; [now] is [Date.now()].  [toISOString()] of an
    invalid expiration date throws before the config is stored. *)
Definition _getConfigFromBackend_then (now : Z) (callingConfig' : option BackendConfig)
  : M (option CallingConfig) :=
  match callingConfig' with
  | Some cfg =>
      _clearConfigTimeout ;;
      let timeout := config_timeout (ttl cfg) in
      match new_Date (now + timeout) with
      | None => throw RangeError
      | Some expirationDate =>
          let config := mkCallingConfig cfg expirationDate in
          emit (Info (MsgUpdatedConfig expirationDate)) ;;
          modify (set_callingConfig (Some config)) ;;
          id <- setTimeout timeout ;;
          modify (set_callingConfigTimeout (Some id)) ;;
          ret (Some config)
      end
  | None => ret None
  end.

(** [getConfig()]; [now] is [Date.now()]. *)
Definition getConfig (now : Z) : M ConfigPromise :=
  s <- get ;;
  match callingConfig s with
  | Some config =>
      let isExpiredConfig := expiration config <? now in
      if negb isExpiredConfig then
        emit (Debug MsgReturningLocalConfig) ;;
        ret (ResolvedWith config)
      else
        _clearConfig ;;
        _getConfigFromBackend
  | None => _getConfigFromBackend
  end.

(** The config timer [id] elapses. *)
Definition configTimeout_fires (now : Z) (id : nat) : M unit :=
  s <- get ;;
  if bool_decide (id ∈ timeouts s) then
    modify (set_timers (nextTimerId s)
              (List.filter (fun i => negb (Nat.eqb i id)) (timeouts s))) ;;
    _clearConfig ;;
    getConfig now ;;
    ret tt
  else ret tt.

End Repository.

(** The close handler [callClosed] given to the calling API. *)
Definition callClosed (reason' : Z) (conversationId' : string) : M unit :=
  s <- get ;;
  match findCall conversationId' (activeCalls s) with
  | None => ret tt
  | Some _ =>
      let note c := mkCall (conversationId c) (Some reason') (startedAt c) (state c) in
      modify (fun s => set_activeCalls (update_first conversationId' note (activeCalls s)) s)
  end.

(** [Array.prototype.forEach] with a callback that may throw. *)
Fixpoint forEach {A : Type} (callback : A -> M unit) (items : list A) : M unit :=
  match items with
  | [] => ret tt
  | item :: rest => callback item ;; forEach callback rest
  end.

(** [leaveCallOnUnload()] *)
Definition leaveCallOnUnload : M unit :=
  s <- get ;;
  forEach (fun callInstance => leaveCall (conversationId callInstance)) (activeCalls s).

(** What the calling API reports about calls, and what is asked of the
    config cache. *)
Inductive CallInput :=
| StateChanged (now : Z) (conversationId : string) (state : CallAPI.CALL_STATE)
| CallClosed (reason : Z) (conversationId : string).

Definition handle_call (input : CallInput) : M unit :=
  match input with
  | StateChanged now conversationId' state' => state_handler now conversationId' state'
  | CallClosed reason' conversationId' => callClosed reason' conversationId'
  end.

Fixpoint run_calls (inputs : list CallInput) (s : State) : State :=
  match inputs with
  | [] => s
  | input :: rest => run_calls rest (state_of (handle_call input s))
  end.

Inductive ConfigInput :=
| GetConfig (now : Z)
| Fetched (now : Z) (response : option BackendConfig)
| ConfigTimeoutFires (now : Z) (id : nat).

Definition handle_config (firefox : bool) (input : ConfigInput) : M unit :=
  match input with
  | GetConfig now => getConfig firefox now ;; ret tt
  | Fetched now response' => _getConfigFromBackend_then now response' ;; ret tt
  | ConfigTimeoutFires now id => configTimeout_fires firefox now id
  end.

Fixpoint run_config (firefox : bool) (inputs : list ConfigInput) (s : State) : State :=
  match inputs with
  | [] => s
  | input :: rest => run_config firefox rest (state_of (handle_config firefox input s))
  end.

(** At most one call is stored per conversation. *)
Definition calls_distinct (s : State) : Prop :=
  List.NoDup (List.map conversationId (activeCalls s)).

(** The pending config timer, if any, is the one recorded. *)
Definition refresh_timer_owned (s : State) : Prop :=
  timeouts s = [] \/
  exists id, timeouts s = [id] /\ callingConfigTimeout s = Some id.

Definition terminal (state' : CallAPI.CALL_STATE) : bool :=
  match state' with
  | CallAPI.TERM_REMOTE | CallAPI.TERM_LOCAL | CallAPI.NONE => true
  | _ => false
  end.

Definition ended (t : list Effect) : list (CallAPI.WUser * string) :=
  flat_map (fun e => match e with ApiEnd u c => [(u, c)] | _ => [] end) t.

Definition fetches (t : list Effect) : list (option Z) :=
  flat_map (fun e => match e with FetchConfig l => [l] | _ => [] end) t.

Definition injected (t : list Effect) : list Event :=
  flat_map (fun e => match e with InjectEvent ev _ => [ev] | _ => [] end) t.

End CallingRepository.

(** ** Durations: [TimeUtil]

    Durations are whole milliseconds.  A quotient [n / unit] is kept as
    the pair of its integers: [Math.floor] of it is the floored
    division, [Math.round] of it is the floored division of
    [2 * n + unit] by [2 * unit], and it is at least 1 when [unit <= n].
    The source forms the quotient as a double; below [2 ^ 52]
    milliseconds that double lies on the same side of every whole
    number, and for the rounded units of every half, as the exact
    quotient does, so the floor and the rounding are these. *)
Module TimeUtil.

Module UNITS_IN_MILLIS.
Definition DAY : Z := 1000 * 60 * 60 * 24.
Definition HOUR : Z := 1000 * 60 * 60.
Definition MINUTE : Z := 1000 * 60.
Definition SECOND : Z := 1000.
Definition WEEK : Z := 1000 * 60 * 60 * 24 * 7.
Definition YEAR : Z := 1000 * 60 * 60 * 24 * 365.
End UNITS_IN_MILLIS.

Inductive Symbol := sym_y | sym_w | sym_d | sym_h | sym_m | sym_s.

(** The localised unit name is given by its key: the singular or the
    plural text of the unit. *)
Inductive LongUnit :=
| singular (symbol : Symbol)
| plural (symbol : Symbol).

Record DiscreteTimeUnit := mkDiscreteTimeUnit {
  longUnit : LongUnit;
  symbol : Symbol;
  value : Z
}.

(** [durationUnits()]: the symbol and the value of each unit. *)
Definition durationUnits : list (Symbol * Z) :=
  [(sym_y, UNITS_IN_MILLIS.YEAR); (sym_w, UNITS_IN_MILLIS.WEEK);
   (sym_d, UNITS_IN_MILLIS.DAY); (sym_h, UNITS_IN_MILLIS.HOUR);
   (sym_m, UNITS_IN_MILLIS.MINUTE); (sym_s, UNITS_IN_MILLIS.SECOND)].

(** The callback of [map] in [mapUnits]; [previous] is
    [units[index - 1].value] when [index > 0]. *)
Definition mapUnit (duration : Z) (rounded : bool) (previous : option Z)
    (unit : Symbol * Z) : DiscreteTimeUnit :=
  let value := duration in
  let value := match previous with
               | Some p => Z.rem value p
               | None => value
               end in
  let value :=
    if rounded && (snd unit <=? value)
    then (2 * value + snd unit) / (2 * snd unit)
    else value / snd unit in
  let longUnit := if value =? 1 then singular (fst unit) else plural (fst unit) in
  mkDiscreteTimeUnit longUnit (fst unit) value.

Fixpoint mapUnits_from (duration : Z) (rounded : bool) (previous : option Z)
    (units : list (Symbol * Z)) : list DiscreteTimeUnit :=
  match units with
  | [] => []
  | unit :: rest =>
      mapUnit duration rounded previous unit
      :: mapUnits_from duration rounded (Some (snd unit)) rest
  end.

(** [mapUnits(duration, rounded)] *)
Definition mapUnits (duration : Z) (rounded : bool) : list DiscreteTimeUnit :=
  mapUnits_from duration rounded None durationUnits.

(** What [formatDuration] returns: the unit with its text, given by the
    number and the unit name, or the [TypeError] of reading a property
    of [undefined]. *)
Record DurationUnit := mkDurationUnit {
  text : Z * LongUnit;
  unit_symbol : Symbol;
  unit_value : Z
}.

Inductive Formatted :=
| Returned (unit : DurationUnit)
| TypeError.

(** [formatDuration(duration)] *)
Definition formatDuration (duration : Z) : Formatted :=
  let mappedUnits := mapUnits duration true in
  match List.find (fun unit => 0 <? value unit) mappedUnits with
  | Some firstNonZeroUnit =>
      Returned (mkDurationUnit (value firstNonZeroUnit, longUnit firstNonZeroUnit)
                  (symbol firstNonZeroUnit) (value firstNonZeroUnit))
  | None => TypeError
  end.

(** [Math.round] of a rational: every double is one. *)
Definition Math_round (x : QArith_base.Q) : Z :=
  Qround.Qfloor (QArith_base.Qplus x (QArith_base.Qmake 1 2)).

Section FormatSeconds.
(** [zeroPadding] of [Util/util] and [Number.prototype.toString]. *)
Variable zeroPadding : Z -> string.
Variable toString : Z -> string.

(** [formatSeconds(duration)]; [None] is a duration that is
    [undefined] or [NaN].  The quotients are those of the source while
    the rounded duration is within [2 ^ 53]. *)
Definition formatSeconds (duration : option QArith_base.Q) : string :=
  let duration := Math_round (default (QArith_base.Qmake 0 1) duration) in
  let hours := duration / (60 * 60) in
  let divisorForMinutes := Z.rem duration (60 * 60) in
  let minutes := divisorForMinutes / 60 in
  let divisor_for_seconds := Z.rem divisorForMinutes 60 in
  let seconds := divisor_for_seconds in
  let components := [zeroPadding minutes; zeroPadding seconds] in
  let components := if 0 <? hours then toString hours :: components else components in
  String.concat ":" components.

End FormatSeconds.

(** [getUnixTimestamp()], [now] being [Date.now()]. *)
Definition getUnixTimestamp (now : Z) : Z := now / UNITS_IN_MILLIS.SECOND.

End TimeUtil.

(** ** Sample runs *)
Module Samples.
Import Handler.

Definition backend : WebSocketService.BackendClient :=
  WebSocketService.mkBackendClient "wss://prod-nginz-ssl.wire.com" "token".

(** A stored credential, and none. *)
Definition env_valid : WebSocketService.Env :=
  WebSocketService.mkEnv backend (Some 1572000000000).
Definition env_absent : WebSocketService.Env :=
  WebSocketService.mkEnv backend None.

(** The service after [connect] and the open event of its socket. *)
Definition connected : WebSocketService.State :=
  state_of (WebSocketService.socket_onopen
              (state_of (WebSocketService.connect env_valid (Some 1%nat)
                           WebSocketService.ThenCaller WebSocketService.constructor))).

Definition connected_socket : WebSocketService.WebSocket :=
  WebSocketService.mkWebSocket "wss://prod-nginz-ssl.wire.com/await?access_token=token"
    WebSocketService.OPEN WebSocketService.ThenCaller true true (Some 1%nat).

(** The same with a ping sent and not answered. *)
Definition pinged : WebSocketService.State :=
  WebSocketService.set_hasAlreadySentUnansweredPing true connected.

(** A service that has already made one reconnect attempt. *)
Definition retrying : WebSocketService.State :=
  WebSocketService.set_reconnectCount 1 connected.

Definition self : CallAPI.WUser := CallAPI.mkWUser "self-user" "self-client".

Definition CRLF : string := String (ascii_of_nat 13) (String (ascii_of_nat 10) EmptyString).

Definition sdp : string := "v=0" +:+ CRLF +:+ "s=-" +:+ CRLF.

(** A repository with the calling API initialised and no call stored. *)
Definition repository : CallingRepository.State :=
  CallingRepository.set_api (Some self) CallingRepository.constructor.

Definition cancel_event : CallingRepository.CallEvent :=
  CallingRepository.mkCallEvent
    (JSON.Object [("type", JSON.Str "CANCEL"); ("version", JSON.Str "3.0")]%string)
    "conversation-1" "remote-user" "remote-client" 1572000000500.

(** A calling API whose [recv_msg] accepts the message and calls no
    handler, and one that rejects it with the code 1. *)
Definition recv_msg_ok (wUser : CallAPI.WUser) (msg : string) (len curr_time : Z)
    (msg_time : option Z) (conversationId userId clientId : string)
  : CallingRepository.M Z := ret 0.

Definition recv_msg_failed (wUser : CallAPI.WUser) (msg : string) (len curr_time : Z)
    (msg_time : option Z) (conversationId userId clientId : string)
  : CallingRepository.M Z := ret 1.

(** One whose [recv_msg] reports the end of the call to the state
    handler before it accepts the message. *)
Definition recv_msg_terminating (wUser : CallAPI.WUser) (msg : string) (len curr_time : Z)
    (msg_time : option Z) (conversationId userId clientId : string)
  : CallingRepository.M Z :=
  bind (CallingRepository.state_handler 1572000001000 conversationId CallAPI.TERM_REMOTE)
       (fun _ => ret 0).

Definition config_response : CallingRepository.BackendConfig :=
  CallingRepository.mkBackendConfig [["turn:turn.example.com:3478"%string]] (Some 100).

(** The repository after the config fetched at time 1572000000000 ms
    has been stored. *)
Definition fetched_at : Z := 1572000000000.
Definition configured : CallingRepository.State :=
  state_of (CallingRepository._getConfigFromBackend_then fetched_at (Some config_response)
              repository).

(** The service after [connect], before its socket opens. *)
Definition connecting : WebSocketService.State :=
  state_of (WebSocketService.connect env_valid (Some 1%nat)
              WebSocketService.ThenCaller WebSocketService.constructor).

Definition connecting_socket : WebSocketService.WebSocket :=
  WebSocketService.mkWebSocket "wss://prod-nginz-ssl.wire.com/await?access_token=token"
    WebSocketService.CONNECTING WebSocketService.ThenCaller true true (Some 1%nat).

(** A repository with one established call. *)
Definition in_call : CallingRepository.State :=
  state_of (CallingRepository.state_handler fetched_at "conversation-1"
              CallAPI.MEDIA_ESTAB repository).

Definition setup_event : CallingRepository.CallEvent :=
  CallingRepository.mkCallEvent
    (JSON.Object [("type", JSON.Str "SETUP"); ("version", JSON.Str "3.0")]%string)
    "conversation-1" "remote-user" "remote-client" 1572000000500.

Definition empty_conversation : CallingRepository.Conversation :=
  CallingRepository.mkConversation "conversation-1" false [] (fun _ => true).

Definition group_conversation : CallingRepository.Conversation :=
  CallingRepository.mkConversation "conversation-2" true
    ["remote-user"; "other-user"]%string (fun _ => false).

(** Decimal rendering of a number. *)
Definition toString (value : Z) : string := pretty value.

(** Modelled from the spec: [zeroPadding] of [Util/util] is not among
    the sources; [formatSeconds(0)] is "00:00" and [formatSeconds(3661)]
    is "1:01:01", so a number is padded with zeros to two digits. *)
Definition zeroPadding (value : Z) : string :=
  let digits := pretty value in
  if (String.length digits <? 2)%nat then "0" +:+ digits else digits.

End Samples.

(** * Properties *)

(** ** Tactics for running handlers *)

(** Case analysis on the innermost test that blocks evaluation. *)
Ltac destruct_test :=
  match goal with
  | |- context [match ?c with _ => _ end] =>
      lazymatch c with
      | context [match _ with _ => _ end] => fail
      | _ => destruct c eqn:?
      end
  end.

Ltac run_handler := repeat (cbn in *; try destruct_test).

Module JSONFacts.

Example parse_rejects_pong : JSON.parse "pong" = None.
Proof. reflexivity. Qed.

Example parse_rejects_open_brace : JSON.parse "{" = None.
Proof. reflexivity. Qed.

Example parse_rejects_trailing_text : JSON.parse "[1] 2" = None.
Proof. reflexivity. Qed.

Example parse_accepts_array :
  JSON.parse " [1, -2.5e3, true, null, []] "
  = Some (JSON.Array [JSON.Number "1"; JSON.Number "-2.5e3"; JSON.Bool true; JSON.Null;
                      JSON.Array []]).
Proof. reflexivity. Qed.

(** The SETUP payload with an SDP of two CRLF-terminated lines is
    read back as it was written. *)
Example parse_stringify_payload :
  JSON.parse (JSON.stringify (CallAPI.messagePayload CallAPI.SETUP "felix" Samples.sdp false))
  = Some (CallAPI.messagePayload CallAPI.SETUP "felix" Samples.sdp false).
Proof. vm_compute. reflexivity. Qed.

Example parse_stringify_event :
  JSON.parse (JSON.stringify (CallingRepository.content Samples.cancel_event))
  = Some (CallingRepository.content Samples.cancel_event).
Proof. vm_compute. reflexivity. Qed.

End JSONFacts.

Module TransportFacts.
Import Handler WebSocketService.

Lemma reconnect_calls_app (t1 t2 : list Effect) :
  reconnect_calls (t1 ++ t2) = reconnect_calls t1 ++ reconnect_calls t2.
Proof.
  induction t1 as [|e t1 IH]; [reflexivity|].
  destruct e; cbn; rewrite ?IH; reflexivity.
Qed.

Lemma reconnect_calls_reconnect (env : Env) (trigger : CHANGE_TRIGGER.t) (s : State) :
  reconnect_calls (trace (reconnect env trigger s)) = [trigger].
Proof.
  unfold reconnect, reconnect_closure, connect, reset_, setTimeout, clearInterval,
    clearTimeout, bind, emit, modify, get, ret, trace.
  run_handler; reflexivity.
Qed.

(** While no credential is stored, a missed pong leaves the interval
    armed, the flag set and the socket as it was, so the next interval
    finds the same failure again. *)
Remark sendPing_keeps_failing_without_credential :
  let tick := sendPing Samples.env_absent Samples.pinged in
  hasAlreadySentUnansweredPing (state_of tick) = true /\
  socket (state_of tick) = socket Samples.pinged /\
  intervals (window (state_of tick)) = intervals (window Samples.pinged) /\
  reconnect_calls (trace (sendPing Samples.env_absent (state_of tick)))
  = [CHANGE_TRIGGER.PING_INTERVAL].
Proof. repeat split; reflexivity. Qed.

End TransportFacts.

Module TransportProperties.
Import Handler WebSocketService TransportFacts.

(** C2. When [sendPing] fires on an open socket while the pending-ping
    flag is set, [reconnect] is called exactly once, with the trigger
    [PING_INTERVAL].  From a cleared flag, two keepalive intervals
    without a "pong" give one "ping" and then that one reconnect, and no
    other call of [reconnect]. *)
Theorem sendPing_missed_pong_reconnects_once
    (env : Env) (s : State) (sk : WebSocket) :
  socket s = Some sk ->
  readyState sk = OPEN ->
  (hasAlreadySentUnansweredPing s = true ->
   reconnect_calls (trace (sendPing env s)) = [CHANGE_TRIGGER.PING_INTERVAL]) /\
  (hasAlreadySentUnansweredPing s = false ->
   let tick1 := sendPing env s in
   let tick2 := sendPing env (state_of tick1) in
   trace tick1 = [Log info MsgSendingPing; SocketSend "ping"] /\
   hasAlreadySentUnansweredPing (state_of tick1) = true /\
   reconnect_calls (trace tick1 ++ trace tick2) = [CHANGE_TRIGGER.PING_INTERVAL]).
Proof.
  intros Hsk Hopen.
  assert (Hflag : forall s0, socket s0 = Some sk ->
            hasAlreadySentUnansweredPing s0 = true ->
            reconnect_calls (trace (sendPing env s0)) = [CHANGE_TRIGGER.PING_INTERVAL]).
  { intros s0 H0 Hf.
    pose proof (reconnect_calls_reconnect env CHANGE_TRIGGER.PING_INTERVAL s0) as Hr.
    unfold sendPing. unfold bind at 1, get. cbn -[reconnect].
    rewrite H0, Hopen, Hf. unfold bind, emit. cbn -[reconnect].
    destruct (reconnect env CHANGE_TRIGGER.PING_INTERVAL s0) as [[c s1] t1].
    exact Hr. }
  split.
  - intros Hf. apply Hflag; assumption.
  - intros Hf tick1 tick2.
    assert (H1 : tick1 = (Normal tt, set_hasAlreadySentUnansweredPing true s,
                          [Log info MsgSendingPing; SocketSend "ping"])).
    { subst tick1. unfold sendPing, bind, get, emit, modify. cbn.
      rewrite Hsk, Hopen, Hf. reflexivity. }
    subst tick2. rewrite H1. cbn [trace state_of fst snd].
    split; [reflexivity|]. split; [reflexivity|].
    rewrite reconnect_calls_app. cbn [reconnect_calls app].
    apply Hflag; [exact Hsk | reflexivity].
Qed.

(** C4, as amended.  For a binary frame whose text is neither "pong"
    nor a JSON text, the message handler throws the [SyntaxError] of
    [JSON.parse]: nothing is logged, the callback is not invoked and the
    service state, with its socket, is as before.  Whatever the frame,
    the callback is invoked only with the value parsed from it. *)
Theorem onmessage_malformed_payload_throws
    (s : State) (sk : WebSocket) (text : string) :
  socket s = Some sk ->
  text <> "pong"%string ->
  JSON.parse text = None ->
  socket_onmessage (BlobData text) s = (Throw SyntaxError, s, []) /\
  (forall data cb event,
      In (cb, event) (notifications (trace (socket_onmessage data s))) ->
      exists text', data = BlobData text' /\ JSON.parse text' = Some event).
Proof.
  intros Hsk Hpong Hparse. split.
  - unfold socket_onmessage, blobReader_onload, bind, get, throw. cbn.
    rewrite Hsk. apply String.eqb_neq in Hpong. rewrite Hpong, Hparse. reflexivity.
  - intros data cb event.
    unfold socket_onmessage, blobReader_onload, bind, get, throw, emit, modify, ret, trace.
    cbn. rewrite Hsk. destruct data as [text'|text']; cbn; [|tauto].
    destruct (String.eqb text' "pong"); cbn; [tauto|].
    destruct (JSON.parse text') as [v|] eqn:Hv; cbn; [|tauto].
    destruct (onmessage sk); cbn; [|tauto].
    intros [Heq|[]]. inversion Heq; subst. eauto.
Qed.

(** The first pending timeout with a fresh id is the one just armed. *)
Lemma find_armed_timeout (ts : list (nat * CHANGE_TRIGGER.t)) (id : nat)
    (trigger : CHANGE_TRIGGER.t) :
  Forall (fun p => (fst p < id)%nat) ts ->
  List.find (fun p => Nat.eqb (fst p) id) (ts ++ [(id, trigger)]) = Some (id, trigger).
Proof.
  induction 1 as [|p ts Hp _ IH]; cbn.
  - rewrite Nat.eqb_refl. reflexivity.
  - destruct (Nat.eqb_spec (fst p) id); [lia | exact IH].
Qed.

Lemma reconnect_closure_opens (env : Env) (trigger : CHANGE_TRIGGER.t) (s : State) :
  (exists u, sockets_opened (trace (reconnect_closure env trigger s)) = [u]) /\
  let opened := socket_onopen (state_of (reconnect_closure env trigger s)) in
  reconnectCount (state_of opened) = 0 /\
  In (Publish CONNECTION_ONLINE) (trace opened).
Proof.
  unfold reconnect_closure, connect, reset_, socket_onopen, reconnected, setInterval,
    clearInterval, clearTimeout, bind, emit, modify, get, ret, trace, state_of.
  run_handler; (split; [eexists; reflexivity|]); cbn; intuition.
Qed.

(** C6. With a valid credential [reconnect] increments the attempt
    counter.  When the incremented counter is 1 the socket is opened
    within the call and no timer is armed; otherwise no socket is
    opened and one timeout of [RECONNECT_INTERVAL] (15 s) is armed, whose
    callback makes the attempt.  When the socket of an attempt opens,
    the counter is reset to zero and the reconnection is announced. *)
Theorem reconnect_attempt_scheduling
    (env : Env) (trigger : CHANGE_TRIGGER.t) (s : State) :
  truthy_number (ACCESS_TOKEN_EXPIRATION env) = true ->
  let r := reconnect env trigger s in
  completion r = Normal tt /\
  (reconnectCount s + 1 = 1 ->
   reconnectCount (state_of r) = 1 /\
   (exists u, sockets_opened (trace r) = [u]) /\
   timeouts_armed (trace r) = [] /\
   (exists sk', socket (state_of r) = Some sk' /\ readyState sk' = CONNECTING /\
                onopen sk' = ThenReconnected trigger) /\
   let opened := socket_onopen (state_of r) in
   reconnectCount (state_of opened) = 0 /\
   In (Publish CONNECTION_ONLINE) (trace opened)) /\
  (reconnectCount s + 1 <> 1 ->
   let id := nextTimerId (window s) in
   reconnectCount (state_of r) = reconnectCount s + 1 /\
   sockets_opened (trace r) = [] /\
   timeouts_armed (trace r) = [(id, CONFIG.RECONNECT_INTERVAL)] /\
   CONFIG.RECONNECT_INTERVAL = 15000 /\
   socket (state_of r) = socket s /\
   (Forall (fun p => (fst p < id)%nat) (timeouts (window s)) ->
    let fired := timeout_fires env id (state_of r) in
    (exists u, sockets_opened (trace fired) = [u]) /\
    let opened := socket_onopen (state_of fired) in
    reconnectCount (state_of opened) = 0 /\
    In (Publish CONNECTION_ONLINE) (trace opened))).
Proof.
  intros Htoken r.
  split; [|split].
  - subst r. unfold reconnect, reconnect_closure, connect, reset_, setTimeout,
      clearInterval, clearTimeout, bind, emit, modify, get, ret, completion.
    rewrite Htoken. run_handler; reflexivity.
  - intros Hfirst.
    assert (Hr : r = let c := reconnect_closure env trigger
                                (set_reconnectCount (reconnectCount s + 1) s) in
                     (completion c, state_of c, Called_reconnect trigger :: trace c)).
    { subst r. unfold reconnect at 1. unfold bind at 1 2 3, emit, modify, get.
      rewrite Htoken. cbn -[reconnect_closure]. rewrite Hfirst. cbn -[reconnect_closure].
      destruct (reconnect_closure env trigger _) as [[c s1] t1]. reflexivity. }
    rewrite Hr. clear Hr r.
    unfold reconnect_closure, connect, reset_, socket_onopen, reconnected, setInterval,
      clearInterval, clearTimeout, bind, emit, modify, get, ret, trace, state_of, completion.
    run_handler;
      (split; [first [reflexivity | assumption]|]); (split; [eexists; reflexivity|]);
      (split; [reflexivity|]); (split; [eexists; repeat split; reflexivity|]);
      cbn; intuition.
  - intros Hlater id.
    assert (Hr : r = (Normal tt,
                      set_reconnectTimeoutId (Some id)
                        (set_window (mkWindow (S id) (intervals (window s))
                                       (timeouts (window s) ++ [(id, trigger)]))
                           (set_reconnectCount (reconnectCount s + 1) s)),
                      [Called_reconnect trigger; SetTimeout id CONFIG.RECONNECT_INTERVAL])).
    { subst r id. unfold reconnect, setTimeout, bind, emit, modify, get, ret.
      rewrite Htoken. cbn. apply Z.eqb_neq in Hlater. rewrite Hlater. reflexivity. }
    rewrite Hr. clear Hr r. cbn [state_of trace fst snd].
    repeat (split; [reflexivity|]).
    intros Hfresh.
    match goal with
    | |- context [timeout_fires env id ?s0] =>
        assert (Hf : timeout_fires env id s0 = reconnect_closure env trigger
                   (set_window (mkWindow (S id) (intervals (window s))
                      (List.filter (fun p => negb (Nat.eqb (fst p) id))
                         (timeouts (window s) ++ [(id, trigger)]))) s0))
    end.
    { unfold timeout_fires. unfold bind at 1, get.
      cbn -[reconnect_closure List.find List.filter].
      rewrite (find_armed_timeout _ id trigger Hfresh).
      unfold bind, modify. cbn -[reconnect_closure List.filter].
      destruct (reconnect_closure env trigger _) as [[c s1] t1].
      reflexivity. }
    rewrite Hf. apply reconnect_closure_opens.
Qed.

(** C7. Without a stored credential [reconnect] opens no socket: it
    records the trigger as pending and asks for a renewal.  When the
    renewal is signalled, [pendingReconnect] calls [reconnect] once,
    with the recorded trigger, and leaves no trigger pending; with no
    trigger recorded it does nothing. *)
Theorem reconnect_deferred_until_token_renewed
    (env : Env) (trigger : CHANGE_TRIGGER.t) (s : State) :
  truthy_number (ACCESS_TOKEN_EXPIRATION env) = false ->
  reconnect env trigger s =
    (Normal tt, set_pendingReconnectTrigger (Some trigger) s,
     [Called_reconnect trigger; Log info (MsgTokenHasToBeRefreshed trigger);
      Publish ACCESS_TOKEN_RENEW]) /\
  sockets_opened (trace (reconnect env trigger s)) = [] /\
  (forall env',
      let pending := state_of (reconnect env trigger s) in
      let r := pendingReconnect env' pending in
      pendingReconnectTrigger pending = Some trigger /\
      pendingReconnectTrigger (state_of r) = None /\
      reconnect_calls (trace r) = [trigger] /\
      trace r = Log info (MsgReconnectingAfterRefresh trigger)
                  :: trace (reconnect env' trigger pending) /\
      state_of r = set_pendingReconnectTrigger None
                     (state_of (reconnect env' trigger pending))) /\
  (forall env' s', pendingReconnectTrigger s' = None ->
                   pendingReconnect env' s' = (Normal tt, s', [])).
Proof.
  intros Htoken.
  assert (Hr : reconnect env trigger s =
    (Normal tt, set_pendingReconnectTrigger (Some trigger) s,
     [Called_reconnect trigger; Log info (MsgTokenHasToBeRefreshed trigger);
      Publish ACCESS_TOKEN_RENEW])).
  { unfold reconnect, bind, emit, modify. rewrite Htoken. reflexivity. }
  rewrite Hr. split; [reflexivity|]. split; [reflexivity|]. split.
  - intros env' pending r. cbn [state_of fst snd] in pending.
    assert (Hcompl : completion (reconnect env' trigger pending) = Normal tt).
    { unfold reconnect, reconnect_closure, connect, reset_, setTimeout,
        clearInterval, clearTimeout, bind, emit, modify, get, ret, completion.
      run_handler; reflexivity. }
    pose proof (reconnect_calls_reconnect env' trigger pending) as Hcalls.
    subst r. unfold pendingReconnect. unfold bind at 1, get. cbv beta iota.
    change (pendingReconnectTrigger pending) with (Some trigger). cbv beta iota.
    unfold bind, emit, modify. cbn -[reconnect].
    destruct (reconnect env' trigger pending) as [[c s1] t1].
    cbn in Hcompl. subst c. cbn in *.
    rewrite ?app_nil_r. repeat split; try reflexivity. exact Hcalls.
  - intros env' s' Hnone. unfold pendingReconnect, bind, get, ret. cbn.
    rewrite Hnone. reflexivity.
Qed.

End TransportProperties.

Module TransportWitnesses.
Import Handler WebSocketService Samples TransportProperties.

Lemma sendPing_missed_pong_reconnects_once_witness :
  socket pinged = Some connected_socket /\
  readyState connected_socket = OPEN /\
  hasAlreadySentUnansweredPing pinged = true /\
  hasAlreadySentUnansweredPing connected = false /\
  reconnect_calls (trace (sendPing env_valid pinged)) = [CHANGE_TRIGGER.PING_INTERVAL] /\
  reconnect_calls (trace (sendPing env_absent pinged)) = [CHANGE_TRIGGER.PING_INTERVAL] /\
  reconnect_calls
    (trace (sendPing env_valid connected)
     ++ trace (sendPing env_valid (state_of (sendPing env_valid connected))))
  = [CHANGE_TRIGGER.PING_INTERVAL].
Proof.
  do 4 (split; [reflexivity|]).
  split; [|split].
  - apply (proj1 (sendPing_missed_pong_reconnects_once env_valid pinged connected_socket
                    eq_refl eq_refl)).
    reflexivity.
  - apply (proj1 (sendPing_missed_pong_reconnects_once env_absent pinged connected_socket
                    eq_refl eq_refl)).
    reflexivity.
  - apply (proj2 (sendPing_missed_pong_reconnects_once env_valid connected connected_socket
                    eq_refl eq_refl)).
    reflexivity.
Defined.

(** A frame that is neither "pong" nor JSON makes the message handler
    throw, and nothing is logged. *)
Lemma onmessage_malformed_payload_counterexample :
  "{"%string <> "pong"%string /\
  JSON.parse "{" = None /\
  completion (socket_onmessage (BlobData "{") connected) = Throw SyntaxError /\
  logged (trace (socket_onmessage (BlobData "{") connected)) = [].
Proof.
  split; [discriminate|]. repeat split; reflexivity.
Qed.

Lemma onmessage_malformed_payload_throws_witness :
  socket connected = Some connected_socket /\
  "{"%string <> "pong"%string /\
  JSON.parse "{" = None /\
  socket_onmessage (BlobData "{") connected = (Throw SyntaxError, connected, []).
Proof.
  split; [reflexivity|]. split; [discriminate|]. split; [reflexivity|].
  apply (proj1 (onmessage_malformed_payload_throws connected connected_socket "{"
                  eq_refl ltac:(discriminate) eq_refl)).
Defined.

Lemma reconnect_attempt_scheduling_witness :
  truthy_number (ACCESS_TOKEN_EXPIRATION env_valid) = true /\
  reconnectCount (state_of (reconnect env_valid CHANGE_TRIGGER.CLOSE connected)) = 1 /\
  timeouts_armed (trace (reconnect env_valid CHANGE_TRIGGER.CLOSE connected)) = [] /\
  reconnectCount (state_of (reconnect env_valid CHANGE_TRIGGER.CLOSE retrying)) = 2 /\
  timeouts_armed (trace (reconnect env_valid CHANGE_TRIGGER.CLOSE retrying))
  = [(2%nat, 15000)].
Proof.
  split; [reflexivity|].
  pose proof (reconnect_attempt_scheduling env_valid CHANGE_TRIGGER.CLOSE connected eq_refl)
    as [_ [Hfirst _]].
  pose proof (reconnect_attempt_scheduling env_valid CHANGE_TRIGGER.CLOSE retrying eq_refl)
    as [_ [_ Hlater]].
  destruct (Hfirst eq_refl) as [H1 [_ [H2 _]]].
  destruct (Hlater ltac:(discriminate)) as [H3 [_ [H4 _]]].
  split; [exact H1|]. split; [exact H2|]. split; [exact H3|]. exact H4.
Defined.

Lemma reconnect_deferred_until_token_renewed_witness :
  truthy_number (ACCESS_TOKEN_EXPIRATION env_absent) = false /\
  sockets_opened (trace (reconnect env_absent CHANGE_TRIGGER.PING_INTERVAL pinged)) = [] /\
  pendingReconnectTrigger
    (state_of (reconnect env_absent CHANGE_TRIGGER.PING_INTERVAL pinged))
  = Some CHANGE_TRIGGER.PING_INTERVAL /\
  reconnect_calls
    (trace (pendingReconnect env_valid
              (state_of (reconnect env_absent CHANGE_TRIGGER.PING_INTERVAL pinged))))
  = [CHANGE_TRIGGER.PING_INTERVAL].
Proof.
  split; [reflexivity|].
  pose proof (reconnect_deferred_until_token_renewed env_absent
                CHANGE_TRIGGER.PING_INTERVAL pinged eq_refl) as [_ [Hnone [Hpending _]]].
  destruct (Hpending env_valid) as [H1 [_ [H2 _]]].
  split; [exact Hnone|]. split; [exact H1|]. exact H2.
Defined.

End TransportWitnesses.

Module CallFacts.
Import CallAPI.

Lemma get_property_set_same (key : string) (call : WCall) (o : ActiveCalls) :
  get_property key (set_property key call o) = CallObject call.
Proof.
  unfold get_property, set_property.
  destruct (own o !! key) as [old|] eqn:Hown; cbn.
  - rewrite lookup_insert_eq. reflexivity.
  - destruct (String.eqb_spec key "__proto__") as [->|Hne]; cbn.
    + rewrite Hown. reflexivity.
    + rewrite lookup_insert_eq. reflexivity.
Qed.

Lemma set_property_entry (key : string) (call : WCall) (o : ActiveCalls) :
  key <> "__proto__"%string \/ own o !! key <> None ->
  set_property key call o = mkActiveCalls (<[key := call]> (own o)) (proto o).
Proof.
  intros Hkey. unfold set_property.
  destruct (own o !! key) as [old|] eqn:Hown; [reflexivity|].
  destruct (String.eqb_spec key "__proto__") as [->|Hne]; [|reflexivity].
  destruct Hkey as [Hkey|Hkey]; congruence.
Qed.

Lemma set_property_prototype (call : WCall) (o : ActiveCalls) :
  own o !! "__proto__"%string = None ->
  set_property "__proto__" call o = mkActiveCalls (own o) (Some call).
Proof. intros Hown. unfold set_property. rewrite Hown. reflexivity. Qed.

Lemma get_property_set_other (key key' : string) (call : WCall) (o : ActiveCalls) :
  key <> "__proto__"%string \/ own o !! key <> None ->
  key' <> key ->
  get_property key' (set_property key call o) = get_property key' o.
Proof.
  intros Hkey Hne. rewrite set_property_entry by exact Hkey.
  unfold get_property. cbn. rewrite lookup_insert_ne by congruence. reflexivity.
Qed.



End CallFacts.

Module CallProperties.
Import CallAPI CallFacts.

(** C1, on the code.  A second [callStart] for the key of a call that
    is still outgoing returns [true] and puts a fresh call in the place
    of the stored one. *)
Theorem callStart_replaces_active_call
    (wUser : WUser) (conversationId' : string)
    (callType1 callType2 : CALL_TYPE)
    (conversationType1 conversationType2 : CONVERSATION_TYPE)
    (audioCbr1 audioCbr2 : bool) (s : CallState) :
  let key := generateCallId wUser conversationId' in
  let first := callStart wUser conversationId' callType1 conversationType1 audioCbr1 s in
  let second :=
    callStart wUser conversationId' callType2 conversationType2 audioCbr2 first.1.2 in
  activeCalls first.1.2 !! key
  = Some (mkWCall conversationId' (Some OUTGOING) callType1 conversationType1 audioCbr1) /\
  non_terminal OUTGOING = true /\
  second.1.1 = true /\
  activeCalls second.1.2 !! key
  = Some (mkWCall conversationId' (Some OUTGOING) callType2 conversationType2 audioCbr2).
Proof.
  cbn. unfold lookup, ActiveCalls_lookup. rewrite !get_property_set_same.
  repeat split; reflexivity.
Qed.

(** C8, on the code.  The SETUP message that [callStart] sends carries
    the session id "felix", which has five characters. *)
Theorem callStart_setup_sessid (wUser : WUser) (conversationId' sdp' : string) :
  let payload := messagePayload SETUP "felix" sdp' false in
  callStart_timeout wUser conversationId' sdp'
  = [SendMessage "felix" conversationId' (userId wUser) (clientId wUser) None None
       (JSON.stringify payload) 0] /\
  JSON.get "sessid" payload = Some (JSON.Str "felix") /\
  String.length "felix" = 5%nat /\
  is_session_id "felix" = false /\
  (JSON.parse (buildMessagePayload SETUP "felix" Samples.sdp false)
   ≫= JSON.get "sessid") = Some (JSON.Str "felix").
Proof.
  repeat split; vm_compute; reflexivity.
Qed.


End CallProperties.

Module CallWitnesses.
Import CallAPI Samples CallProperties.



End CallWitnesses.

Module RepositoryProperties.
Import Handler CallingRepository.

(** C3, on the code.  [_checkCallingSupport] rejects a conversation
    without participants with [NOT_SUPPORTED], but starting a call does
    not go through it: [toggleState] on such a conversation completes
    without an error and without a notice to the user, and asks the
    calling API to start the call. *)
Theorem toggleState_starts_call_without_participants
    (supportsCalling : bool) (mediaType : MediaType) (wUser : CallAPI.WUser)
    (conversationId' : string) (isGroup' : bool) (supportsVideoCall' : bool -> bool)
    (s : State) :
  let conversationEntity := mkConversation conversationId' isGroup' [] supportsVideoCall' in
  let s0 := set_api (Some wUser) s in
  let r := toggleState mediaType (Some conversationEntity) s0 in
  completion (_checkCallingSupport supportsCalling conversationEntity mediaType
                CallAPI.OUTGOING s0)
  = Throw (CallError NOT_SUPPORTED) /\
  completion r = Normal tt /\
  trace r = [ApiStart wUser conversationId' (callTypeFromMediaType mediaType)
               (if isGroup' then CallAPI.GROUP else CallAPI.ONEONONE) false].
Proof.
  cbn. repeat split; reflexivity.
Qed.

Lemma config_timeout_nonzero (ttl' : Z) :
  ttl' <> 0 -> config_timeout (Some ttl') = Z.min (ttl' * 900) (3600 * 1000).
Proof.
  intros H. unfold config_timeout.
  destruct (Z.eqb_spec (ttl' * 900) 0); [lia | reflexivity].
Qed.

Lemma config_timeout_default (ttl' : option Z) :
  ttl' = None \/ ttl' = Some 0 -> config_timeout ttl' = 3600 * 1000.
Proof. intros [->| ->]; reflexivity. Qed.

Lemma config_timeout_bounds (ttl' : option Z) :
  (ttl' = None \/ exists k, ttl' = Some k /\ 0 <= k) ->
  0 < config_timeout ttl' <= 3600 * 1000.
Proof.
  intros [->|(k & -> & Hk)]; [split; [reflexivity | discriminate]|].
  destruct (Z.eq_dec k 0) as [->|Hne]; [split; [reflexivity | discriminate]|].
  rewrite (config_timeout_nonzero k Hne). lia.
Qed.

Lemma new_Date_valid (value : Z) : Z.abs value <= MAX_TIME -> new_Date value = Some value.
Proof. intros H. unfold new_Date. destruct (Z.leb_spec (Z.abs value) MAX_TIME); [reflexivity | lia]. Qed.

Lemma new_Date_invalid (value : Z) : MAX_TIME < Z.abs value -> new_Date value = None.
Proof. intros H. unfold new_Date. destruct (Z.leb_spec (Z.abs value) MAX_TIME); [lia | reflexivity]. Qed.

Lemma getConfigFromBackend_then_stores (now : Z) (cfg : BackendConfig) (s : State) :
  Z.abs (now + config_timeout (ttl cfg)) <= MAX_TIME ->
  let config := mkCallingConfig cfg (now + config_timeout (ttl cfg)) in
  let stored := _getConfigFromBackend_then now (Some cfg) s in
  completion stored = Normal (Some config) /\
  callingConfig (state_of stored) = Some config /\
  exists id,
    callingConfigTimeout (state_of stored) = Some id /\
    In (SetTimeout id (config_timeout (ttl cfg))) (trace stored) /\
    id ∈ timeouts (state_of stored).
Proof.
  intros Hvalid.
  unfold _getConfigFromBackend_then, _clearConfigTimeout, setTimeout, clearTimeout,
    bind, emit, modify, get, ret, completion, state_of, trace.
  rewrite (new_Date_valid _ Hvalid).
  destruct (callingConfigTimeout s) as [old|] eqn:Hold;
    cbn -[config_timeout Z.add]; rewrite ?Hold; cbn -[config_timeout Z.add];
    (split; [reflexivity|]); (split; [reflexivity|]);
    eexists; (split; [reflexivity|]); (split; [intuition|]);
    apply elem_of_app; right; apply list_elem_of_singleton; reflexivity.
Qed.

(** With an expiration outside the range of [Date], the [then] block
    throws after it has cleared the refresh timer and before it stores
    anything. *)
Lemma getConfigFromBackend_then_throws (now : Z) (cfg : BackendConfig) (s : State) :
  MAX_TIME < Z.abs (now + config_timeout (ttl cfg)) ->
  let stored := _getConfigFromBackend_then now (Some cfg) s in
  completion stored = Throw RangeError /\
  callingConfig (state_of stored) = callingConfig s /\
  callingConfigTimeout (state_of stored) = None /\
  (forall id, callingConfigTimeout s = Some id -> ~ In id (timeouts (state_of stored))) /\
  (forall id ms, ~ In (SetTimeout id ms) (trace stored)).
Proof.
  intros Hinvalid.
  unfold _getConfigFromBackend_then, _clearConfigTimeout, setTimeout, clearTimeout,
    bind, emit, modify, get, ret, throw, completion, state_of, trace.
  rewrite (new_Date_invalid _ Hinvalid).
  destruct (callingConfigTimeout s) as [old|] eqn:Hold;
    cbn -[config_timeout Z.add List.filter]; rewrite ?Hold;
    cbn -[config_timeout Z.add List.filter].
  - split; [reflexivity|]. split; [reflexivity|]. split; [reflexivity|]. split.
    + intros id [= <-] Hin. apply filter_In in Hin. destruct Hin as [_ Hin].
      rewrite Nat.eqb_refl in Hin. discriminate.
    + intros id ms [H|[]]. discriminate.
  - split; [reflexivity|]. split; [reflexivity|]. split; [reflexivity|]. split.
    + intros id. discriminate.
    + intros id ms [].
Qed.

Lemma getConfig_without_config (firefox : bool) (t : Z) (s : State) :
  callingConfig s = None ->
  getConfig firefox t s
  = (Normal FromBackend, s,
     [FetchConfig (if firefox then Some CONFIG.MAX_FIREFOX_TURN_COUNT else None)]).
Proof.
  intros Hnone.
  unfold getConfig, _getConfigFromBackend, fetchConfig, bind, get, emit, ret.
  cbn. rewrite Hnone. reflexivity.
Qed.

Lemma getConfig_expired (firefox : bool) (t : Z) (config : CallingConfig) (s : State) :
  callingConfig s = Some config ->
  expiration config < t ->
  getConfig firefox t s
  = (Normal FromBackend, set_callingConfig None s,
     [Debug (MsgRemovingConfig (expiration config));
      FetchConfig (if firefox then Some CONFIG.MAX_FIREFOX_TURN_COUNT else None)]).
Proof.
  intros Hconfig Hlt.
  unfold getConfig, _clearConfig, _getConfigFromBackend, fetchConfig, bind, get, emit,
    modify, ret.
  cbn -[Z.ltb]. rewrite Hconfig. cbn -[Z.ltb].
  destruct (Z.ltb_spec (expiration config) t); [|lia].
  cbn -[Z.ltb]. rewrite Hconfig. reflexivity.
Qed.

Lemma getConfig_served (firefox : bool) (t : Z) (config : CallingConfig) (s : State) :
  callingConfig s = Some config ->
  t <= expiration config ->
  getConfig firefox t s = (Normal (ResolvedWith config), s, [Debug MsgReturningLocalConfig]).
Proof.
  intros Hconfig Hle.
  unfold getConfig, bind, get, emit, ret. cbn -[Z.ltb]. rewrite Hconfig. cbn -[Z.ltb].
  destruct (Z.ltb_spec (expiration config) t); [lia | reflexivity].
Qed.

Lemma configTimeout_fires_pending (firefox : bool) (t : Z) (id : nat)
    (config : CallingConfig) (s : State) :
  callingConfig s = Some config ->
  id ∈ timeouts s ->
  exists s',
    configTimeout_fires firefox t id s
    = (Normal tt, s',
       [Debug (MsgRemovingConfig (expiration config));
        FetchConfig (if firefox then Some CONFIG.MAX_FIREFOX_TURN_COUNT else None)]) /\
    callingConfig s' = None.
Proof.
  intros Hconfig Hpending.
  unfold configTimeout_fires. unfold bind at 1, get. cbv beta iota.
  rewrite (bool_decide_eq_true_2 _ Hpending).
  unfold _clearConfig, bind, get, emit, modify, ret.
  cbn -[Z.ltb List.filter getConfig]. rewrite Hconfig.
  cbn -[Z.ltb List.filter getConfig].
  rewrite getConfig_without_config by reflexivity.
  eexists. split; reflexivity.
Qed.

(** C5, as amended.  A response with [ttl = 100] stored at time [now]
    expires 90 seconds later, and the refresh timer is armed for those
    90 seconds.  While that config is the one stored, [getConfig] at
    any time up to and including [now] plus 90 seconds returns it and
    sends no request, at any later time it drops it and sends a
    request, and the refresh timer, whenever it runs, drops it and
    sends a request.  The lifetime of a stored config is the smaller of
    [ttl * 0.9] seconds and 3600 seconds for a positive [ttl], and 3600
    seconds when [ttl] is zero or absent. *)
Theorem getConfig_cache_window
    (firefox : bool) (now t : Z) (servers : list (list string)) (s s1 : State) :
  0 <= now <= MAX_TIME - 3600 * 1000 ->
  let cfg := mkBackendConfig servers (Some 100) in
  let stored := _getConfigFromBackend_then now (Some cfg) s in
  let config := mkCallingConfig cfg (now + 90 * 1000) in
  let limit := if firefox then Some 3 else None in
  (completion stored = Normal (Some config) /\
   callingConfig (state_of stored) = Some config /\
   exists id,
     callingConfigTimeout (state_of stored) = Some id /\
     In (SetTimeout id (90 * 1000)) (trace stored) /\
     id ∈ timeouts (state_of stored)) /\
  (callingConfig s1 = Some config ->
   (t <= now + 90 * 1000 ->
    getConfig firefox t s1
    = (Normal (ResolvedWith config), s1, [Debug MsgReturningLocalConfig])) /\
   (now + 90 * 1000 < t ->
    completion (getConfig firefox t s1) = Normal FromBackend /\
    fetches (trace (getConfig firefox t s1)) = [limit] /\
    callingConfig (state_of (getConfig firefox t s1)) = None) /\
   (forall id, id ∈ timeouts s1 ->
      let fired := configTimeout_fires firefox t id s1 in
      completion fired = Normal tt /\
      fetches (trace fired) = [limit] /\
      callingConfig (state_of fired) = None)) /\
  (forall cfg' : BackendConfig,
      let lifetime := config_timeout (ttl cfg') in
      (ttl cfg' = None \/ ttl cfg' = Some 0 -> lifetime = 3600 * 1000) /\
      (forall k, ttl cfg' = Some k -> 0 < k -> lifetime = Z.min (k * 900) (3600 * 1000)) /\
      (ttl cfg' = None \/ (exists k, ttl cfg' = Some k /\ 0 <= k) ->
       completion (_getConfigFromBackend_then now (Some cfg') s)
       = Normal (Some (mkCallingConfig cfg' (now + lifetime))))).
Proof.
  intros Hnow cfg stored config limit.
  assert (Hmax : MAX_TIME = 8640000000000000) by reflexivity.
  split; [|split].
  - assert (Hvalid : Z.abs (now + config_timeout (ttl cfg)) <= MAX_TIME).
    { change (config_timeout (ttl cfg)) with 90000. lia. }
    destruct (getConfigFromBackend_then_stores now cfg s Hvalid)
      as (Hcompl & Hconfig & id & Hid & Harmed & Hpending).
    split; [exact Hcompl|]. split; [exact Hconfig|].
    exists id. split; [exact Hid|]. split; [exact Harmed | exact Hpending].
  - intros Hconfig. split; [|split].
    + intros Hle. apply getConfig_served; [exact Hconfig | exact Hle].
    + intros Hlt. rewrite (getConfig_expired firefox t config s1 Hconfig Hlt).
      repeat split; reflexivity.
    + intros id Hpending. cbv zeta.
      destruct (configTimeout_fires_pending firefox t id config s1 Hconfig Hpending)
        as (s' & Hfired & Hnone).
      rewrite Hfired. split; [reflexivity|]. split; [reflexivity | exact Hnone].
  - intros cfg' lifetime. split; [|split].
    + apply config_timeout_default.
    + intros k Hk Hpos. subst lifetime. rewrite Hk. apply config_timeout_nonzero. lia.
    + intros Httl. pose proof (config_timeout_bounds (ttl cfg') Httl) as Hb.
      fold lifetime in Hb.
      assert (Hvalid : Z.abs (now + config_timeout (ttl cfg')) <= MAX_TIME).
      { fold lifetime. lia. }
      exact (proj1 (getConfigFromBackend_then_stores now cfg' s Hvalid)).
Qed.

Lemma onCallEvent_eq
    (recv_msg : CallAPI.WUser -> string -> Z -> Z -> option Z -> string -> string -> string
                -> M Z)
    (currentTimestamp : Z) (event : CallEvent) (source : Source)
    (s : State) (wUser : CallAPI.WUser) :
  api s = Some wUser ->
  let contentStr := JSON.stringify (content event) in
  let call :=
    RecvMsg wUser contentStr (String_length contentStr) (toSecond currentTimestamp)
      (toSecond <$> new_Date (time event)) (conversation event) (from event) (sender event) in
  let reaction :=
    recv_msg wUser contentStr (String_length contentStr) (toSecond currentTimestamp)
      (toSecond <$> new_Date (time event)) (conversation event) (from event) (sender event) s in
  let record :=
    match JSON.get "type" (content event) with
    | Some (JSON.Str type) =>
        if String.eqb type "SETUP" then
          [InjectEvent (VoiceChannelActivate (conversation event) (from event) (time event))
             source]
        else if String.eqb type "CANCEL" then
          [InjectEvent (VoiceChannelDeactivate (conversation event) (from event) MISSED
                          (time event)) source]
        else []
    | _ => []
    end in
  onCallEvent recv_msg currentTimestamp event source s
  = match reaction with
    | (Throw e, s1, t1) => (Throw e, s1, call :: t1)
    | (Normal res, s1, t1) =>
        if res =? 0 then
          match content event with
          | JSON.Null => (Throw TypeError, s1, call :: t1)
          | _ => (Normal tt, s1, call :: t1 ++ record)
          end
        else (Normal tt, s1, call :: t1 ++ [Warn (MsgRecvMsgFailed res)])
    end.
Proof.
  intros Hapi contentStr call reaction record.
  unfold onCallEvent. unfold bind at 1, get. cbv beta iota. rewrite Hapi.
  unfold bind at 1, emit. cbv beta iota.
  fold contentStr. unfold bind at 1. fold reaction.
  destruct reaction as [[[res|e] s1] t1]; [|reflexivity].
  destruct (res =? 0) eqn:Hres; cbn [negb]; [|reflexivity].
  subst record.
  destruct (content event) as [|b|lx|str|items|members] eqn:Hcontent;
    try reflexivity.
  { unfold throw. cbn. rewrite app_nil_r. reflexivity. }
  cbn [JSON.get].
  destruct (JSON.assoc "type" members) as [[|b|lx|type|items|members']|]; try reflexivity.
  unfold injectActivateEvent, injectDeactivateEvent, emit, ret.
  destruct (String.eqb type "SETUP"); [reflexivity|].
  destruct (String.eqb type "CANCEL"); reflexivity.
Qed.

(** C9, as amended.  With the calling API initialised and a server
    time within [MAX_SAFE_INTEGER], an inbound CANCEL is handed to
    [recv_msg] and raises no error of its own.  The
    repository is left as [recv_msg] leaves it: the active-call set
    changes only if the engine calls the state handler before it
    returns.  A deactivation record with reason [MISSED] is emitted
    when [recv_msg] returns 0, and none (but a warning) when it returns
    another code.  None of this looks at the active-call set, so it
    holds for a conversation without a call as for any other. *)
Theorem onCallEvent_cancel_record_follows_recv_msg
    (recv_msg : CallAPI.WUser -> string -> Z -> Z -> option Z -> string -> string -> string
                -> M Z)
    (currentTimestamp : Z) (event : CallEvent) (source : Source)
    (s : State) (wUser : CallAPI.WUser) :
  api s = Some wUser ->
  Z.abs currentTimestamp <= MAX_SAFE_INTEGER ->
  JSON.get "type" (content event) = Some (JSON.Str "CANCEL") ->
  let contentStr := JSON.stringify (content event) in
  let call :=
    RecvMsg wUser contentStr (String_length contentStr) (toSecond currentTimestamp)
      (toSecond <$> new_Date (time event)) (conversation event) (from event) (sender event) in
  let reaction :=
    recv_msg wUser contentStr (String_length contentStr) (toSecond currentTimestamp)
      (toSecond <$> new_Date (time event)) (conversation event) (from event) (sender event) s in
  let r := onCallEvent recv_msg currentTimestamp event source s in
  let record :=
    InjectEvent (VoiceChannelDeactivate (conversation event) (from event) MISSED (time event))
      source in
  state_of r = state_of reaction /\
  (forall e, completion reaction = Throw e ->
     completion r = Throw e /\ trace r = call :: trace reaction) /\
  (completion reaction = Normal 0 ->
     completion r = Normal tt /\ trace r = call :: trace reaction ++ [record]) /\
  (forall res, completion reaction = Normal res -> res <> 0 ->
     completion r = Normal tt /\
     trace r = call :: trace reaction ++ [Warn (MsgRecvMsgFailed res)]) /\
  (forall res, reaction = (Normal res, s, []) ->
     completion r = Normal tt /\
     state_of r = s /\
     injected (trace r)
     = if res =? 0
       then [VoiceChannelDeactivate (conversation event) (from event) MISSED (time event)]
       else []).
Proof.
  intros Hapi _ Htype contentStr call reaction r record.
  assert (Hobject : content event <> JSON.Null).
  { intros Hnull. rewrite Hnull in Htype. discriminate. }
  pose proof (onCallEvent_eq recv_msg currentTimestamp event source s wUser Hapi) as Heq.
  cbv zeta in Heq. fold contentStr call reaction r in Heq. rewrite Htype in Heq.
  change (String.eqb "CANCEL" "SETUP") with false in Heq.
  change (String.eqb "CANCEL" "CANCEL") with true in Heq.
  cbv iota in Heq. fold record in Heq.
  assert (Hr : r = match reaction with
                   | (Throw e, s1, t1) => (Throw e, s1, call :: t1)
                   | (Normal res, s1, t1) =>
                       if res =? 0 then (Normal tt, s1, call :: t1 ++ [record])
                       else (Normal tt, s1, call :: t1 ++ [Warn (MsgRecvMsgFailed res)])
                   end).
  { rewrite Heq. destruct reaction as [[[res|e] s1] t1]; [|reflexivity].
    destruct (res =? 0); [|reflexivity].
    destruct (content event); try reflexivity. congruence. }
  clear Heq. clearbody r reaction. subst r call record.
  destruct reaction as [[[res|e] s1] t1]; unfold completion, state_of, trace.
  - split; [destruct (res =? 0); reflexivity|].
    split; [intros e; discriminate|].
    split; [intros [= ->]; split; reflexivity|].
    split.
    + intros res' [= <-] Hne. destruct (Z.eqb_spec res 0); [contradiction|].
      split; reflexivity.
    + intros res' [= -> -> ->].
      destruct (res' =? 0); (split; [reflexivity|]); split; reflexivity.
  - split; [reflexivity|].
    split; [intros e' [= <-]; split; reflexivity|].
    split; [discriminate|].
    split; [intros res; discriminate|].
    intros res; discriminate.
Qed.

End RepositoryProperties.

Module RepositoryWitnesses.
Import Handler CallingRepository Samples RepositoryProperties.

(** At exactly the expiration time the stored config is still
    returned and no request is sent; and a [ttl] of zero gives a
    lifetime of 3600 seconds, not zero. *)
Lemma getConfig_at_expiry_counterexample :
  expiration <$> callingConfig configured = Some (fetched_at + 90 * 1000) /\
  (exists config,
      completion (getConfig false (fetched_at + 90 * 1000) configured)
      = Normal (ResolvedWith config)) /\
  fetches (trace (getConfig false (fetched_at + 90 * 1000) configured)) = [] /\
  config_timeout (Some 0) = 3600 * 1000 /\
  config_timeout (Some 0) <> Z.min (0 * 900) (3600 * 1000).
Proof.
  split; [reflexivity|]. split; [eexists; reflexivity|].
  split; [reflexivity|]. split; [reflexivity|]. discriminate.
Qed.

Lemma getConfig_cache_window_witness :
  0 <= fetched_at <= MAX_TIME - 3600 * 1000 /\
  callingConfig configured = Some (mkCallingConfig config_response (fetched_at + 90000)) /\
  completion (getConfig false (fetched_at + 89999) configured)
  = Normal (ResolvedWith (mkCallingConfig config_response (fetched_at + 90000))) /\
  fetches (trace (getConfig false (fetched_at + 89999) configured)) = [] /\
  fetches (trace (getConfig false (fetched_at + 90001) configured)) = [None] /\
  1%nat ∈ timeouts configured /\
  fetches (trace (configTimeout_fires false (fetched_at + 90000) 1 configured)) = [None].
Proof.
  assert (Hnow : 0 <= fetched_at <= MAX_TIME - 3600 * 1000)
    by (split; discriminate).
  assert (Hpending : 1%nat ∈ timeouts configured)
    by (apply list_elem_of_singleton; reflexivity).
  split; [exact Hnow|]. split; [reflexivity|].
  pose proof (getConfig_cache_window false fetched_at (fetched_at + 89999)
                [["turn:turn.example.com:3478"%string]] repository configured Hnow)
    as Hbefore.
  pose proof (getConfig_cache_window false fetched_at (fetched_at + 90001)
                [["turn:turn.example.com:3478"%string]] repository configured Hnow)
    as Hafter.
  pose proof (getConfig_cache_window false fetched_at (fetched_at + 90000)
                [["turn:turn.example.com:3478"%string]] repository configured Hnow)
    as Htimer.
  cbv zeta in Hbefore, Hafter, Htimer.
  destruct Hbefore as (_ & Hbefore & _). destruct Hafter as (_ & Hafter & _).
  destruct Htimer as (_ & Htimer & _).
  destruct (Hbefore eq_refl) as (Hserved & _ & _).
  destruct (Hafter eq_refl) as (_ & Hexpired & _).
  destruct (Htimer eq_refl) as (_ & _ & Hfired).
  assert (Hle : fetched_at + 89999 <= fetched_at + 90 * 1000) by discriminate.
  assert (Hlt : fetched_at + 90 * 1000 < fetched_at + 90001) by reflexivity.
  rewrite (Hserved Hle).
  split; [reflexivity|]. split; [reflexivity|].
  split; [exact (proj1 (proj2 (Hexpired Hlt)))|].
  split; [exact Hpending|].
  exact (proj1 (proj2 (Hfired 1%nat Hpending))).
Defined.

(** No call is stored for the conversation, the engine accepts the
    CANCEL without calling a handler, and a deactivation record is
    emitted. *)
Lemma onCallEvent_cancel_without_call_counterexample :
  findCall "conversation-1" (activeCalls repository) = None /\
  completion (onCallEvent recv_msg_ok 1572000001000 cancel_event "stream" repository)
  = Normal tt /\
  injected (trace (onCallEvent recv_msg_ok 1572000001000 cancel_event "stream" repository))
  = [VoiceChannelDeactivate "conversation-1" "remote-user" MISSED 1572000000500] /\
  injected (trace (onCallEvent recv_msg_ok 1572000001000 cancel_event "stream" repository))
  <> [].
Proof.
  split; [reflexivity|]. split; [reflexivity|]. split; [reflexivity|]. discriminate.
Qed.

Lemma onCallEvent_cancel_record_follows_recv_msg_witness :
  api repository = Some self /\
  Z.abs 1572000001000 <= MAX_SAFE_INTEGER /\
  findCall "conversation-1" (activeCalls repository) = None /\
  JSON.get "type" (content cancel_event) = Some (JSON.Str "CANCEL") /\
  (state_of (onCallEvent recv_msg_ok 1572000001000 cancel_event "stream" repository)
   = repository /\
   injected (trace (onCallEvent recv_msg_ok 1572000001000 cancel_event "stream" repository))
   = [VoiceChannelDeactivate "conversation-1" "remote-user" MISSED 1572000000500]) /\
  injected (trace (onCallEvent recv_msg_failed 1572000001000 cancel_event "stream" repository))
  = [] /\
  activeCalls (state_of (onCallEvent recv_msg_terminating 1572000001000 cancel_event "stream"
                           in_call))
  = [].
Proof.
  assert (Hsafe : Z.abs 1572000001000 <= MAX_SAFE_INTEGER) by discriminate.
  split; [reflexivity|]. split; [exact Hsafe|]. do 2 (split; [reflexivity|]).
  pose proof (onCallEvent_cancel_record_follows_recv_msg recv_msg_ok 1572000001000
                cancel_event "stream" repository self eq_refl Hsafe eq_refl) as Hok.
  pose proof (onCallEvent_cancel_record_follows_recv_msg recv_msg_failed 1572000001000
                cancel_event "stream" repository self eq_refl Hsafe eq_refl) as Hfailed.
  pose proof (onCallEvent_cancel_record_follows_recv_msg recv_msg_terminating 1572000001000
                cancel_event "stream" in_call self eq_refl Hsafe eq_refl) as Hterm.
  cbv zeta in Hok, Hfailed, Hterm.
  destruct Hok as (_ & _ & _ & _ & Hok). destruct Hfailed as (_ & _ & _ & _ & Hfailed).
  destruct Hterm as (Hterm & _).
  destruct (Hok 0 eq_refl) as (_ & Hstate & Hrecord).
  destruct (Hfailed 1 eq_refl) as (_ & _ & Hnone).
  split; [split; [exact Hstate | exact Hrecord]|].
  split; [exact Hnone|].
  rewrite Hterm. reflexivity.
Defined.

End RepositoryWitnesses.

(** * Further properties of the transport *)
Module TransportExtras.
Import Handler WebSocketService TransportFacts.

Ltac unfold_service :=
  unfold handle, interval_fires, timeout_fires, pendingReconnect, sendPing,
    socket_onerror, socket_onclose, socket_onopen, socket_onmessage, blobReader_onload,
    reset, reconnect, reconnect_closure, connect, reset_, reconnected,
    setInterval, setTimeout, clearInterval, clearTimeout,
    bind, emit, modify, get, ret, throw, state_of, completion, trace in *.

Ltac run_goal := repeat (cbn; try destruct_test).

Lemma Forall_filter_keep {A} (P : A -> Prop) (f : A -> bool) (l : list A) :
  Forall P l -> Forall P (List.filter f l).
Proof.
  induction 1 as [|x l Hx _ IH]; cbn; [constructor|].
  destruct (f x); [constructor; assumption | assumption].
Qed.

Lemma Forall_lt_succ {A} (g : A -> nat) (n : nat) (l : list A) :
  Forall (fun x => (g x < n)%nat) l -> Forall (fun x => (g x < S n)%nat) l.
Proof. induction 1; constructor; [lia | assumption]. Qed.

Ltac fresh_solve :=
  repeat match goal with
    | |- _ /\ _ => split
    | |- Forall _ (_ ++ _) => apply Forall_app; split
    | |- Forall _ (List.filter _ _) => apply Forall_filter_keep
    | |- Forall _ [_] => constructor; [cbn; lia | constructor]
    | |- Forall _ [] => constructor
    | |- Forall _ _ =>
        first [ assumption
              | apply (Forall_lt_succ (fun x => x)); assumption
              | apply (Forall_lt_succ fst); assumption ]
    end.

Lemma step_fresh (env : Env) (input : Input) (s : State) :
  timers_fresh (window s) -> timers_fresh (window (state_of (handle env input s))).
Proof.
  intros [Hi Ht]. unfold timers_fresh.
  destruct input; unfold_service; run_goal; fresh_solve.
Qed.

Lemma step_count (env : Env) (input : Input) (s : State) :
  0 <= reconnectCount s -> 0 <= reconnectCount (state_of (handle env input s)).
Proof.
  intros H.
  destruct input; unfold_service; run_goal; lia.
Qed.

Ltac keep_intro :=
  first
    [ intros (H1 & H2 & [H3 | (id0 & H3 & H4)])
    | intros H3 ].

Ltac keep_solve :=
  unfold CONNECTING, OPEN, CLOSING, CLOSED in *;
  repeat match goal with
    | H : Some _ = Some _ |- _ => injection H as H; subst
    | H : (_ =? _) = true |- _ => apply Z.eqb_eq in H; try rewrite H in *
    end;
  try match goal with H : intervals _ = _ |- _ => rewrite H in * end;
  try match goal with H : pingIntervalId _ = _ |- _ => rewrite H in * end;
  cbn in *; rewrite ?bool_decide_eq_true_2 by reflexivity; cbn;
  repeat match goal with
    | H : ?a = ?a -> _ |- _ => specialize (H eq_refl)
    | H : ?a = ?b -> _, E : ?a = ?b |- _ => specialize (H E)
    | H : _ /\ _ |- _ => destruct H
    end;
  try solve
    [ reflexivity
    | discriminate
    | repeat split; intros; try discriminate; try congruence; auto;
      try solve [left; reflexivity];
      try solve [right; eexists; split; reflexivity]
    | intuition (first [discriminate | congruence | eauto]) ].

Lemma step_keepalive (env : Env) (input : Input) (s : State) :
  keepalive_owned s -> keepalive_owned (state_of (handle env input s)).
Proof.
  unfold keepalive_owned.
  destruct input; unfold_service; run_goal; keep_intro; keep_solve.
Qed.

(** X1. Whatever methods are called and whatever socket and timer
    events arrive, in any order and with any credential state, starting
    from the constructed service: at most one keepalive interval is
    armed, it is the one recorded in [pingIntervalId], none is armed
    while there is no socket, while the socket is connecting or once its
    handlers are detached; every armed timer has an id below the next
    one to be handed out; and the attempt counter is never negative. *)
Theorem keepalive_interval_singly_owned (inputs : list (Env * Input)) :
  let s := run inputs constructor in
  keepalive_owned s /\
  (List.length (intervals (window s)) <= 1)%nat /\
  timers_fresh (window s) /\
  0 <= reconnectCount s.
Proof.
  assert (Hrun : forall inputs s0,
             keepalive_owned s0 /\ timers_fresh (window s0) /\ 0 <= reconnectCount s0 ->
             let s := run inputs s0 in
             keepalive_owned s /\ timers_fresh (window s) /\ 0 <= reconnectCount s).
  { clear inputs. induction inputs as [|[env input] rest IH]; intros s0 H; [exact H|].
    cbn [run]. apply IH. destruct H as (Hk & Hf & Hc).
    split; [apply step_keepalive; exact Hk|].
    split; [apply step_fresh; exact Hf | apply step_count; exact Hc]. }
  intros s.
  destruct (Hrun inputs constructor) as (Hk & Hf & Hc).
  { split; [reflexivity|]. split; [split; constructor | cbn; lia]. }
  fold s in Hk, Hf, Hc.
  split; [exact Hk|]. split; [|split; assumption].
  unfold keepalive_owned in Hk. destruct (socket s) as [sk|].
  - destruct Hk as (_ & _ & [H | (id & H & _)]); rewrite H; cbn; lia.
  - rewrite Hk. cbn. lia.
Qed.

(** X2. A ping answered by "pong" before the next interval is not a
    failure: the pong clears the flag without any other effect, the
    next interval sends a new ping, and [reconnect] is never called. *)
Theorem ping_pong_keeps_connection
    (env : Env) (s : State) (sk : WebSocket) :
  socket s = Some sk ->
  readyState sk = OPEN ->
  hasAlreadySentUnansweredPing s = false ->
  let tick1 := sendPing env s in
  let pong := socket_onmessage (BlobData "pong") (state_of tick1) in
  let tick2 := sendPing env (state_of pong) in
  pong = (Normal tt, s, []) /\
  tick2 = tick1 /\
  pings_sent (trace tick1) = 1%nat /\
  reconnect_calls (trace tick1 ++ trace pong ++ trace tick2) = [].
Proof.
  intros Hsk Hopen Hflag tick1 pong tick2.
  assert (H1 : tick1 = (Normal tt, set_hasAlreadySentUnansweredPing true s,
                        [Log info MsgSendingPing; SocketSend "ping"])).
  { subst tick1. unfold sendPing, bind, get, emit, modify. cbn.
    rewrite Hsk, Hopen, Hflag. reflexivity. }
  assert (H2 : pong = (Normal tt, s, [])).
  { subst pong. rewrite H1. unfold socket_onmessage, blobReader_onload, bind, get, modify.
    cbn. rewrite Hsk. cbn. rewrite <- Hflag. destruct s; reflexivity. }
  split; [exact H2|]. split.
  - subst tick2. rewrite H2. reflexivity.
  - subst tick2. rewrite H2. cbn [state_of fst snd]. fold tick1. rewrite H1.
    split; reflexivity.
Qed.

(** X3. [reset] without reconnect on a socket whose handlers are
    attached closes it once, detaches its error and close handlers,
    clears the flag and disarms the keepalive interval and the last
    reconnect timeout, and never calls [reconnect].  A tick of the
    disarmed interval and a second [reset] then do nothing. *)
Theorem reset_tears_down_once
    (env : Env) (trigger trigger' : CHANGE_TRIGGER.t) (s : State) (sk : WebSocket) :
  socket s = Some sk ->
  onclose sk = true ->
  let r := reset env trigger false s in
  let s' := state_of r in
  completion r = Normal tt /\
  sockets_closed (trace r) = 1%nat /\
  sockets_opened (trace r) = [] /\
  reconnect_calls (trace r) = [] /\
  socket s' = Some (mkWebSocket (url sk)
                      (if readyState sk =? CLOSED then CLOSED else CLOSING)
                      (onopen sk) false false (onmessage sk)) /\
  hasAlreadySentUnansweredPing s' = false /\
  (forall id, pingIntervalId s = Some id -> ~ In id (intervals (window s'))) /\
  (forall id, reconnectTimeoutId s = Some id ->
              ~ In id (List.map fst (timeouts (window s')))) /\
  (forall env' id, pingIntervalId s = Some id ->
                   interval_fires env' id s' = (Normal tt, s', [])) /\
  reset env trigger' false s' = (Normal tt, s', []).
Proof.
  intros Hsk Hclose r s'.
  assert (Hr : r = (Normal tt,
                    set_hasAlreadySentUnansweredPing false
                      (set_window
                         (mkWindow (nextTimerId (window s))
                            (List.filter (fun i => negb (bool_decide (Some i = pingIntervalId s)))
                               (intervals (window s)))
                            (List.filter
                               (fun p => negb (bool_decide (Some (fst p) = reconnectTimeoutId s)))
                               (timeouts (window s))))
                         (set_socket (Some (close (detach sk))) s)),
                    [Log info (MsgResetTriggeredBy trigger); SocketClose;
                     ClearInterval (pingIntervalId s); ClearTimeout (reconnectTimeoutId s)])).
  { subst r. unfold reset, reset_, clearInterval, clearTimeout, bind, get, emit, modify, ret.
    cbn. rewrite Hsk. cbn. rewrite Hclose. reflexivity. }
  assert (Hnotin : forall id, pingIntervalId s = Some id -> ~ In id (intervals (window s'))).
  { intros id Hid Hin. subst s'. rewrite Hr in Hin. cbn in Hin.
    apply filter_In in Hin as [_ Hin]. rewrite Hid in Hin.
    rewrite bool_decide_eq_true_2 in Hin by reflexivity. discriminate. }
  subst s'. rewrite Hr in *. cbn [state_of completion trace fst snd] in *.
  do 6 (split; [reflexivity|]).
  split; [exact Hnotin|]. split; [|split].
  - intros id Hid Hin. cbn in Hin. apply in_map_iff in Hin as [[id' t] [Heq Hin]].
    cbn in Heq. subst id'. apply filter_In in Hin as [_ Hin]. cbn in Hin.
    rewrite Hid in Hin. rewrite bool_decide_eq_true_2 in Hin by reflexivity. discriminate.
  - intros env' id Hid. unfold interval_fires. unfold bind at 1, get. cbv beta iota.
    rewrite bool_decide_eq_false_2; [reflexivity|].
    intros Hin. apply (Hnotin id Hid). apply list_elem_of_In. exact Hin.
  - unfold reset, reset_, bind, get, ret. cbn. reflexivity.
Qed.

Lemma reset_attached (f : CHANGE_TRIGGER.t -> M unit) (trigger : CHANGE_TRIGGER.t)
    (s : State) (sk : WebSocket) :
  socket s = Some sk -> onclose sk = true ->
  reset_ f trigger false s
  = (Normal tt, torn_down sk s,
     [Log info (MsgResetTriggeredBy trigger); SocketClose;
      ClearInterval (pingIntervalId s); ClearTimeout (reconnectTimeoutId s)]).
Proof.
  intros Hsk Hclose.
  unfold reset_, clearInterval, clearTimeout, bind, get, emit, modify, ret.
  cbn. rewrite Hsk. cbn. rewrite Hclose. reflexivity.
Qed.

Lemma reset_detached (f : CHANGE_TRIGGER.t -> M unit) (trigger : CHANGE_TRIGGER.t)
    (s : State) :
  (socket s = None \/ exists sk, socket s = Some sk /\ onclose sk = false) ->
  reset_ f trigger false s = (Normal tt, s, []).
Proof.
  intros [H | [sk [H Hclose]]];
    unfold reset_, bind, get, ret; cbn; rewrite H; cbn; rewrite ?Hclose; reflexivity.
Qed.

Lemma reset_then_reconnect (env : Env) (trigger : CHANGE_TRIGGER.t) (s : State) :
  let r0 := reset_ (fun _ => ret tt) trigger false s in
  let r := reconnect env trigger (state_of r0) in
  reset env trigger true s
  = (completion r, state_of r,
     trace r0 ++ Publish WARNING_SHOW_CONNECTIVITY_RECONNECT :: trace r).
Proof.
  unfold reset, reset_, clearInterval, clearTimeout. unfold bind, get, emit, modify, ret.
  cbn -[reconnect].
  destruct (socket s) as [sk|]; cbn -[reconnect].
  - destruct (onclose sk); cbn -[reconnect];
      match goal with |- context [reconnect env trigger ?x] =>
        destruct (reconnect env trigger x) as [[c s1] t1] end; reflexivity.
  - destruct (reconnect env trigger s) as [[c s1] t1]. reflexivity.
Qed.

Lemma connect_eq (env : Env) (cb : option Callback) (then_ : Then) (s : State) :
  let s1 := set_connectionUrl (endpoint env s) (set_onNotification cb s) in
  let r0 := match socket s with
            | Some _ => reset_ (fun _ => ret tt) CHANGE_TRIGGER.CLEANUP false s1
            | None => (Normal tt, s1, [])
            end in
  connect env cb then_ s
  = (Normal tt,
     set_socket (Some (mkWebSocket (endpoint env s) CONNECTING then_ true true cb))
       (state_of r0),
     trace r0 ++ [NewWebSocket (endpoint env s)]).
Proof.
  unfold connect, endpoint, reset_, clearInterval, clearTimeout, bind, get, emit, modify, ret,
    state_of, trace.
  destruct (truthy_string (clientId s)) eqn:Hc; cbn; rewrite ?Hc; cbn;
    destruct (socket s) as [sk|] eqn:Hs; cbn; rewrite ?Hs; cbn; try reflexivity;
    destruct (onclose sk); cbn; reflexivity.
Qed.


Lemma sockets_closed_app (t1 t2 : list Effect) :
  sockets_closed (t1 ++ t2) = (sockets_closed t1 + sockets_closed t2)%nat.
Proof. unfold sockets_closed. rewrite List.filter_app, length_app. reflexivity. Qed.

Lemma reconnect_detached_closes_nothing
    (env : Env) (trigger : CHANGE_TRIGGER.t) (s : State) (sk : WebSocket) :
  socket s = Some sk -> onclose sk = false ->
  sockets_closed (trace (reconnect env trigger s)) = 0%nat.
Proof.
  intros Hs Hc.
  unfold reconnect, reconnect_closure, connect, reset_, setTimeout, bind, get, emit,
    modify, ret, trace, sockets_closed.
  destruct (negb (truthy_number (ACCESS_TOKEN_EXPIRATION env))); cbn; [reflexivity|].
  destruct (reconnectCount s + 1 =? 1); cbn; [|reflexivity].
  rewrite Hs. destruct (truthy_string (clientId s)); cbn; rewrite ?Hs; cbn; rewrite Hc;
    reflexivity.
Qed.

Lemma reconnect_without_credential
    (env : Env) (trigger : CHANGE_TRIGGER.t) (s : State) :
  truthy_number (ACCESS_TOKEN_EXPIRATION env) = false ->
  reconnect env trigger s
  = (Normal tt, set_pendingReconnectTrigger (Some trigger) s,
     [Called_reconnect trigger; Log info (MsgTokenHasToBeRefreshed trigger);
      Publish ACCESS_TOKEN_RENEW]).
Proof. intros H. unfold reconnect, bind, emit, modify. rewrite H. reflexivity. Qed.

(** X4. An error event, and likewise a close event, on a socket whose
    handlers are attached shows the connectivity warning, closes that
    socket once and calls [reconnect] exactly once, with [ERROR] or
    [CLOSE].  While the socket has not been replaced (no credential is
    stored), a close or error event that follows finds no handler and
    starts nothing. *)
Theorem socket_failure_reconnects_once
    (env : Env) (s : State) (sk : WebSocket) :
  socket s = Some sk ->
  onerror sk = true ->
  onclose sk = true ->
  let failed := socket_onerror env s in
  let closed := socket_onclose env s in
  reconnect_calls (trace failed) = [CHANGE_TRIGGER.ERROR] /\
  reconnect_calls (trace closed) = [CHANGE_TRIGGER.CLOSE] /\
  In (Publish WARNING_SHOW_CONNECTIVITY_RECONNECT) (trace failed) /\
  In (Publish WARNING_SHOW_CONNECTIVITY_RECONNECT) (trace closed) /\
  sockets_closed (trace failed) = 1%nat /\
  sockets_closed (trace closed) = 1%nat /\
  (truthy_number (ACCESS_TOKEN_EXPIRATION env) = false ->
   pendingReconnectTrigger (state_of failed) = Some CHANGE_TRIGGER.ERROR /\
   trace (socket_onclose env (state_of failed)) = [] /\
   trace (socket_onerror env (state_of failed)) = []).
Proof.
  intros Hsk Herr Hclose failed closed.
  assert (Hreset : forall trigger s0 sk0,
             socket s0 = Some sk0 -> onclose sk0 = true ->
             let r := reconnect env trigger (torn_down sk0 s0) in
             reset env trigger true s0
             = (completion r, state_of r,
                [Log info (MsgResetTriggeredBy trigger); SocketClose;
                 ClearInterval (pingIntervalId s0); ClearTimeout (reconnectTimeoutId s0);
                 Publish WARNING_SHOW_CONNECTIVITY_RECONNECT] ++ trace r)).
  { intros trigger s0 sk0 H0 Hc0. cbv zeta.
    rewrite reset_then_reconnect. cbv zeta.
    rewrite (reset_attached _ trigger s0 sk0 H0 Hc0). reflexivity. }
  assert (Hfailed : failed
            = let r := reconnect env CHANGE_TRIGGER.ERROR (torn_down sk s) in
              (completion r, state_of r,
               [Log error MsgConnectionError;
                Log info (MsgResetTriggeredBy CHANGE_TRIGGER.ERROR); SocketClose;
                ClearInterval (pingIntervalId s); ClearTimeout (reconnectTimeoutId s);
                Publish WARNING_SHOW_CONNECTIVITY_RECONNECT] ++ trace r)).
  { subst failed. unfold socket_onerror. unfold bind at 1, get. cbv beta iota.
    rewrite Hsk, Herr. unfold bind, emit. cbv beta iota.
    rewrite (Hreset CHANGE_TRIGGER.ERROR s sk Hsk Hclose). reflexivity. }
  set (sc := set_socket (Some (with_readyState CLOSED sk)) s).
  assert (Hclosed : closed
            = let r := reconnect env CHANGE_TRIGGER.CLOSE
                         (torn_down (with_readyState CLOSED sk) sc) in
              (completion r, state_of r,
               [Log warn MsgClosedConnection;
                Log info (MsgResetTriggeredBy CHANGE_TRIGGER.CLOSE); SocketClose;
                ClearInterval (pingIntervalId s); ClearTimeout (reconnectTimeoutId s);
                Publish WARNING_SHOW_CONNECTIVITY_RECONNECT] ++ trace r)).
  { subst closed. unfold socket_onclose. unfold bind at 1, get. cbv beta iota.
    rewrite Hsk. unfold bind at 1, modify. cbv beta iota. fold sc. rewrite Hclose.
    unfold bind, emit. cbv beta iota.
    rewrite (Hreset CHANGE_TRIGGER.CLOSE sc (with_readyState CLOSED sk) eq_refl Hclose).
    reflexivity. }
  rewrite Hfailed, Hclosed. cbv zeta. cbn [trace state_of fst snd].
  split; [|split; [|split; [|split; [|split; [|split]]]]].
  - rewrite reconnect_calls_app. cbn [reconnect_calls app].
    apply reconnect_calls_reconnect.
  - rewrite reconnect_calls_app. cbn [reconnect_calls app].
    apply reconnect_calls_reconnect.
  - apply in_or_app. left. cbn. tauto.
  - apply in_or_app. left. cbn. tauto.
  - rewrite sockets_closed_app.
    rewrite (reconnect_detached_closes_nothing env CHANGE_TRIGGER.ERROR (torn_down sk s)
               (close (detach sk)) eq_refl eq_refl).
    reflexivity.
  - rewrite sockets_closed_app.
    rewrite (reconnect_detached_closes_nothing env CHANGE_TRIGGER.CLOSE
               (torn_down (with_readyState CLOSED sk) sc)
               (close (detach (with_readyState CLOSED sk))) eq_refl eq_refl).
    reflexivity.
  - intros Htoken. rewrite (reconnect_without_credential env _ _ Htoken).
    cbn [state_of fst snd].
    split; [reflexivity|]. split.
    + unfold socket_onclose, bind, get, modify, ret. cbn. reflexivity.
    + unfold socket_onerror, bind, get, ret. cbn. reflexivity.
Qed.

(** X5. [connect] releases the current socket before it opens the new
    one: a socket with attached handlers is closed first and its
    keepalive interval disarmed, and that clean-up starts no reconnect.
    The new socket is connecting, has both handlers attached and
    delivers to the callback given, which is also kept for later
    reconnects.  Without a client id the endpoint is
    [<webSocketUrl>/await?access_token=<accessToken>]. *)
Theorem connect_releases_previous_socket
    (env : Env) (cb : option Callback) (then_ : Then) (s : State) :
  let r := connect env cb then_ s in
  let s' := state_of r in
  completion r = Normal tt /\
  reconnect_calls (trace r) = [] /\
  sockets_opened (trace r) = [endpoint env s] /\
  socket s' = Some (mkWebSocket (endpoint env s) CONNECTING then_ true true cb) /\
  connectionUrl s' = endpoint env s /\
  onNotification s' = cb /\
  (truthy_string (clientId s) = false ->
   endpoint env s = webSocketUrl (backendClient env) +:+ "/await?access_token="
                    +:+ accessToken (backendClient env)) /\
  (forall sk, socket s = Some sk -> onclose sk = true ->
     trace r = [Log info (MsgResetTriggeredBy CHANGE_TRIGGER.CLEANUP); SocketClose;
                ClearInterval (pingIntervalId s); ClearTimeout (reconnectTimeoutId s);
                NewWebSocket (endpoint env s)] /\
     hasAlreadySentUnansweredPing s' = false /\
     forall id, pingIntervalId s = Some id -> ~ In id (intervals (window s'))) /\
  (socket s = None \/ (exists sk, socket s = Some sk /\ onclose sk = false) ->
   trace r = [NewWebSocket (endpoint env s)] /\
   window s' = window s).
Proof.
  intros r s'. subst s' r. rewrite connect_eq. cbv zeta. cbn [state_of completion trace fst snd].
  set (s1 := set_connectionUrl (endpoint env s) (set_onNotification cb s)).
  split; [reflexivity|].
  assert (Hcases : socket s = None \/ (exists sk, socket s = Some sk /\ onclose sk = false)
                   \/ exists sk, socket s = Some sk /\ onclose sk = true).
  { destruct (socket s) as [sk|]; [|tauto]. destruct (onclose sk) eqn:E; eauto. }
  assert (Hdet : socket s = None \/ (exists sk, socket s = Some sk /\ onclose sk = false) ->
                 match socket s with
                 | Some _ => reset_ (fun _ => ret tt) CHANGE_TRIGGER.CLEANUP false s1
                 | None => (Normal tt, s1, [])
                 end = (Normal tt, s1, [])).
  { intros H. destruct (socket s) as [sk|] eqn:Hs; [|reflexivity].
    apply reset_detached. right. destruct H as [H | [sk' [H Hc]]]; [discriminate|].
    exists sk. split; [exact Hs|]. congruence. }
  assert (Hatt : forall sk, socket s = Some sk -> onclose sk = true ->
                 match socket s with
                 | Some _ => reset_ (fun _ => ret tt) CHANGE_TRIGGER.CLEANUP false s1
                 | None => (Normal tt, s1, [])
                 end = (Normal tt, torn_down sk s1,
                        [Log info (MsgResetTriggeredBy CHANGE_TRIGGER.CLEANUP); SocketClose;
                         ClearInterval (pingIntervalId s); ClearTimeout (reconnectTimeoutId s)])).
  { intros sk Hs Hc. rewrite Hs.
    apply (reset_attached _ CHANGE_TRIGGER.CLEANUP s1 sk Hs Hc). }
  split; [|split; [|split; [|split; [|split; [|split; [|split]]]]]].
  - destruct Hcases as [H | [H | [sk [Hs Hc]]]].
    + rewrite (Hdet (or_introl H)). reflexivity.
    + rewrite (Hdet (or_intror H)). reflexivity.
    + rewrite (Hatt sk Hs Hc). reflexivity.
  - destruct Hcases as [H | [H | [sk [Hs Hc]]]].
    + rewrite (Hdet (or_introl H)). reflexivity.
    + rewrite (Hdet (or_intror H)). reflexivity.
    + rewrite (Hatt sk Hs Hc). reflexivity.
  - reflexivity.
  - destruct Hcases as [H | [H | [sk [Hs Hc]]]].
    + rewrite (Hdet (or_introl H)). reflexivity.
    + rewrite (Hdet (or_intror H)). reflexivity.
    + rewrite (Hatt sk Hs Hc). reflexivity.
  - destruct Hcases as [H | [H | [sk [Hs Hc]]]].
    + rewrite (Hdet (or_introl H)). reflexivity.
    + rewrite (Hdet (or_intror H)). reflexivity.
    + rewrite (Hatt sk Hs Hc). reflexivity.
  - intros Hc. unfold endpoint. rewrite Hc. reflexivity.
  - intros sk Hs Hc. rewrite (Hatt sk Hs Hc). cbn [state_of trace fst snd].
    split; [reflexivity|]. split; [reflexivity|].
    intros id Hid Hin. cbn in Hin. apply filter_In in Hin as [_ Hin].
    rewrite Hid in Hin. rewrite bool_decide_eq_true_2 in Hin by reflexivity. discriminate.
  - intros H. rewrite (Hdet H). split; reflexivity.
Qed.

(** X6. A binary frame that carries a JSON text other than "pong" is
    handed, parsed, to the callback the socket was connected with,
    exactly once, and changes nothing in the service; a text frame is
    never delivered, whatever it carries. *)
Theorem onmessage_delivers_parsed_event
    (s : State) (sk : WebSocket) (cb : Callback) (text : string) (event : JSON.value) :
  socket s = Some sk ->
  onmessage sk = Some cb ->
  text <> "pong"%string ->
  JSON.parse text = Some event ->
  socket_onmessage (BlobData text) s = (Normal tt, s, [Notify cb event]) /\
  (forall text', socket_onmessage (StringData text') s = (Normal tt, s, [])).
Proof.
  intros Hsk Hcb Hpong Hparse.
  unfold socket_onmessage, blobReader_onload, bind, get, emit, ret. cbn.
  rewrite Hsk. apply String.eqb_neq in Hpong. rewrite Hpong, Hparse, Hcb.
  split; reflexivity.
Qed.

(** X7. A keepalive tick on a socket that is not open sends no ping
    and calls [reconnect] exactly once, with [READY_STATE], leaving the
    pending-ping flag as it was unless the socket is replaced; without
    any socket the tick throws. *)
Theorem sendPing_not_open_reconnects
    (env : Env) (s : State) :
  (socket s = None -> sendPing env s = (Throw TypeError, s, [])) /\
  (forall sk, socket s = Some sk -> readyState sk <> OPEN ->
     let r := sendPing env s in
     reconnect_calls (trace r) = [CHANGE_TRIGGER.READY_STATE] /\
     pings_sent (trace r) = 0%nat /\
     In (Log warn (MsgConnectionIsClosed (readyState sk))) (trace r) /\
     (sockets_opened (trace r) = [] ->
      hasAlreadySentUnansweredPing (state_of r) = hasAlreadySentUnansweredPing s)).
Proof.
  split.
  - intros Hs. unfold sendPing, bind, get, throw. cbn. rewrite Hs. reflexivity.
  - intros sk Hs Hopen r.
    assert (Hr : r = let r0 := reconnect env CHANGE_TRIGGER.READY_STATE s in
                     (completion r0, state_of r0,
                      Log warn (MsgConnectionIsClosed (readyState sk)) :: trace r0)).
    { subst r. unfold sendPing. unfold bind at 1, get. cbv beta iota. rewrite Hs.
      apply Z.eqb_neq in Hopen. unfold OPEN in Hopen. rewrite Hopen.
      unfold bind, emit. cbv beta iota.
      destruct (reconnect env CHANGE_TRIGGER.READY_STATE s) as [[c s1] t1]. reflexivity. }
    rewrite Hr. cbv zeta. cbn [trace state_of fst snd].
    split; [apply reconnect_calls_reconnect|].
    split; [|split; [left; reflexivity|]].
    + unfold pings_sent. cbn [List.filter].
      unfold reconnect, reconnect_closure, connect, reset_, setTimeout, clearInterval,
        clearTimeout, bind, get, emit, modify, ret, trace.
      run_goal; reflexivity.
    + unfold reconnect, reconnect_closure, connect, reset_, setTimeout, clearInterval,
        clearTimeout, bind, get, emit, modify, ret, trace, state_of.
      run_goal; intros H; try reflexivity; discriminate.
Qed.

End TransportExtras.

(** * Further properties of the calling API *)
Module JSONRoundTrip.
Import JSON.

Section value_induction.
Variable P : value -> Prop.
Hypothesis HNull : P Null.
Hypothesis HBool : forall b, P (Bool b).
Hypothesis HNumber : forall lx, P (Number lx).
Hypothesis HStr : forall s, P (Str s).
Hypothesis HArray : forall items, Forall P items -> P (Array items).
Hypothesis HObject : forall members, Forall (fun m => P (snd m)) members -> P (Object members).

Lemma value_nested_ind (v : value) : P v.
Proof.
  revert v.
  exact (fix value_nested_ind (v : value) : P v :=
  match v with
  | Null => HNull
  | Bool b => HBool b
  | Number lx => HNumber lx
  | Str s => HStr s
  | Array items =>
      HArray items
        ((fix go (l : list value) : Forall P l :=
            match l with
            | [] => @List.Forall_nil _ P
            | x :: r => @List.Forall_cons _ P x r (value_nested_ind x) (go r)
            end) items)
  | Object members =>
      HObject members
        ((fix go (l : list (string * value)) : Forall (fun m => P (snd m)) l :=
            match l with
            | [] => @List.Forall_nil _ (fun m => P (snd m))
            | x :: r =>
                @List.Forall_cons _ (fun m => P (snd m)) x r (value_nested_ind (snd x)) (go r)
            end) members)
  end).
Qed.
End value_induction.

Lemma parse_chars_escape (c : ascii) (rest : list ascii) :
  parse_chars (escape_char c ++ rest)
  = match parse_chars rest with
    | Some (cs, r) => Some (c :: cs, r)
    | None => None
    end.
Proof.
  destruct c as [b0 b1 b2 b3 b4 b5 b6 b7].
  destruct b0, b1, b2, b3, b4, b5, b6, b7; reflexivity.
Qed.

Lemma parse_chars_quoted (l rest : list ascii) :
  parse_chars (flat_map escape_char l ++ dquote :: rest) = Some (l, rest).
Proof.
  induction l as [|c l IH]; [reflexivity|].
  cbn [flat_map]. rewrite <- app_assoc, parse_chars_escape, IH. reflexivity.
Qed.

Lemma parse_string_quote (s : string) (rest : list ascii) :
  parse_string (quote s ++ rest) = Some (s, rest).
Proof.
  unfold parse_string, quote. cbn [app].
  change (is_code 34 dquote) with true. cbv iota.
  rewrite <- app_assoc. cbn [app]. rewrite parse_chars_quoted.
  rewrite string_of_list_ascii_of_string. reflexivity.
Qed.

Lemma stringify_opens (v : value) (rest : list ascii) :
  number_free v = true -> opens_value (stringify_chars v ++ rest).
Proof.
  destruct v as [|[]|lx|s|items|members]; cbn; intros H; try discriminate;
    eexists _, _; (split; [reflexivity|]); repeat split; reflexivity.
Qed.

Lemma skip_ws_opens (l : list ascii) : opens_value l -> skip_ws l = l.
Proof. intros (c & r & -> & Hws & _). cbn. rewrite Hws. reflexivity. Qed.

Lemma parse_elements_join (items : list value) :
  Forall (fun v => number_free v = true /\ parses v) items ->
  items <> [] ->
  forall fuel rest,
    (list_weight (List.map weight items) < fuel)%nat ->
    parse_elements fuel
      (join (lit ",") (List.map stringify_chars items) ++ chr 93 :: rest)
    = Some (items, rest).
Proof.
  induction 1 as [|v items [Hnf Hv] Hrest IH]; [congruence|].
  intros _ fuel rest Hfuel.
  destruct fuel as [|fuel]; [lia|]. cbn [List.map list_weight] in Hfuel.
  cbn [parse_elements].
  destruct items as [|v' items'].
  - cbn [List.map join]. rewrite Hv by (cbn in *; lia). reflexivity.
  - change (join (lit ",") (List.map stringify_chars (v :: v' :: items')))
      with (stringify_chars v ++ lit "," ++ join (lit ",") (List.map stringify_chars (v' :: items'))).
    rewrite <- !app_assoc. rewrite Hv by lia.
    cbn [lit list_ascii_of_string app skip_ws]. 
    change (is_ws ","%char) with false. cbv iota.
    change (is_code 44 ","%char) with true. cbv iota.
    rewrite IH; [reflexivity | discriminate | lia].
Qed.

Lemma parse_members_join (members : list (string * value)) :
  Forall (fun m => number_free (snd m) = true /\ parses (snd m)) members ->
  members <> [] ->
  forall fuel rest,
    (list_weight (List.map (fun m => weight (snd m)) members) < fuel)%nat ->
    parse_members fuel
      (join (lit ",")
         (List.map (fun m => quote (fst m) ++ lit ":" ++ stringify_chars (snd m)) members)
       ++ chr 125 :: rest)
    = Some (members, rest).
Proof.
  induction 1 as [|[k v] members [Hnf Hv] Hrest IH]; [congruence|].
  intros _ fuel rest Hfuel. cbn [fst snd] in *.
  destruct fuel as [|fuel]; [lia|]. cbn [List.map list_weight fst snd] in Hfuel.
  cbn [parse_members].
  destruct members as [|m' members'].
  - cbn [List.map join fst snd]. rewrite <- !app_assoc.
    rewrite (skip_ws_opens (quote k ++ _)) by
      (eexists _, _; split; [reflexivity|]; repeat split; reflexivity).
    rewrite parse_string_quote.
    cbn [lit list_ascii_of_string app skip_ws].
    change (is_ws ":"%char) with false. cbv iota.
    change (is_code 58 ":"%char) with true. cbv iota.
    rewrite Hv by (cbn in *; lia). reflexivity.
  - change (join (lit ",")
              (List.map (fun m => quote (fst m) ++ lit ":" ++ stringify_chars (snd m))
                 ((k, v) :: m' :: members')))
      with ((quote k ++ lit ":" ++ stringify_chars v) ++ lit ","
            ++ join (lit ",")
                 (List.map (fun m => quote (fst m) ++ lit ":" ++ stringify_chars (snd m))
                    (m' :: members'))).
    rewrite <- !app_assoc.
    rewrite (skip_ws_opens (quote k ++ _)) by
      (eexists _, _; split; [reflexivity|]; repeat split; reflexivity).
    rewrite parse_string_quote.
    cbn [lit list_ascii_of_string app skip_ws].
    change (is_ws ":"%char) with false. cbv iota.
    change (is_code 58 ":"%char) with true. cbv iota.
    rewrite Hv by lia.
    cbn [skip_ws]. change (is_ws ","%char) with false. cbv iota.
    change (is_code 44 ","%char) with true. cbv iota.
    rewrite IH; [reflexivity | discriminate | lia].
Qed.


Lemma join_cons_app (sep p : list ascii) (ps : list (list ascii)) (rest : list ascii) :
  exists tail, join sep (p :: ps) ++ rest = p ++ tail.
Proof.
  destruct ps as [|p' ps'].
  - exists rest. reflexivity.
  - exists (sep ++ join sep (p' :: ps') ++ rest). cbn [join]. rewrite <- !app_assoc. reflexivity.
Qed.

Lemma parses_all (v : value) : number_free v = true -> parses v.
Proof.
  induction v as [|b|lx|s|items IH|members IH] using value_nested_ind;
    intros Hnf fuel rest Hfuel; (destruct fuel as [|fuel]; [lia|]).
  - reflexivity.
  - destruct b; reflexivity.
  - discriminate.
  - cbn [stringify_chars parse_value].
    rewrite skip_ws_opens by
      (eexists _, _; split; [reflexivity|]; repeat split; reflexivity).
    unfold quote at 1. cbn [app].
    change (is_code 110 dquote) with false. change (is_code 116 dquote) with false.
    change (is_code 102 dquote) with false. change (is_code 34 dquote) with true.
    cbv iota.
    change (dquote :: (flat_map escape_char (list_ascii_of_string s) ++ [dquote]) ++ rest)
      with (quote s ++ rest).
    rewrite parse_string_quote. reflexivity.
  - cbn [number_free] in Hnf. cbn [weight] in Hfuel.
    assert (Hall : Forall (fun v => number_free v = true /\ parses v) items).
    { pose proof (proj1 (forallb_forall _ _) Hnf) as Hin.
      apply List.Forall_forall. intros x Hx.
      pose proof (proj1 (List.Forall_forall _ _) IH x Hx) as Hp. cbn in Hp. auto. }
    destruct items as [|v items].
    + reflexivity.
    + cbn [stringify_chars parse_value lit list_ascii_of_string app skip_ws].
      change (is_ws "["%char) with false. cbv iota.
      change (is_code 110 "["%char) with false. change (is_code 116 "["%char) with false.
      change (is_code 102 "["%char) with false. change (is_code 34 "["%char) with false.
      change (is_code 91 "["%char) with true. cbv iota.
      rewrite <- app_assoc. cbn [app].
      assert (Hopen : opens_value
                        (join [","%char] (List.map stringify_chars (v :: items))
                         ++ "]"%char :: rest)).
      { cbn [List.map].
        destruct (join_cons_app [","%char] (stringify_chars v)
                    (List.map stringify_chars items) ("]"%char :: rest)) as [tail ->].
        apply stringify_opens. apply List.Forall_inv in Hall. tauto. }
      rewrite (skip_ws_opens _ Hopen).
      destruct Hopen as (c & r & Heq & _ & H93 & _). rewrite Heq, H93, <- Heq.
      pose proof (parse_elements_join (v :: items) Hall ltac:(discriminate) fuel rest
                    ltac:(lia)) as Hp.
      change (lit ",") with [","%char] in Hp. change (chr 93) with "]"%char in Hp.
      rewrite Hp. reflexivity.
  - cbn [number_free] in Hnf. cbn [weight] in Hfuel.
    assert (Hall : Forall (fun m => number_free (snd m) = true /\ parses (snd m)) members).
    { pose proof (proj1 (forallb_forall _ _) Hnf) as Hin.
      apply List.Forall_forall. intros x Hx.
      pose proof (proj1 (List.Forall_forall _ _) IH x Hx) as Hp. cbn in Hp. auto. }
    destruct members as [|m members].
    + reflexivity.
    + cbn [stringify_chars parse_value lit list_ascii_of_string app skip_ws].
      change (is_ws "{"%char) with false. cbv iota.
      change (is_code 110 "{"%char) with false. change (is_code 116 "{"%char) with false.
      change (is_code 102 "{"%char) with false. change (is_code 34 "{"%char) with false.
      change (is_code 91 "{"%char) with false. change (is_code 123 "{"%char) with true.
      cbv iota.
      rewrite <- app_assoc. cbn [app].
      assert (Hopen : opens_value
                        (join [","%char]
                           (List.map
                              (fun m => quote (fst m) ++ ":"%char :: stringify_chars (snd m))
                              (m :: members))
                         ++ "}"%char :: rest)).
      { cbn [List.map].
        destruct (join_cons_app [","%char]
                    (quote (fst m) ++ ":"%char :: stringify_chars (snd m))
                    (List.map
                       (fun m => quote (fst m) ++ ":"%char :: stringify_chars (snd m)) members)
                    ("}"%char :: rest)) as [tail ->].
        eexists _, _. split; [reflexivity|]. repeat split; reflexivity. }
      rewrite (skip_ws_opens _ Hopen).
      destruct Hopen as (c & r & Heq & _ & _ & H125). rewrite Heq, H125, <- Heq.
      pose proof (parse_members_join (m :: members) Hall ltac:(discriminate) fuel rest
                    ltac:(lia)) as Hp.
      change (lit ",") with [","%char] in Hp. change (lit ":") with [":"%char] in Hp.
      change (chr 125) with "}"%char in Hp. cbn [app] in Hp.
      rewrite Hp. reflexivity.
Qed.

Lemma list_weight_join (sep : list ascii) (ws : list nat) (parts : list (list ascii)) :
  Forall2 (fun w p => (w < List.length p)%nat) ws parts ->
  (list_weight ws <= List.length (join sep parts))%nat.
Proof.
  induction 1 as [|w p ws parts Hw Hrest IH]; [cbn; lia|].
  destruct parts as [|p' parts'].
  - inversion Hrest; subst. cbn. lia.
  - cbn [list_weight]. cbn [join]. rewrite !length_app. cbn [join] in IH. lia.
Qed.

Lemma weight_below_length (v : value) :
  number_free v = true ->
  (weight v < List.length (stringify_chars v))%nat.
Proof.
  induction v as [|b|lx|s|items IH|members IH] using value_nested_ind; intros Hnf.
  - cbn. lia.
  - destruct b; cbn; lia.
  - discriminate.
  - cbn. lia.
  - cbn [weight stringify_chars number_free] in *.
    rewrite !length_app. cbn [List.length lit list_ascii_of_string].
    pose proof (proj1 (forallb_forall _ _) Hnf) as Hin.
    assert (H : Forall2 (fun w p => (w < List.length p)%nat)
                  (List.map weight items) (List.map stringify_chars items)).
    { clear Hnf. induction IH as [|x l Hx Hl IHl]; cbn; constructor.
      - apply Hx, Hin. left. reflexivity.
      - apply IHl. intros y Hy. apply Hin. right. exact Hy. }
    pose proof (list_weight_join [","%char] _ _ H). lia.
  - cbn [weight stringify_chars number_free] in *.
    rewrite !length_app. cbn [List.length lit list_ascii_of_string].
    pose proof (proj1 (forallb_forall _ _) Hnf) as Hin.
    assert (H : Forall2 (fun w p => (w < List.length p)%nat)
                  (List.map (fun m => weight (snd m)) members)
                  (List.map (fun m => quote (fst m) ++ [":"%char] ++ stringify_chars (snd m))
                     members)).
    { clear Hnf. induction IH as [|x l Hx Hl IHl]; cbn; constructor.
      - specialize (Hx (Hin x (or_introl eq_refl))).
        rewrite ?length_app. cbn [List.length]. rewrite ?length_app. cbn [List.length]. lia.
      - apply IHl. intros y Hy. apply Hin. right. exact Hy. }
    pose proof (list_weight_join [","%char] _ _ H). lia.
Qed.

(** Every value without numbers is read back from its text. *)
Lemma parse_stringify (v : value) :
  number_free v = true -> parse (stringify v) = Some v.
Proof.
  intros Hnf. unfold parse, stringify.
  rewrite list_ascii_of_string_of_list_ascii.
  pose proof (parses_all v Hnf (2 * List.length (stringify_chars v) + 2)%nat []) as H.
  rewrite app_nil_r in H. rewrite H; [reflexivity|].
  pose proof (weight_below_length v Hnf). lia.
Qed.

End JSONRoundTrip.

Module CallExtras.
Import CallAPI CallFacts.

Lemma append_assoc3 (a b c : string) : (a +:+ b) +:+ c = a +:+ (b +:+ c).
Proof.
  induction a as [|x a IH]; [reflexivity|].
  change (String x ((a +:+ b) +:+ c) = String x (a +:+ (b +:+ c))). rewrite IH. reflexivity.
Qed.

(** X8. After [callStart] the call of that user and conversation is
    reported as outgoing, with the type, conversation type and CBR flag
    given, and the config is as before.  Unless the identifier is
    "__proto__", the prototype of the active-call map and the state
    reported for every other call identifier are as before too.  The
    identifier "__proto__" (when the map has no own entry of that name)
    adds no entry: the call becomes the prototype of the map. *)
Theorem callStart_then_callGetState
    (wUser wUser' : WUser) (conversationId' conversationId'' : string)
    (callType' : CALL_TYPE) (conversationType' : CONVERSATION_TYPE) (audioCbr' : bool)
    (s : CallState) :
  let key := generateCallId wUser conversationId' in
  let call := mkWCall conversationId' (Some OUTGOING) callType' conversationType' audioCbr' in
  let s' := (callStart wUser conversationId' callType' conversationType' audioCbr' s).1.2 in
  callGetState wUser conversationId' s' = Some OUTGOING /\
  activeCalls s' !! key = Some call /\
  callConfig s' = callConfig s /\
  (key <> "__proto__"%string ->
   own (activeCalls s') = <[key := call]> (own (activeCalls s)) /\
   proto (activeCalls s') = proto (activeCalls s) /\
   (generateCallId wUser' conversationId'' <> key ->
    callGetState wUser' conversationId'' s' = callGetState wUser' conversationId'' s)) /\
  (key = "__proto__"%string ->
   own (activeCalls s) !! key = None ->
   own (activeCalls s') = own (activeCalls s) /\
   proto (activeCalls s') = Some call).
Proof.
  intros key call s'. subst s'. unfold callStart. cbn [fst snd activeCalls callConfig].
  fold key. change (set_state OUTGOING (new_WCall callType' conversationId'
                                          conversationType' audioCbr')) with call.
  split; [|split; [|split; [|split]]].
  - unfold callGetState. cbn [activeCalls]. fold key.
    rewrite get_property_set_same. reflexivity.
  - unfold lookup, ActiveCalls_lookup. rewrite get_property_set_same. reflexivity.
  - reflexivity.
  - intros Hkey. rewrite set_property_entry by (left; exact Hkey).
    split; [reflexivity|]. split; [reflexivity|].
    intros Hne. unfold callGetState, get_property. cbn [activeCalls own proto].
    rewrite lookup_insert_ne by congruence. reflexivity.
  - intros Hkey Hown. rewrite Hkey in *. rewrite set_property_prototype by exact Hown.
    split; reflexivity.
Qed.

(** X9. The call identifier is the plain concatenation of user id,
    client id and conversation id, so it does not tell where one ends
    and the next begins: two users whose ids concatenate to the same
    text address the same call, and a call started by one is reported
    for the other. *)
Theorem call_identifier_is_concatenation
    (a b c conversationId' : string) (callType' : CALL_TYPE)
    (conversationType' : CONVERSATION_TYPE) (audioCbr' : bool) (s : CallState) :
  generateCallId (mkWUser (a +:+ b) c) conversationId'
  = generateCallId (mkWUser a (b +:+ c)) conversationId' /\
  callGetState (mkWUser (a +:+ b) c) conversationId' s
  = callGetState (mkWUser a (b +:+ c)) conversationId' s /\
  callGetState (mkWUser a (b +:+ c)) conversationId'
    (callStart (mkWUser (a +:+ b) c) conversationId' callType' conversationType'
       audioCbr' s).1.2
  = Some OUTGOING.
Proof.
  assert (H : generateCallId (mkWUser (a +:+ b) c) conversationId'
              = generateCallId (mkWUser a (b +:+ c)) conversationId').
  { unfold generateCallId. cbn. rewrite !append_assoc3. reflexivity. }
  split; [exact H|]. unfold callGetState. rewrite H. split; [reflexivity|].
  cbn [callStart fst snd activeCalls]. rewrite H, get_property_set_same. reflexivity.
Qed.

(** X10. The text [buildMessagePayload] returns is JSON for every
    message type, session id and SDP, whatever characters they hold:
    parsing it gives back the payload object, with the same [sessid],
    [sdp], [type] and [resp] and the version "3.0". *)
Theorem buildMessagePayload_round_trip
    (type : CALL_MESSAGE_TYPE) (sessid sdp : string) (isReponse : bool) :
  let parsed := JSON.parse (buildMessagePayload type sessid sdp isReponse) in
  parsed = Some (messagePayload type sessid sdp isReponse) /\
  (parsed ≫= JSON.get "sessid") = Some (JSON.Str sessid) /\
  (parsed ≫= JSON.get "sdp") = Some (JSON.Str sdp) /\
  (parsed ≫= JSON.get "type") = Some (JSON.Str (CALL_MESSAGE_TYPE_value type)) /\
  (parsed ≫= JSON.get "resp") = Some (JSON.Bool isReponse) /\
  (parsed ≫= JSON.get "version") = Some (JSON.Str "3.0").
Proof.
  intros parsed. subst parsed. unfold buildMessagePayload.
  rewrite JSONRoundTrip.parse_stringify by reflexivity.
  repeat split; reflexivity.
Qed.

End CallExtras.

(** * Further properties of the call orchestrator *)
Module RepositoryExtras.
Import Handler CallingRepository.



Lemma findCall_none (cid : string) (calls : list Call) :
  findCall cid calls = None <-> ~ In cid (List.map conversationId calls).
Proof.
  unfold findCall. induction calls as [|c calls IH]; cbn; [tauto|].
  destruct (String.eqb_spec (conversationId c) cid) as [Heq|Hne].
  - split; [discriminate | intros H; exfalso; apply H; left; exact Heq].
  - rewrite IH. tauto.
Qed.

Lemma findCall_some (cid : string) (calls : list Call) (c : Call) :
  findCall cid calls = Some c -> conversationId c = cid /\ In c calls.
Proof.
  unfold findCall. intros H. apply List.find_some in H as [Hin Heq].
  apply String.eqb_eq in Heq. tauto.
Qed.


Lemma map_update_first (cid : string) (f : Call -> Call) (calls : list Call) :
  (forall c, conversationId (f c) = conversationId c) ->
  List.map conversationId (update_first cid f calls) = List.map conversationId calls.
Proof.
  intros Hf. induction calls as [|c calls IH]; cbn; [reflexivity|].
  destruct (String.eqb (conversationId c) cid); cbn; [rewrite Hf | rewrite IH]; reflexivity.
Qed.

Lemma NoDup_remove_first (cid : string) (calls : list Call) :
  List.NoDup (List.map conversationId calls) ->
  List.NoDup (List.map conversationId (remove_first cid calls)).
Proof.
  induction calls as [|c calls IH]; cbn; [tauto|].
  intros Hnd. apply List.NoDup_cons_iff in Hnd as [Hnotin Hnd].
  destruct (String.eqb (conversationId c) cid); [exact Hnd|].
  cbn. apply List.NoDup_cons; [|exact (IH Hnd)].
  intros Hin. apply Hnotin. clear -Hin.
  induction calls as [|c' calls IH]; cbn in *; [tauto|].
  destruct (String.eqb (conversationId c') cid); cbn in *; tauto.
Qed.

(** The calls stored after the state handler has run. *)
Lemma state_handler_calls (now : Z) (cid : string) (st : CallAPI.CALL_STATE) (s : State) :
  let touch c := mkCall (conversationId c) None (startedAt c) st in
  let stamp c :=
    match st with
    | CallAPI.MEDIA_ESTAB => mkCall (conversationId c) (reason c) (Some now) (state c)
    | _ => c
    end in
  let touched := update_first cid touch (activeCalls s) in
  state_handler now cid st s
  = (Normal tt,
     set_activeCalls
       (if terminal st
        then match findCall cid (activeCalls s) with
             | Some _ => remove_first cid touched
             | None => touched
             end
        else match findCall cid (activeCalls s) with
             | Some _ => update_first cid stamp touched
             | None => update_first cid stamp touched ++ [stamp (mkCall cid None None st)]
             end) s,
     []).
Proof.
  unfold state_handler, removeCall, storeCall, bind, get, modify, ret. cbn.
  destruct (findCall cid (activeCalls s)) as [c|] eqn:Hfind.
  - apply findCall_some in Hfind as [Hc _].
    destruct st; cbn; rewrite ?Hc; reflexivity.
  - destruct st; cbn; reflexivity.
Qed.




Lemma state_handler_keeps_distinct
    (now : Z) (cid : string) (st : CallAPI.CALL_STATE) (s : State) :
  calls_distinct s -> calls_distinct (state_of (state_handler now cid st s)).
Proof.
  intros Hnd. rewrite state_handler_calls. cbv zeta.
  unfold calls_distinct in *. cbn [state_of fst snd activeCalls set_activeCalls].
  assert (Hstamp : forall c : Call,
             conversationId
               (match st with
                | CallAPI.MEDIA_ESTAB => mkCall (conversationId c) (reason c) (Some now) (state c)
                | _ => c
                end) = conversationId c).
  { intros c. destruct st; reflexivity. }
  destruct (terminal st); destruct (findCall cid (activeCalls s)) as [c|] eqn:Hfind.
  - apply NoDup_remove_first. rewrite map_update_first by reflexivity. exact Hnd.
  - rewrite map_update_first by reflexivity. exact Hnd.
  - rewrite !map_update_first by (first [exact Hstamp | reflexivity]). exact Hnd.
  - rewrite List.map_app. rewrite !map_update_first by (first [exact Hstamp | reflexivity]).
    cbn [List.map].
    replace (conversationId _) with cid by (destruct st; reflexivity).
    apply findCall_none in Hfind.
    apply List.NoDup_app; [exact Hnd | repeat constructor; intros [] |].
    intros x Hx [Hx'|[]]. subst x. exact (Hfind Hx).
Qed.


Lemma callClosed_calls (reason' : Z) (cid : string) (s : State) :
  let note c := mkCall (conversationId c) (Some reason') (startedAt c) (state c) in
  callClosed reason' cid s
  = (Normal tt, set_activeCalls (update_first cid note (activeCalls s)) s, []).
Proof.
  unfold callClosed, bind, get, modify, ret. cbn.
  destruct (findCall cid (activeCalls s)) as [c|] eqn:Hfind; cbn; [reflexivity|].
  assert (H : update_first cid
                (fun c => mkCall (conversationId c) (Some reason') (startedAt c) (state c))
                (activeCalls s) = activeCalls s).
  { apply findCall_none in Hfind. induction (activeCalls s) as [|c calls IH]; [reflexivity|].
    cbn in *. destruct (String.eqb_spec (conversationId c) cid); [tauto|].
    rewrite IH by tauto. reflexivity. }
  rewrite H. destruct s; reflexivity.
Qed.

(** X12. Whatever sequence of state changes and close notices the
    calling API reports, starting from the constructed repository: at
    most one call is stored per conversation, and nothing but the set of
    stored calls changes. *)
Theorem one_call_per_conversation (inputs : list CallInput) :
  let s := run_calls inputs constructor in
  calls_distinct s /\
  set_activeCalls [] s = constructor.
Proof.
  assert (H : forall inputs s0, calls_distinct s0 ->
              calls_distinct (run_calls inputs s0) /\
              set_activeCalls [] (run_calls inputs s0) = set_activeCalls [] s0).
  { clear inputs. induction inputs as [|input rest IH]; intros s0 H0; [split; [exact H0 | reflexivity]|].
    cbn [run_calls]. destruct input as [now cid st | reason' cid]; cbn [handle_call].
    - pose proof (state_handler_keeps_distinct now cid st s0 H0) as Hd.
      destruct (IH _ Hd) as [Hd' Heq]. split; [exact Hd'|]. rewrite Heq.
      rewrite state_handler_calls. reflexivity.
    - rewrite callClosed_calls. cbn [state_of fst snd].
      assert (Hd : calls_distinct
                     (set_activeCalls
                        (update_first cid
                           (fun c => mkCall (conversationId c) (Some reason') (startedAt c) (state c))
                           (activeCalls s0)) s0)).
      { unfold calls_distinct in *. cbn. rewrite map_update_first by reflexivity. exact H0. }
      destruct (IH _ Hd) as [Hd' Heq]. split; [exact Hd'|]. rewrite Heq. reflexivity. }
  intros s. apply (H inputs constructor). constructor.
Qed.


Lemma forEach_leaveCall (wUser : CallAPI.WUser) (calls : list Call) (s : State) :
  api s = Some wUser ->
  forEach (fun callInstance => leaveCall (conversationId callInstance)) calls s
  = (Normal tt, s, List.map (fun c => ApiEnd wUser (conversationId c)) calls).
Proof.
  intros Hapi. induction calls as [|c calls IH]; [reflexivity|].
  cbn [forEach List.map]. unfold bind at 1. unfold leaveCall at 1.
  unfold bind at 1, get, emit. cbv beta iota. rewrite Hapi. cbv beta iota.
  rewrite IH. reflexivity.
Qed.

(** X13. [leaveCallOnUnload] asks the calling API to end every stored
    call, once each and in the order stored, and changes nothing in the
    repository.  With no call stored it does nothing, also before the
    calling API is initialised; with a call stored and the API not yet
    initialised it throws before anything is ended. *)
Theorem leaveCallOnUnload_ends_every_call (s : State) :
  (forall wUser, api s = Some wUser ->
     leaveCallOnUnload s
     = (Normal tt, s, List.map (fun c => ApiEnd wUser (conversationId c)) (activeCalls s)) /\
     ended (trace (leaveCallOnUnload s))
     = List.map (fun c => (wUser, conversationId c)) (activeCalls s)) /\
  (activeCalls s = [] -> leaveCallOnUnload s = (Normal tt, s, [])) /\
  (api s = None -> activeCalls s <> [] -> leaveCallOnUnload s = (Throw TypeError, s, [])).
Proof.
  split; [|split].
  - intros wUser Hapi.
    assert (H : leaveCallOnUnload s
                = (Normal tt, s,
                   List.map (fun c => ApiEnd wUser (conversationId c)) (activeCalls s))).
    { unfold leaveCallOnUnload. unfold bind at 1, get. cbv beta iota.
      rewrite (forEach_leaveCall wUser _ s Hapi). rewrite app_nil_l. reflexivity. }
    split; [exact H|]. rewrite H. cbn [trace snd]. clear H.
    induction (activeCalls s) as [|c calls IH]; [reflexivity|].
    cbn. f_equal. exact IH.
  - intros Hnil. unfold leaveCallOnUnload, bind, get. cbn. rewrite Hnil. reflexivity.
  - intros Hapi Hcalls. unfold leaveCallOnUnload, bind, get. cbn.
    destruct (activeCalls s) as [|c calls]; [congruence|].
    cbn. unfold leaveCall, bind, get, throw. cbn. rewrite Hapi. reflexivity.
Qed.

(** X14. [_checkCallingSupport] changes nothing in the repository.  It
    resolves, silently, exactly when the conversation has a participant,
    an outgoing call finds calling supported and an audio-video call
    finds video supported by the conversation; otherwise it rejects with
    [NOT_SUPPORTED], and with no other error, after exactly one notice
    to the user. *)
Theorem checkCallingSupport_outcome
    (supportsCalling : bool) (conversationEntity : Conversation) (mediaType : MediaType)
    (callState : CallAPI.CALL_STATE) (s : State) :
  let r := _checkCallingSupport supportsCalling conversationEntity mediaType callState s in
  let isOutgoingCall :=
    match callState with CallAPI.OUTGOING => true | _ => false end in
  let supported :=
    negb (Nat.eqb (List.length (participating_user_ids conversationEntity)) 0)
    && (negb isOutgoingCall || supportsCalling)
    && (match mediaType with
        | AUDIO_VIDEO => supportsVideoCall conversationEntity isOutgoingCall
        | _ => true
        end) in
  state_of r = s /\
  (supported = true -> completion r = Normal tt /\ trace r = []) /\
  (supported = false ->
   completion r = Throw (CallError NOT_SUPPORTED) /\ List.length (trace r) = 1%nat) /\
  (participating_user_ids conversationEntity = [] ->
   r = (Throw (CallError NOT_SUPPORTED), s, [ShowModal CallEmptyConversation])).
Proof.
  unfold _checkCallingSupport, bind, emit, throw, ret, completion, state_of, trace.
  destruct (participating_user_ids conversationEntity) as [|u us]; cbn.
  - repeat split; intros; try discriminate; reflexivity.
  - destruct callState, supportsCalling, mediaType; cbn;
      try destruct (supportsVideoCall conversationEntity _); cbn;
      repeat split; intros; try discriminate; reflexivity.
Qed.

Lemma String_length_ascii (s : string) :
  forallb (fun c => Z.of_N (N_of_ascii c) <? 128) (list_ascii_of_string s) = true ->
  String_length s = Z.of_nat (String.length s).
Proof.
  induction s as [|c s IH]; [reflexivity|].
  cbn [list_ascii_of_string forallb String_length String.length].
  intros H. apply andb_prop in H. destruct H as [Hc Hs].
  rewrite Hc, (IH Hs). lia.
Qed.

(** X15. For a server time within [MAX_SAFE_INTEGER]: [onCallEvent]
    throws a [TypeError] before the calling API is initialised.  With
    it initialised, it hands the message to
    [recv_msg] once, with the length of the text in UTF-16 code units
    (for a text of ASCII characters, their number) and both times in whole seconds rounded down ([NaN] for an event
    time that is no valid date), and leaves the repository as
    [recv_msg] leaves it.  An error thrown by [recv_msg] comes out
    unchanged; a result other than 0 only logs a warning.  After the
    result 0, a [null] content throws a [TypeError], a SETUP emits one
    activation record with the conversation, sender and time of the
    event, and any other content that is not a CANCEL emits nothing. *)
Theorem onCallEvent_setup_and_other_types
    (recv_msg : CallAPI.WUser -> string -> Z -> Z -> option Z -> string -> string -> string
                -> M Z)
    (currentTimestamp : Z) (event : CallEvent) (source : Source) (s : State) :
  Z.abs currentTimestamp <= MAX_SAFE_INTEGER ->
  let r := onCallEvent recv_msg currentTimestamp event source s in
  let contentStr := JSON.stringify (content event) in
  (api s = None -> r = (Throw TypeError, s, [])) /\
  (forall wUser, api s = Some wUser ->
     let call :=
       RecvMsg wUser contentStr (String_length contentStr) (toSecond currentTimestamp)
         (toSecond <$> new_Date (time event)) (conversation event) (from event)
         (sender event) in
     let reaction :=
       recv_msg wUser contentStr (String_length contentStr) (toSecond currentTimestamp)
         (toSecond <$> new_Date (time event)) (conversation event) (from event)
         (sender event) s in
     state_of r = state_of reaction /\
     (exists rest, trace r = call :: trace reaction ++ rest) /\
     (forall e, completion reaction = Throw e ->
        completion r = Throw e /\ trace r = call :: trace reaction) /\
     (forall res, completion reaction = Normal res -> res <> 0 ->
        completion r = Normal tt /\
        trace r = call :: trace reaction ++ [Warn (MsgRecvMsgFailed res)]) /\
     (completion reaction = Normal 0 ->
        (content event = JSON.Null ->
         completion r = Throw TypeError /\ trace r = call :: trace reaction) /\
        (JSON.get "type" (content event) = Some (JSON.Str "SETUP") ->
         completion r = Normal tt /\
         trace r = call :: trace reaction
                   ++ [InjectEvent (VoiceChannelActivate (conversation event) (from event)
                                      (time event)) source]) /\
        (content event <> JSON.Null ->
         JSON.get "type" (content event) <> Some (JSON.Str "SETUP") ->
         JSON.get "type" (content event) <> Some (JSON.Str "CANCEL") ->
         completion r = Normal tt /\ trace r = call :: trace reaction))) /\
  (forallb (fun c => Z.of_N (N_of_ascii c) <? 128) (list_ascii_of_string contentStr) = true ->
   String_length contentStr = Z.of_nat (String.length contentStr)) /\
  toSecond currentTimestamp * 1000 <= currentTimestamp
  < toSecond currentTimestamp * 1000 + 1000 /\
  (Z.abs (time event) <= MAX_TIME ->
   exists seconds,
     toSecond <$> new_Date (time event) = Some seconds /\
     seconds * 1000 <= time event < seconds * 1000 + 1000) /\
  (MAX_TIME < Z.abs (time event) -> toSecond <$> new_Date (time event) = None).
Proof.
  intros _ r contentStr.
  assert (Hfloor : forall t, toSecond t * 1000 <= t < toSecond t * 1000 + 1000).
  { intros t. unfold toSecond. pose proof (Z.div_mod t 1000 ltac:(lia)).
    pose proof (Z.mod_pos_bound t 1000 ltac:(lia)). lia. }
  split; [|split; [|split; [|split; [|split]]]].
  - intros Hapi. subst r. unfold onCallEvent, bind, get, throw. cbn. rewrite Hapi.
    reflexivity.
  - intros wUser Hapi call reaction.
    pose proof (RepositoryProperties.onCallEvent_eq recv_msg currentTimestamp event source
                  s wUser Hapi) as Heq.
    cbv zeta in Heq. fold contentStr call reaction r in Heq.
    clearbody r reaction. subst r.
    destruct reaction as [[[res|e] s1] t1]; unfold completion, state_of, trace; cbn [fst snd].
    + destruct (Z.eqb_spec res 0) as [->|Hres].
      * split; [destruct (content event); reflexivity|].
        split; [destruct (content event); try (eexists; reflexivity);
                exists []; rewrite app_nil_r; reflexivity|].
        split; [intros e; discriminate|].
        split; [intros res [= <-] Hne; contradiction|].
        intros _. split; [|split].
        -- intros ->. split; reflexivity.
        -- intros Htype. rewrite Htype.
           destruct (content event); try discriminate. split; reflexivity.
        -- intros Hobject Hsetup Hcancel.
           assert (Hnone : match JSON.get "type" (content event) with
                           | Some (JSON.Str type) =>
                               if String.eqb type "SETUP" then
                                 [InjectEvent (VoiceChannelActivate (conversation event)
                                                 (from event) (time event)) source]
                               else if String.eqb type "CANCEL" then
                                 [InjectEvent (VoiceChannelDeactivate (conversation event)
                                                 (from event) MISSED (time event)) source]
                               else []
                           | _ => []
                           end = []).
           { destruct (JSON.get "type" (content event)) as [[| | |type| |]|];
               try reflexivity.
             destruct (String.eqb_spec type "SETUP") as [->|_]; [congruence|].
             destruct (String.eqb_spec type "CANCEL") as [->|_]; [congruence|].
             reflexivity. }
           rewrite Hnone, app_nil_r.
           destruct (content event); try (split; reflexivity). congruence.
      * split; [reflexivity|].
        split; [eexists; reflexivity|].
        split; [intros e; discriminate|].
        split; [intros res' [= <-] _; split; reflexivity|].
        intros [= ->]. contradiction.
    + split; [reflexivity|].
      split; [exists []; rewrite app_nil_r; reflexivity|].
      split; [intros e' [= <-]; split; reflexivity|].
      split; [intros res; discriminate|].
      discriminate.
  - apply String_length_ascii.
  - apply Hfloor.
  - intros Hvalid. exists (toSecond (time event)).
    rewrite (RepositoryProperties.new_Date_valid _ Hvalid). split; [reflexivity | apply Hfloor].
  - intros Hinvalid. rewrite (RepositoryProperties.new_Date_invalid _ Hinvalid). reflexivity.
Qed.

Lemma getConfig_timers (firefox : bool) (now : Z) (s : State) :
  timeouts (state_of (getConfig firefox now s)) = timeouts s /\
  callingConfigTimeout (state_of (getConfig firefox now s)) = callingConfigTimeout s.
Proof.
  unfold getConfig, _clearConfig, _getConfigFromBackend, fetchConfig, bind, get, emit, modify,
    ret, state_of.
  cbn -[Z.ltb].
  destruct (callingConfig s) as [config|] eqn:Hcfg; cbn -[Z.ltb]; [|split; reflexivity].
  destruct (expiration config <? now); cbn -[Z.ltb]; rewrite ?Hcfg; split; reflexivity.
Qed.

(** X16. [getConfig] either serves the stored config, which then has
    not passed its expiration, without any request and without any
    change, or it sends exactly one request (limited to 3 servers on
    Firefox) after dropping a stored config that has expired; it never
    throws and never touches the refresh timer. *)
Theorem getConfig_serves_or_fetches (firefox : bool) (now : Z) (s : State) :
  let r := getConfig firefox now s in
  let limit := if firefox then Some CONFIG.MAX_FIREFOX_TURN_COUNT else None in
  (forall config, completion r = Normal (ResolvedWith config) ->
     callingConfig s = Some config /\ now <= expiration config /\
     fetches (trace r) = [] /\ state_of r = s) /\
  (completion r = Normal FromBackend ->
     fetches (trace r) = [limit] /\ callingConfig (state_of r) = None /\
     forall config, callingConfig s = Some config -> expiration config < now) /\
  (completion r = Normal FromBackend \/
   exists config, completion r = Normal (ResolvedWith config)) /\
  timeouts (state_of r) = timeouts s /\
  callingConfigTimeout (state_of r) = callingConfigTimeout s.
Proof.
  unfold getConfig, _clearConfig, _getConfigFromBackend, fetchConfig, bind, get, emit, modify,
    ret, completion, state_of, trace.
  cbn -[Z.ltb].
  destruct (callingConfig s) as [config|] eqn:Hcfg; cbn -[Z.ltb].
  - destruct (Z.ltb_spec (expiration config) now) as [Hlt|Hge]; cbn -[Z.ltb]; rewrite ?Hcfg;
      cbn -[Z.ltb]; repeat split; intros; try discriminate;
      repeat match goal with
        | H : Normal _ = Normal _ |- _ => injection H as H; subst
        | H : Some _ = Some _ |- _ => injection H as H; subst
        end;
      repeat split; try reflexivity; try lia; eauto.
  - repeat split; intros; try discriminate; try reflexivity; eauto.
Qed.

Lemma filter_neq_singleton (id : nat) :
  List.filter (fun i => negb (Nat.eqb i id)) [id] = [].
Proof. cbn. rewrite Nat.eqb_refl. reflexivity. Qed.

Lemma step_refresh_timer (firefox : bool) (input : ConfigInput) (s : State) :
  refresh_timer_owned s -> refresh_timer_owned (state_of (handle_config firefox input s)).
Proof.
  unfold refresh_timer_owned. intros Hinv.
  destruct input as [now | now [cfg|] | now id].
  - pose proof (getConfig_timers firefox now s) as [Ht Hc].
    unfold handle_config, bind, ret.
    destruct (getConfig firefox now s) as [[c s1] t1]. cbn in *.
    destruct c; cbn; rewrite Ht, Hc; exact Hinv.
  - unfold handle_config, _getConfigFromBackend_then, _clearConfigTimeout, setTimeout,
      clearTimeout, bind, get, emit, modify, ret, throw, state_of.
    cbn -[config_timeout Z.add new_Date].
    destruct (new_Date (now + config_timeout (ttl cfg))) as [expirationDate|];
      destruct Hinv as [Hnil | (id & Hone & Hid)].
    + destruct (callingConfigTimeout s) as [old|]; cbn -[config_timeout Z.add];
        rewrite Hnil; cbn; right; eexists; split; reflexivity.
    + rewrite Hid. cbn -[config_timeout Z.add]. rewrite Hone, filter_neq_singleton.
      cbn. right. eexists. split; reflexivity.
    + destruct (callingConfigTimeout s) as [old|]; cbn; rewrite Hnil; left; reflexivity.
    + rewrite Hid. cbn. rewrite Hone, filter_neq_singleton. left. reflexivity.
  - cbn. exact Hinv.
  - unfold handle_config, configTimeout_fires, _clearConfig, getConfig, _getConfigFromBackend,
      fetchConfig, bind, get, emit, modify, ret, state_of.
    cbn -[Z.ltb].
    destruct (bool_decide (id ∈ timeouts s)) eqn:Hin; cbn -[Z.ltb]; [|exact Hinv].
    apply bool_decide_eq_true_1 in Hin.
    destruct Hinv as [Hnil | (id' & Hone & Hid)].
    + rewrite Hnil in Hin. inversion Hin.
    + rewrite Hone in *. apply list_elem_of_singleton in Hin. subst id'.
      destruct (callingConfig s) eqn:Hcfg; cbn; rewrite ?Hcfg; cbn; rewrite ?Hone; cbn;
        rewrite ?Nat.eqb_refl; cbn; rewrite ?Hcfg; cbn; left; reflexivity.
Qed.


(** X17. Whatever sequence of [getConfig] calls, backend responses and
    timer expiries occurs, starting from the constructed repository: at
    most one config refresh timer is pending, and it is the one recorded
    in [callingConfigTimeout]. *)
Theorem refresh_timer_singly_owned (firefox : bool) (inputs : list ConfigInput) :
  let s := run_config firefox inputs constructor in
  refresh_timer_owned s /\ (List.length (timeouts s) <= 1)%nat.
Proof.
  assert (H : forall inputs s0, refresh_timer_owned s0 ->
              refresh_timer_owned (run_config firefox inputs s0)).
  { clear inputs. induction inputs as [|input rest IH]; intros s0 H0; [exact H0|].
    cbn [run_config]. apply IH, step_refresh_timer, H0. }
  intros s. assert (Hs : refresh_timer_owned s) by (apply H; left; reflexivity).
  split; [exact Hs|].
  destruct Hs as [Hnil | (id & Hone & _)]; [rewrite Hnil | rewrite Hone]; cbn; lia.
Qed.

(** X18. For a time [now] that a [Date] can hold and a [ttl] that is
    absent or not negative, the lifetime of a fetched config is positive
    and at most one hour: one hour when [ttl] is absent, zero or at
    least 4000 seconds, and nine tenths of [ttl] when [ttl] is positive
    and below 4000.  When [now] plus the lifetime is still a valid date,
    the config is stored with that expiration and the refresh timer is
    armed for exactly the lifetime.  Otherwise the [then] block throws a
    [RangeError] after it has cleared the refresh timer: the config
    stored before stays, and no timer is armed. *)
Theorem stored_config_lifetime (now : Z) (cfg : BackendConfig) (s : State) :
  0 <= now <= MAX_TIME ->
  (ttl cfg = None \/ exists k, ttl cfg = Some k /\ 0 <= k) ->
  let stored := _getConfigFromBackend_then now (Some cfg) s in
  let lifetime := config_timeout (ttl cfg) in
  0 < lifetime <= 3600 * 1000 /\
  (ttl cfg = None \/ ttl cfg = Some 0 -> lifetime = 3600 * 1000) /\
  (forall k, ttl cfg = Some k -> 4000 <= k -> lifetime = 3600 * 1000) /\
  (forall k, ttl cfg = Some k -> 0 < k < 4000 -> lifetime = k * 900) /\
  (now + lifetime <= MAX_TIME ->
   exists id,
     completion stored = Normal (Some (mkCallingConfig cfg (now + lifetime))) /\
     callingConfig (state_of stored) = Some (mkCallingConfig cfg (now + lifetime)) /\
     callingConfigTimeout (state_of stored) = Some id /\
     In (SetTimeout id lifetime) (trace stored) /\
     id ∈ timeouts (state_of stored)) /\
  (MAX_TIME < now + lifetime ->
   completion stored = Throw RangeError /\
   callingConfig (state_of stored) = callingConfig s /\
   callingConfigTimeout (state_of stored) = None /\
   (forall id, callingConfigTimeout s = Some id -> ~ In id (timeouts (state_of stored))) /\
   (forall id ms, ~ In (SetTimeout id ms) (trace stored))).
Proof.
  intros Hnow Httl stored lifetime.
  pose proof (RepositoryProperties.config_timeout_bounds (ttl cfg) Httl) as Hb.
  fold lifetime in Hb.
  split; [exact Hb|].
  split; [apply RepositoryProperties.config_timeout_default|].
  split; [|split; [|split]].
  - intros k Hk Hge. subst lifetime. rewrite Hk.
    rewrite RepositoryProperties.config_timeout_nonzero by lia. lia.
  - intros k Hk Hin. subst lifetime. rewrite Hk.
    rewrite RepositoryProperties.config_timeout_nonzero by lia. lia.
  - intros Hvalid.
    assert (Habs : Z.abs (now + config_timeout (ttl cfg)) <= MAX_TIME).
    { fold lifetime. lia. }
    destruct (RepositoryProperties.getConfigFromBackend_then_stores now cfg s Habs)
      as (Hcompl & Hcfg & id & Hid & Harmed & Hpending).
    exists id. split; [exact Hcompl|]. split; [exact Hcfg|]. split; [exact Hid|].
    split; [exact Harmed | exact Hpending].
  - intros Hinvalid.
    assert (Habs : MAX_TIME < Z.abs (now + config_timeout (ttl cfg))).
    { fold lifetime. lia. }
    exact (RepositoryProperties.getConfigFromBackend_then_throws now cfg s Habs).
Qed.

End RepositoryExtras.

(** * Properties of the duration helpers *)
Module TimeUtilExtras.
Import TimeUtil.

Lemma mapUnits_values (duration : Z) :
  0 <= duration ->
  List.map value (mapUnits duration false)
  = [duration / UNITS_IN_MILLIS.YEAR;
     (duration mod UNITS_IN_MILLIS.YEAR) / UNITS_IN_MILLIS.WEEK;
     (duration mod UNITS_IN_MILLIS.WEEK) / UNITS_IN_MILLIS.DAY;
     (duration mod UNITS_IN_MILLIS.DAY) / UNITS_IN_MILLIS.HOUR;
     (duration mod UNITS_IN_MILLIS.HOUR) / UNITS_IN_MILLIS.MINUTE;
     (duration mod UNITS_IN_MILLIS.MINUTE) / UNITS_IN_MILLIS.SECOND].
Proof.
  intros H. unfold mapUnits, durationUnits.
  cbn [mapUnits_from List.map value mapUnit fst snd andb].
  rewrite !Z.rem_mod_nonneg by (first [exact H | unfold UNITS_IN_MILLIS.YEAR,
    UNITS_IN_MILLIS.WEEK, UNITS_IN_MILLIS.DAY, UNITS_IN_MILLIS.HOUR, UNITS_IN_MILLIS.MINUTE; lia]).
  reflexivity.
Qed.


Ltac unfold_units :=
  unfold UNITS_IN_MILLIS.YEAR, UNITS_IN_MILLIS.WEEK, UNITS_IN_MILLIS.DAY,
    UNITS_IN_MILLIS.HOUR, UNITS_IN_MILLIS.MINUTE, UNITS_IN_MILLIS.SECOND in *.

(** X19. Without rounding, [mapUnits] of a non-negative duration gives
    the six units in the order year, week, day, hour, minute, second,
    each named in the singular exactly when its value is 1, with at
    most 52 weeks, 6 days, 23 hours, 59 minutes and 59 seconds.  Below
    one year the year is zero and the other five add up to the duration
    rounded down to the second. *)
Theorem mapUnits_floor_decomposition (duration : Z) :
  0 <= duration ->
  exists Y W D H M S,
    List.map value (mapUnits duration false) = [Y; W; D; H; M; S] /\
    List.map symbol (mapUnits duration false)
    = [sym_y; sym_w; sym_d; sym_h; sym_m; sym_s] /\
    Forall (fun u => longUnit u = if value u =? 1 then singular (symbol u)
                                  else plural (symbol u))
      (mapUnits duration false) /\
    0 <= Y /\ 0 <= W <= 52 /\ 0 <= D <= 6 /\ 0 <= H <= 23 /\ 0 <= M <= 59 /\ 0 <= S <= 59 /\
    (duration < UNITS_IN_MILLIS.YEAR ->
     Y = 0 /\
     let total := W * UNITS_IN_MILLIS.WEEK + D * UNITS_IN_MILLIS.DAY
                  + H * UNITS_IN_MILLIS.HOUR + M * UNITS_IN_MILLIS.MINUTE
                  + S * UNITS_IN_MILLIS.SECOND in
     total <= duration < total + UNITS_IN_MILLIS.SECOND).
Proof.
  intros Hd. eexists _, _, _, _, _, _.
  split; [apply (mapUnits_values duration Hd)|].
  split; [reflexivity|].
  split; [repeat constructor|].
  unfold_units. cbv zeta.
  repeat split; intros; Z.div_mod_to_equations; lia.
Qed.

(** X20. [formatDuration] names a duration of whole milliseconds, not
    negative and below [2 ^ 52], by the largest unit that fits into
    it, with the duration divided by that unit and rounded to the
    nearest whole number (halves up), in the singular exactly when that
    number is 1; for a duration below one second no unit fits and it
    throws a [TypeError]. *)
Theorem formatDuration_largest_unit (duration : Z) :
  0 <= duration < 2 ^ 52 ->
  let rounded unit := (2 * duration + unit) / (2 * unit) in
  let named sym unit :=
    Returned (mkDurationUnit
                (rounded unit, if rounded unit =? 1 then singular sym else plural sym)
                sym (rounded unit)) in
  (duration < UNITS_IN_MILLIS.SECOND -> formatDuration duration = TypeError) /\
  (UNITS_IN_MILLIS.SECOND <= duration < UNITS_IN_MILLIS.MINUTE ->
   formatDuration duration = named sym_s UNITS_IN_MILLIS.SECOND) /\
  (UNITS_IN_MILLIS.MINUTE <= duration < UNITS_IN_MILLIS.HOUR ->
   formatDuration duration = named sym_m UNITS_IN_MILLIS.MINUTE) /\
  (UNITS_IN_MILLIS.HOUR <= duration < UNITS_IN_MILLIS.DAY ->
   formatDuration duration = named sym_h UNITS_IN_MILLIS.HOUR) /\
  (UNITS_IN_MILLIS.DAY <= duration < UNITS_IN_MILLIS.WEEK ->
   formatDuration duration = named sym_d UNITS_IN_MILLIS.DAY) /\
  (UNITS_IN_MILLIS.WEEK <= duration < UNITS_IN_MILLIS.YEAR ->
   formatDuration duration = named sym_w UNITS_IN_MILLIS.WEEK) /\
  (UNITS_IN_MILLIS.YEAR <= duration ->
   formatDuration duration = named sym_y UNITS_IN_MILLIS.YEAR).
Proof.
  intros [Hd _] rounded named. subst named rounded. cbv beta.
  unfold formatDuration, mapUnits, durationUnits.
  cbn [mapUnits_from]. unfold mapUnit. cbn [fst snd andb].
  rewrite !Z.rem_mod_nonneg by (first [exact Hd | unfold_units; lia]).
  unfold_units.
  assert (Hpos : forall u n, 0 < u -> u <= n -> (0 <? (2 * n + u) / (2 * u)) = true).
  { intros u n Hu Hn. apply Z.ltb_lt. Z.div_mod_to_equations. nia. }
  assert (Hzero : forall u n, 0 <= n < u -> (u <=? n) = false /\ (0 <? n / u) = false).
  { intros u n Hn. split; [apply Z.leb_gt; lia|].
    apply Z.ltb_ge. rewrite Z.div_small by lia. lia. }
  repeat split; intros Hrange.
  all: repeat match goal with
         | |- context [?u <=? ?n] =>
             first
               [ let H := fresh in
                 assert (H : (u <=? n) = true) by (apply Z.leb_le; Z.div_mod_to_equations; lia);
                 rewrite H; clear H
               | let H := fresh in
                 assert (H : (u <=? n) = false) by (apply Z.leb_gt; Z.div_mod_to_equations; lia);
                 rewrite H; clear H ]
         end.
  all: cbn [List.find value longUnit symbol].
  all: repeat match goal with
         | |- context [0 <? ?q] =>
             first
               [ let H := fresh in
                 assert (H : (0 <? q) = true)
                   by (apply Z.ltb_lt; Z.div_mod_to_equations; lia);
                 rewrite H; clear H
               | let H := fresh in
                 assert (H : (0 <? q) = false)
                   by (apply Z.ltb_ge; Z.div_mod_to_equations; lia);
                 rewrite H; clear H ]
         end.
  all: try reflexivity.
  all: rewrite ?Z.mod_small by lia; reflexivity.
Qed.


Lemma Math_round_integer (k : Z) : Math_round (QArith_base.inject_Z k) = k.
Proof.
  unfold Math_round, QArith_base.inject_Z, QArith_base.Qplus, Qround.Qfloor. cbn.
  Z.div_mod_to_equations. lia.
Qed.

(** X21. [formatSeconds] rounds the duration to whole seconds (an
    absent duration counts as zero, a whole number is kept) and, when
    the result is not negative and at most [2 ^ 53 - 1], splits it into
    hours, minutes below 60 and seconds below 60 that add up to it; the
    text is the padded minutes and seconds joined by a colon, preceded
    by the hours and a colon exactly when the duration is at least one
    hour. *)
Theorem formatSeconds_decomposition
    (zeroPadding toString : Z -> string) (duration : option QArith_base.Q) :
  let total := Math_round (default (QArith_base.Qmake 0 1) duration) in
  0 <= total <= 2 ^ 53 - 1 ->
  exists hours minutes seconds,
    total = hours * 3600 + minutes * 60 + seconds /\
    0 <= hours /\ 0 <= minutes < 60 /\ 0 <= seconds < 60 /\
    (0 < hours <-> 3600 <= total) /\
    formatSeconds zeroPadding toString duration
    = (if 0 <? hours
       then toString hours +:+ ":" +:+ zeroPadding minutes +:+ ":" +:+ zeroPadding seconds
       else zeroPadding minutes +:+ ":" +:+ zeroPadding seconds) /\
    (duration = None -> total = 0) /\
    (forall k, duration = Some (QArith_base.inject_Z k) -> total = k).
Proof.
  intros total [Htotal _].
  exists (total / (60 * 60)), (Z.rem total (60 * 60) / 60), (Z.rem (Z.rem total (60 * 60)) 60).
  assert (Hrem1 : Z.rem total (60 * 60) = total mod (60 * 60))
    by (apply Z.rem_mod_nonneg; lia).
  assert (Hrem2 : Z.rem (Z.rem total (60 * 60)) 60 = (total mod (60 * 60)) mod 60).
  { rewrite Hrem1. apply Z.rem_mod_nonneg; [|lia]. apply Z.mod_pos_bound. lia. }
  split; [rewrite Hrem2, Hrem1; Z.div_mod_to_equations; lia|].
  split; [Z.div_mod_to_equations; lia|].
  split; [rewrite Hrem1; Z.div_mod_to_equations; lia|].
  split; [rewrite Hrem2; Z.div_mod_to_equations; lia|].
  split; [Z.div_mod_to_equations; lia|].
  split.
  - unfold formatSeconds. fold total. cbv zeta.
    destruct (0 <? total / (60 * 60)); reflexivity.
  - split.
    + intros ->. reflexivity.
    + intros k ->. apply Math_round_integer.
Qed.

End TimeUtilExtras.

Module TransportExtrasWitnesses.
Import Handler WebSocketService Samples TransportExtras.

(** X2 at the connected service: ping, pong, ping. *)
Lemma ping_pong_keeps_connection_witness :
  socket connected = Some connected_socket /\
  readyState connected_socket = OPEN /\
  hasAlreadySentUnansweredPing connected = false /\
  socket_onmessage (BlobData "pong") (state_of (sendPing env_valid connected))
  = (Normal tt, connected, []) /\
  pings_sent (trace (sendPing env_valid connected)) = 1%nat.
Proof.
  do 3 (split; [reflexivity|]).
  pose proof (ping_pong_keeps_connection env_valid connected connected_socket
                eq_refl eq_refl eq_refl) as H.
  cbv zeta in H. destruct H as (Hpong & _ & Hsent & _).
  split; [exact Hpong | exact Hsent].
Defined.

(** X3 at the connected service, whose keepalive interval has id 1. *)
Lemma reset_tears_down_once_witness :
  socket connected = Some connected_socket /\
  onclose connected_socket = true /\
  pingIntervalId connected = Some 1%nat /\
  let s' := state_of (reset env_valid CHANGE_TRIGGER.CLEANUP false connected) in
  sockets_closed (trace (reset env_valid CHANGE_TRIGGER.CLEANUP false connected)) = 1%nat /\
  interval_fires env_valid 1%nat s' = (Normal tt, s', []) /\
  reset env_valid CHANGE_TRIGGER.OFFLINE false s' = (Normal tt, s', []).
Proof.
  do 3 (split; [reflexivity|]).
  pose proof (reset_tears_down_once env_valid CHANGE_TRIGGER.CLEANUP CHANGE_TRIGGER.OFFLINE
                connected connected_socket eq_refl eq_refl) as H.
  cbv zeta in H. destruct H as (_ & Hclosed & _ & _ & _ & _ & _ & _ & Htick & Hagain).
  cbv zeta. split; [exact Hclosed|]. split; [exact (Htick env_valid 1%nat eq_refl) | exact Hagain].
Defined.

(** X4 at the connected service with no credential stored. *)
Lemma socket_failure_reconnects_once_witness :
  socket connected = Some connected_socket /\
  onerror connected_socket = true /\
  onclose connected_socket = true /\
  truthy_number (ACCESS_TOKEN_EXPIRATION env_absent) = false /\
  reconnect_calls (trace (socket_onerror env_absent connected)) = [CHANGE_TRIGGER.ERROR] /\
  sockets_closed (trace (socket_onerror env_absent connected)) = 1%nat /\
  trace (socket_onclose env_absent (state_of (socket_onerror env_absent connected))) = [].
Proof.
  do 4 (split; [reflexivity|]).
  pose proof (socket_failure_reconnects_once env_absent connected connected_socket
                eq_refl eq_refl eq_refl) as H.
  cbv zeta in H. destruct H as (Hcalls & _ & _ & _ & Hclosed & _ & Hafter).
  split; [exact Hcalls|]. split; [exact Hclosed|].
  exact (proj1 (proj2 (Hafter eq_refl))).
Defined.

(** X5 at the connected service (a socket with handlers attached) and
    at the constructed one (no socket). *)
Lemma connect_releases_previous_socket_witness :
  (socket connected = Some connected_socket /\
   onclose connected_socket = true /\
   truthy_string (clientId connected) = false /\
   sockets_closed (trace (connect env_valid (Some 2%nat) ThenCaller connected)) = 1%nat /\
   endpoint env_valid connected
   = "wss://prod-nginz-ssl.wire.com/await?access_token=token"%string /\
   intervals (window (state_of (connect env_valid (Some 2%nat) ThenCaller connected))) = []) /\
  (socket constructor = None /\
   trace (connect env_valid (Some 2%nat) ThenCaller constructor)
   = [NewWebSocket (endpoint env_valid constructor)]).
Proof.
  split.
  - do 3 (split; [reflexivity|]).
    pose proof (connect_releases_previous_socket env_valid (Some 2%nat) ThenCaller connected)
      as H.
    cbv zeta in H. destruct H as (_ & _ & _ & _ & _ & _ & Hurl & Hattached & _).
    destruct (Hattached connected_socket eq_refl eq_refl) as (Htrace & _ & _).
    split; [rewrite Htrace; reflexivity|].
    split; [exact (Hurl eq_refl) | reflexivity].
  - split; [reflexivity|].
    pose proof (connect_releases_previous_socket env_valid (Some 2%nat) ThenCaller constructor)
      as H.
    cbv zeta in H. destruct H as (_ & _ & _ & _ & _ & _ & _ & _ & Hnone).
    exact (proj1 (Hnone (or_introl eq_refl))).
Defined.

(** X6 at the connected service, for a frame carrying an array. *)
Lemma onmessage_delivers_parsed_event_witness :
  socket connected = Some connected_socket /\
  onmessage connected_socket = Some 1%nat /\
  "[true,null]"%string <> "pong"%string /\
  JSON.parse "[true,null]" = Some (JSON.Array [JSON.Bool true; JSON.Null]) /\
  socket_onmessage (BlobData "[true,null]") connected
  = (Normal tt, connected, [Notify 1%nat (JSON.Array [JSON.Bool true; JSON.Null])]) /\
  socket_onmessage (StringData "[true,null]") connected = (Normal tt, connected, []).
Proof.
  do 2 (split; [reflexivity|]).
  assert (Hne : "[true,null]"%string <> "pong"%string) by discriminate.
  split; [exact Hne|]. split; [reflexivity|].
  destruct (onmessage_delivers_parsed_event connected connected_socket 1%nat "[true,null]"
              (JSON.Array [JSON.Bool true; JSON.Null]) eq_refl eq_refl Hne eq_refl)
    as (Hblob & Htext).
  split; [exact Hblob | exact (Htext "[true,null]"%string)].
Defined.

(** X7 at a service whose socket is still connecting, and at the
    constructed one. *)
Lemma sendPing_not_open_reconnects_witness :
  (socket constructor = None /\
   sendPing env_valid constructor = (Throw TypeError, constructor, [])) /\
  (socket connecting = Some connecting_socket /\
   readyState connecting_socket <> OPEN /\
   reconnect_calls (trace (sendPing env_valid connecting)) = [CHANGE_TRIGGER.READY_STATE] /\
   pings_sent (trace (sendPing env_valid connecting)) = 0%nat) /\
  (sockets_opened (trace (sendPing env_absent connecting)) = [] /\
   hasAlreadySentUnansweredPing (state_of (sendPing env_absent connecting))
   = hasAlreadySentUnansweredPing connecting).
Proof.
  assert (Hne : readyState connecting_socket <> OPEN) by discriminate.
  split; [|split].
  - split; [reflexivity|].
    exact (proj1 (sendPing_not_open_reconnects env_valid constructor) eq_refl).
  - split; [reflexivity|]. split; [exact Hne|].
    pose proof (proj2 (sendPing_not_open_reconnects env_valid connecting)
                  connecting_socket eq_refl Hne) as H.
    cbv zeta in H. destruct H as (Hcalls & Hsent & _).
    split; [exact Hcalls | exact Hsent].
  - split; [reflexivity|].
    pose proof (proj2 (sendPing_not_open_reconnects env_absent connecting)
                  connecting_socket eq_refl Hne) as H.
    cbv zeta in H. destruct H as (_ & _ & _ & Hflag).
    exact (Hflag eq_refl).
Defined.

End TransportExtrasWitnesses.

Module CallExtrasWitnesses.
Import CallAPI Samples CallExtras.

(** X8 for a video call in one conversation, seen from another, and
    for a user whose identifier is "__proto__". *)
Lemma callStart_then_callGetState_witness :
  (generateCallId self "conversation-1" <> "__proto__"%string /\
   generateCallId self "conversation-2" <> generateCallId self "conversation-1" /\
   callGetState self "conversation-1"
     (callStart self "conversation-1" VIDEO ONEONONE false initial).1.2 = Some OUTGOING /\
   callGetState self "conversation-2"
     (callStart self "conversation-1" VIDEO ONEONONE false initial).1.2
   = callGetState self "conversation-2" initial) /\
  (generateCallId (mkWUser "__pro" "to__") "" = "__proto__"%string /\
   own (activeCalls initial) !! generateCallId (mkWUser "__pro" "to__") "" = None /\
   own (activeCalls (callStart (mkWUser "__pro" "to__") "" NORMAL ONEONONE false initial).1.2)
   = own (activeCalls initial) /\
   proto (activeCalls (callStart (mkWUser "__pro" "to__") "" NORMAL ONEONONE false
                         initial).1.2)
   = Some (mkWCall "" (Some OUTGOING) NORMAL ONEONONE false)).
Proof.
  assert (Hkey : generateCallId self "conversation-1" <> "__proto__"%string)
    by (vm_compute; discriminate).
  assert (Hne : generateCallId self "conversation-2" <> generateCallId self "conversation-1")
    by (vm_compute; discriminate).
  split.
  - pose proof (callStart_then_callGetState self self "conversation-1" "conversation-2"
                  VIDEO ONEONONE false initial) as H.
    cbv zeta in H. destruct H as (Hstate & _ & _ & Hother & _).
    split; [exact Hkey|]. split; [exact Hne|]. split; [exact Hstate|].
    exact (proj2 (proj2 (Hother Hkey)) Hne).
  - pose proof (callStart_then_callGetState (mkWUser "__pro" "to__") self ""
                  "conversation-2" NORMAL ONEONONE false initial) as H.
    cbv zeta in H. destruct H as (_ & _ & _ & _ & Hproto).
    do 2 (split; [reflexivity|]).
    exact (Hproto eq_refl eq_refl).
Defined.

End CallExtrasWitnesses.

Module RepositoryExtrasWitnesses.
Import Handler CallingRepository Samples RepositoryExtras.


(** X13 at a repository with one call, at an empty one, and at one
    with a call but no calling API. *)
Lemma leaveCallOnUnload_ends_every_call_witness :
  (api in_call = Some self /\
   ended (trace (leaveCallOnUnload in_call)) = [(self, "conversation-1"%string)]) /\
  (activeCalls constructor = [] /\
   leaveCallOnUnload constructor = (Normal tt, constructor, [])) /\
  (api (set_api None in_call) = None /\
   activeCalls (set_api None in_call) <> [] /\
   leaveCallOnUnload (set_api None in_call) = (Throw TypeError, set_api None in_call, [])).
Proof.
  split; [|split].
  - split; [reflexivity|].
    exact (proj2 (proj1 (leaveCallOnUnload_ends_every_call in_call) self eq_refl)).
  - split; [reflexivity|].
    exact (proj1 (proj2 (leaveCallOnUnload_ends_every_call constructor)) eq_refl).
  - assert (Hne : activeCalls (set_api None in_call) <> []) by discriminate.
    split; [reflexivity|]. split; [exact Hne|].
    exact (proj2 (proj2 (leaveCallOnUnload_ends_every_call (set_api None in_call)))
             eq_refl Hne).
Defined.

(** X14 for a conversation without participants, for an outgoing
    audio call in a group, and for an outgoing video call there. *)
Lemma checkCallingSupport_outcome_witness :
  (participating_user_ids empty_conversation = [] /\
   _checkCallingSupport true empty_conversation AUDIO CallAPI.OUTGOING repository
   = (Throw (CallError NOT_SUPPORTED), repository, [ShowModal CallEmptyConversation])) /\
  completion (_checkCallingSupport true group_conversation AUDIO CallAPI.OUTGOING repository)
  = Normal tt /\
  completion (_checkCallingSupport true group_conversation AUDIO_VIDEO CallAPI.OUTGOING
                repository)
  = Throw (CallError NOT_SUPPORTED).
Proof.
  split; [|split].
  - split; [reflexivity|].
    pose proof (checkCallingSupport_outcome true empty_conversation AUDIO CallAPI.OUTGOING
                  repository) as H.
    cbv zeta in H. destruct H as (_ & _ & _ & H). exact (H eq_refl).
  - pose proof (checkCallingSupport_outcome true group_conversation AUDIO CallAPI.OUTGOING
                  repository) as H.
    cbv zeta in H. destruct H as (_ & H & _). exact (proj1 (H eq_refl)).
  - pose proof (checkCallingSupport_outcome true group_conversation AUDIO_VIDEO
                  CallAPI.OUTGOING repository) as H.
    cbv zeta in H. destruct H as (_ & _ & H & _). exact (proj1 (H eq_refl)).
Defined.

End RepositoryExtrasWitnesses.

Module ConfigExtrasWitnesses.
Import Handler CallingRepository Samples RepositoryExtras.

(** X15 before the calling API is there; for a SETUP event that the
    engine accepts, and that it rejects with the code 1; and for an
    event whose content is [null]. *)
Lemma onCallEvent_setup_and_other_types_witness :
  Z.abs 1572000001999 <= MAX_SAFE_INTEGER /\
  (api constructor = None /\
   onCallEvent recv_msg_ok 1572000001999 setup_event "web_socket" constructor
   = (Throw TypeError, constructor, [])) /\
  (api repository = Some self /\
   completion (recv_msg_ok self (JSON.stringify (content setup_event)) 32 1572000001
                 (Some 1572000000) "conversation-1" "remote-user" "remote-client" repository)
   = Normal 0 /\
   JSON.get "type" (content setup_event) = Some (JSON.Str "SETUP") /\
   trace (onCallEvent recv_msg_ok 1572000001999 setup_event "web_socket" repository)
   = [RecvMsg self (JSON.stringify (content setup_event)) 32 1572000001 (Some 1572000000)
        "conversation-1" "remote-user" "remote-client";
      InjectEvent (VoiceChannelActivate "conversation-1" "remote-user" 1572000000500)
        "web_socket"]) /\
  (1 <> 0 /\
   trace (onCallEvent recv_msg_failed 1572000001999 setup_event "web_socket" repository)
   = [RecvMsg self (JSON.stringify (content setup_event)) 32 1572000001 (Some 1572000000)
        "conversation-1" "remote-user" "remote-client";
      Warn (MsgRecvMsgFailed 1)]) /\
  (content (mkCallEvent JSON.Null "conversation-1" "remote-user" "remote-client"
              1572000000500) = JSON.Null /\
   completion (onCallEvent recv_msg_ok 1572000001999
                 (mkCallEvent JSON.Null "conversation-1" "remote-user" "remote-client"
                    1572000000500) "web_socket" repository)
   = Throw TypeError).
Proof.
  assert (Hne : 1 <> 0) by discriminate.
  assert (Hsafe : Z.abs 1572000001999 <= MAX_SAFE_INTEGER) by discriminate.
  split; [exact Hsafe|].
  split; [|split; [|split]].
  - split; [reflexivity|].
    pose proof (onCallEvent_setup_and_other_types recv_msg_ok 1572000001999 setup_event
                  "web_socket" constructor Hsafe) as H.
    cbv zeta in H. exact (proj1 H eq_refl).
  - do 3 (split; [reflexivity|]).
    pose proof (onCallEvent_setup_and_other_types recv_msg_ok 1572000001999 setup_event
                  "web_socket" repository Hsafe) as H.
    cbv zeta in H.
    destruct (proj1 (proj2 H) self eq_refl) as (_ & _ & _ & _ & Hok).
    destruct (Hok eq_refl) as (_ & Hsetup & _).
    exact (proj2 (Hsetup eq_refl)).
  - split; [exact Hne|].
    pose proof (onCallEvent_setup_and_other_types recv_msg_failed 1572000001999 setup_event
                  "web_socket" repository Hsafe) as H.
    cbv zeta in H.
    destruct (proj1 (proj2 H) self eq_refl) as (_ & _ & _ & Hfailed & _).
    exact (proj2 (Hfailed 1 eq_refl Hne)).
  - split; [reflexivity|].
    pose proof (onCallEvent_setup_and_other_types recv_msg_ok 1572000001999
                  (mkCallEvent JSON.Null "conversation-1" "remote-user" "remote-client"
                     1572000000500) "web_socket" repository Hsafe) as H.
    cbv zeta in H.
    destruct (proj1 (proj2 H) self eq_refl) as (_ & _ & _ & _ & Hok).
    destruct (Hok eq_refl) as (Hnull & _).
    exact (proj1 (Hnull eq_refl)).
Defined.

(** X16 at a repository whose config expires 90 s after it was
    fetched: one second after the fetch, and 200 s after it on
    Firefox. *)
Lemma getConfig_serves_or_fetches_witness :
  (completion (getConfig false (fetched_at + 1000) configured)
   = Normal (ResolvedWith (mkCallingConfig config_response (fetched_at + 90000))) /\
   fetches (trace (getConfig false (fetched_at + 1000) configured)) = [] /\
   state_of (getConfig false (fetched_at + 1000) configured) = configured) /\
  (completion (getConfig true (fetched_at + 200000) configured) = Normal FromBackend /\
   fetches (trace (getConfig true (fetched_at + 200000) configured))
   = [Some CONFIG.MAX_FIREFOX_TURN_COUNT] /\
   callingConfig (state_of (getConfig true (fetched_at + 200000) configured)) = None).
Proof.
  split.
  - split; [reflexivity|].
    pose proof (getConfig_serves_or_fetches false (fetched_at + 1000) configured) as H.
    cbv zeta in H.
    destruct (proj1 H (mkCallingConfig config_response (fetched_at + 90000)) eq_refl)
      as (_ & _ & Hnone & Hsame).
    split; [exact Hnone | exact Hsame].
  - split; [reflexivity|].
    pose proof (getConfig_serves_or_fetches true (fetched_at + 200000) configured) as H.
    cbv zeta in H.
    destruct (proj1 (proj2 H) eq_refl) as (Hone & Hdropped & _).
    split; [exact Hone | exact Hdropped].
Defined.

(** X18 for a response with a [ttl] of 100 s stored now, and for the
    same response at the last time a [Date] can hold. *)
Lemma stored_config_lifetime_witness :
  (0 <= fetched_at <= MAX_TIME /\
   ttl config_response = Some 100 /\ 0 < 100 < 4000 /\
   fetched_at + 100 * 900 <= MAX_TIME /\
   callingConfig (state_of (_getConfigFromBackend_then fetched_at (Some config_response)
                              repository))
   = Some (mkCallingConfig config_response (fetched_at + 100 * 900))) /\
  (0 <= MAX_TIME <= MAX_TIME /\
   MAX_TIME < MAX_TIME + 100 * 900 /\
   completion (_getConfigFromBackend_then MAX_TIME (Some config_response) configured)
   = Throw RangeError /\
   callingConfig (state_of (_getConfigFromBackend_then MAX_TIME (Some config_response)
                              configured))
   = callingConfig configured /\
   timeouts (state_of (_getConfigFromBackend_then MAX_TIME (Some config_response)
                         configured))
   = []).
Proof.
  assert (Hnow : 0 <= fetched_at <= MAX_TIME) by (split; discriminate).
  assert (Hmax : 0 <= MAX_TIME <= MAX_TIME) by (split; discriminate).
  assert (Httl : ttl config_response = None \/ exists k, ttl config_response = Some k /\ 0 <= k).
  { right. exists 100. split; [reflexivity | discriminate]. }
  assert (Hin : 0 < 100 < 4000) by (split; reflexivity).
  assert (Hvalid : fetched_at + 100 * 900 <= MAX_TIME) by discriminate.
  assert (Hinvalid : MAX_TIME < MAX_TIME + 100 * 900) by reflexivity.
  split.
  - split; [exact Hnow|]. split; [reflexivity|]. split; [exact Hin|]. split; [exact Hvalid|].
    pose proof (stored_config_lifetime fetched_at config_response repository Hnow Httl) as H.
    cbv zeta in H. destruct H as (_ & _ & _ & _ & Hstored & _).
    destruct (Hstored Hvalid) as (id & _ & Hconfig & _).
    exact Hconfig.
  - split; [exact Hmax|]. split; [exact Hinvalid|].
    pose proof (stored_config_lifetime MAX_TIME config_response configured Hmax Httl) as H.
    cbv zeta in H. destruct H as (_ & _ & _ & _ & _ & Hthrows).
    destruct (Hthrows Hinvalid) as (Hcompl & Hkept & _).
    split; [exact Hcompl|]. split; [exact Hkept | reflexivity].
Defined.

End ConfigExtrasWitnesses.

Module TimeUtilExtrasWitnesses.
Import TimeUtil Samples TimeUtilExtras.

(** X19 for one hour, one minute, one second and a half. *)
Lemma mapUnits_floor_decomposition_witness :
  0 <= 3661500 /\
  3661500 < UNITS_IN_MILLIS.YEAR /\
  exists Y W D H M S,
    List.map value (mapUnits 3661500 false) = [Y; W; D; H; M; S] /\
    Y = 0 /\
    W * UNITS_IN_MILLIS.WEEK + D * UNITS_IN_MILLIS.DAY + H * UNITS_IN_MILLIS.HOUR
    + M * UNITS_IN_MILLIS.MINUTE + S * UNITS_IN_MILLIS.SECOND <= 3661500.
Proof.
  assert (Hpos : 0 <= 3661500) by discriminate.
  assert (Hyear : 3661500 < UNITS_IN_MILLIS.YEAR) by reflexivity.
  split; [exact Hpos|]. split; [exact Hyear|].
  destruct (mapUnits_floor_decomposition 3661500 Hpos)
    as (Y & W & D & H & M & S & Hvalues & _ & _ & _ & _ & _ & _ & _ & _ & Hsum).
  exists Y, W, D, H, M, S.
  destruct (Hsum Hyear) as (HY & Htotal). cbv zeta in Htotal.
  split; [exact Hvalues|]. split; [exact HY | exact (proj1 Htotal)].
Defined.

(** X20 for an hour and a half, and for 999 ms. *)
Lemma formatDuration_largest_unit_witness :
  (0 <= 5400000 < 2 ^ 52 /\
   UNITS_IN_MILLIS.HOUR <= 5400000 < UNITS_IN_MILLIS.DAY /\
   formatDuration 5400000 = Returned (mkDurationUnit (2, plural sym_h) sym_h 2)) /\
  (0 <= 999 < 2 ^ 52 /\ 999 < UNITS_IN_MILLIS.SECOND /\ formatDuration 999 = TypeError).
Proof.
  assert (Hpos : 0 <= 5400000 < 2 ^ 52) by (split; [discriminate | reflexivity]).
  assert (Hin : UNITS_IN_MILLIS.HOUR <= 5400000 < UNITS_IN_MILLIS.DAY)
    by (split; [discriminate | reflexivity]).
  assert (Hpos' : 0 <= 999 < 2 ^ 52) by (split; [discriminate | reflexivity]).
  assert (Hlow : 999 < UNITS_IN_MILLIS.SECOND) by reflexivity.
  split.
  - split; [exact Hpos|]. split; [exact Hin|].
    pose proof (formatDuration_largest_unit 5400000 Hpos) as H.
    cbv zeta in H. destruct H as (_ & _ & _ & Hhour & _).
    exact (Hhour Hin).
  - split; [exact Hpos'|]. split; [exact Hlow|].
    pose proof (formatDuration_largest_unit 999 Hpos') as H.
    cbv zeta in H. exact (proj1 H Hlow).
Defined.

(** X21 for 3661 seconds, with decimal rendering and two-digit
    padding. *)
Lemma formatSeconds_decomposition_witness :
  0 <= Math_round (QArith_base.inject_Z 3661) <= 2 ^ 53 - 1 /\
  exists hours minutes seconds,
    3661 = hours * 3600 + minutes * 60 + seconds /\
    0 < hours /\
    formatSeconds zeroPadding toString (Some (QArith_base.inject_Z 3661))
    = toString hours +:+ ":" +:+ zeroPadding minutes +:+ ":" +:+ zeroPadding seconds.
Proof.
  assert (Hpos : 0 <= Math_round (QArith_base.inject_Z 3661) <= 2 ^ 53 - 1)
    by (split; discriminate).
  split; [exact Hpos|].
  pose proof (formatSeconds_decomposition zeroPadding toString
                (Some (QArith_base.inject_Z 3661))) as H.
  cbv zeta in H.
  destruct (H Hpos) as (hours & minutes & seconds & Hsum & _ & _ & _ & Hhours & Htext & _).
  exists hours, minutes, seconds.
  assert (Hlt : 0 < hours) by (apply (proj2 Hhours); discriminate).
  split; [exact Hsum|]. split; [exact Hlt|].
  rewrite Htext. rewrite (proj2 (Z.ltb_lt 0 hours) Hlt). reflexivity.
Defined.

End TimeUtilExtrasWitnesses.
